(** * The GitHub access layer of repo-dashboard: cache, rate-limit gate,
      request executor, paginator and normalizers

    A shallow embedding of [services/github.ts] (the [Cache] class, the
    module-level [rateLimitInfo], and the methods of [GitHubService]) and of
    the shared types it produces, followed by the properties established for
    them.

    Conventions of the embedding.
    - The module-level mutable state (the cache's [Map], [rateLimitInfo]) and
      the clock read by [Date.now()] are fields of an explicit [World] that
      every method takes and returns.
    - [await] is sequencing in that state. A method invocation is followed
      from start to end on its own; interleavings with other in-flight
      invocations are outside the model.
    - [Promise.all] over requests started together is modelled in two
      steps: all of them are launched, in order, then their replies settle.
    - A thrown [Error] (or a rejected promise) is the [Err] case of [Result].
    - [while (true)] is a recursion on fuel; running out of fuel is [None]. *)

From Stdlib Require Import ZArith String Ascii List Bool Lia.
From stdpp Require Import base option list gmap strings pretty.

Local Open Scope string_scope.
Local Open Scope list_scope.
Local Open Scope Z_scope.

#[local] Set Warnings "-register-all".

(** ** JavaScript values used by the service *)

Module JS.

(** A JavaScript number as this code meets it: an integer, or [NaN] (what
    [parseInt] answers on a string with no leading digits). Integers are
    unbounded here where the code has doubles. *)
Inductive Num :=
| NaN
| Int (z : Z).

(** [a <= b]; any comparison with [NaN] is false. *)
Definition le (a b : Num) : bool :=
  match a, b with
  | Int x, Int y => x <=? y
  | _, _ => false
  end.

(** [a > b]. *)
Definition gt (a b : Num) : bool :=
  match a, b with
  | Int x, Int y => y <? x
  | _, _ => false
  end.

(** [a - b]. *)
Definition sub (a b : Num) : Num :=
  match a, b with
  | Int x, Int y => Int (x - y)
  | _, _ => NaN
  end.

(** [a * b]. *)
Definition mul (a b : Num) : Num :=
  match a, b with
  | Int x, Int y => Int (x * y)
  | _, _ => NaN
  end.

(** [Math.ceil(a / d)] for a positive integer constant [d]. *)
Definition ceil_div (a : Num) (d : Z) : Num :=
  match a with
  | Int x => Int (- ((- x) / d))
  | NaN => NaN
  end.

(** [`${a}`]; an integer prints in plain decimal (as JavaScript does below
    10^21). *)
Definition show (a : Num) : string :=
  match a with
  | Int x => pretty x
  | NaN => "NaN"
  end.

(** White space skipped by [parseInt] among the characters a header value
    can hold (one byte each): TAB, LF, VT, FF, CR, SP, NBSP. *)
Definition is_white_space (c : ascii) : bool :=
  let n := nat_of_ascii c in
  (((9 <=? n) && (n <=? 13)) || (n =? 32) || (n =? 160))%nat.

Fixpoint skip_white_space (s : string) : string :=
  match s with
  | String c rest => if is_white_space c then skip_white_space rest else s
  | EmptyString => s
  end.

Definition digit_value (c : ascii) : option Z :=
  let n := nat_of_ascii c in
  if ((48 <=? n) && (n <=? 57))%nat then Some (Z.of_nat n - 48) else None.

(** The longest prefix of decimal digits, read as an integer; [acc] is
    [None] until a first digit has been seen. *)
Fixpoint leading_digits (s : string) (acc : option Z) : option Z :=
  match s with
  | String c rest =>
      match digit_value c with
      | Some d => leading_digits rest (Some (10 * default 0 acc + d))
      | None => acc
      end
  | EmptyString => acc
  end.

(** [parseInt(s, 10)]. *)
Definition parseInt (s : string) : Num :=
  let s1 := skip_white_space s in
  let '(sign, s2) :=
    match s1 with
    | String "-" rest => (-1, rest)
    | String "+" rest => (1, rest)
    | _ => (1, s1)
    end in
  match leading_digits s2 None with
  | Some n => Int (sign * n)
  | None => NaN
  end.

(** Truthiness of a value of type [string | null]: [null] and the empty
    string are falsy. *)
Definition truthy_string (v : option string) : bool :=
  match v with
  | Some (String _ _) => true
  | _ => false
  end.

(** A value decoded from JSON, for the fields the declared types leave
    [unknown]. Numbers are integers here; a fraction is truthy like any
    non-zero number. *)
Inductive Value :=
| Null
| Boolean (b : bool)
| Number (n : Z)
| Str (s : string)
| Array (items : list Value)
| Object (fields : list (string * Value)).

(** Truthiness of [v]. *)
Definition truthy (v : Value) : bool :=
  match v with
  | Null => false
  | Boolean b => b
  | Number n => negb (n =? 0)
  | Str s => negb (String.eqb s "")
  | Array _ => true
  | Object _ => true
  end.

(** Truthiness of an optional property: a missing one reads [undefined]. *)
Definition truthy_field (v : option Value) : bool :=
  match v with
  | Some x => truthy x
  | None => false
  end.

(** [s.includes(c)] for a one-character needle. *)
Fixpoint includes (s : string) (c : ascii) : bool :=
  match s with
  | String d rest => if Ascii.eqb d c then true else includes rest c
  | EmptyString => false
  end.

(** [s.startsWith(p)]. *)
Definition startsWith (s p : string) : bool := String.prefix p s.

End JS.

(** ** The cache *)

Definition CACHE_TTL_MS : Z := 5 * 60 * 1000.

Record CacheEntry (T : Type) := mkCacheEntry {
  data : T;
  expiresAt : Z;
}.
Arguments mkCacheEntry {T} _ _.
Arguments data {T} _.
Arguments expiresAt {T} _.

(** The methods of [class Cache], on the [Map] the instance holds in its
    [store] field. [now] is the value [Date.now()] returns at the call. *)
Module Cache.
Section Methods.
Context {T : Type}.

Definition get (now : Z) (key : string) (store : gmap string (CacheEntry T))
  : option T * gmap string (CacheEntry T) :=
  match store !! key with
  | None => (None, store)
  | Some entry =>
      if expiresAt entry <? now
      then (None, delete key store)
      else (Some (data entry), store)
  end.

Definition set (now : Z) (key : string) (d : T)
           (store : gmap string (CacheEntry T))
  : gmap string (CacheEntry T) :=
  <[key := mkCacheEntry d (now + CACHE_TTL_MS)]> store.

Definition clear (store : gmap string (CacheEntry T))
  : gmap string (CacheEntry T) := ∅.

End Methods.
End Cache.

(** ** Shared types ([@repo-dashboard/shared]) *)

Module Repository.
Record t := mk {
  id : Z;
  name : string;
  fullName : string;
  description : option string;
  url : string;
  isPrivate : bool;
  defaultBranch : string;
}.
End Repository.

Module ItemType.
Inductive t := issue | pr | branch.
End ItemType.

Module Label.
Record t := mk { name : string; color : string }.
End Label.

Module Assignee.
Record t := mk { login : string; avatarUrl : string }.
End Assignee.

(** The optional properties [state?], [number?] and [isDraft?] are [None]
    when the object literal does not set them. [state] holds the string the
    code puts there: the casts [as 'open' | 'closed'] check nothing. *)
Module NormalizedItem.
Record t := mk {
  id : string;
  type : ItemType.t;
  repository : string;
  repositoryFullName : string;
  title : string;
  author : string;
  authorAvatarUrl : option string;
  labels : list Label.t;
  assignees : list Assignee.t;
  createdAt : string;
  updatedAt : string;
  url : string;
  state : option string;
  number : option Z;
  isDraft : option bool;
}.
End NormalizedItem.

(** ** Raw GitHub API types, as the interfaces of the service declare them.
    Upstream bodies are taken to have the declared shape, as the unchecked
    casts [as Promise<T>] do. *)

Module GitHubRepository.
Record t := mk {
  id : Z;
  name : string;
  full_name : string;
  description : option string;
  html_url : string;
  private : bool;
  default_branch : string;
}.
End GitHubRepository.

Module GitHubUser.
Record t := mk { login : string; avatar_url : string }.
End GitHubUser.

Module GitHubLabel.
Record t := mk { name : string; color : string }.
End GitHubLabel.

Module GitHubIssue.
Record t := mk {
  id : Z;
  number : Z;
  title : string;
  html_url : string;
  state : string;
  created_at : string;
  updated_at : string;
  user : option GitHubUser.t;
  labels : list GitHubLabel.t;
  assignees : list GitHubUser.t;
  pull_request : option JS.Value;   (* [pull_request?: unknown] *)
}.
End GitHubIssue.

Module GitHubPullRequest.
Record t := mk {
  id : Z;
  number : Z;
  title : string;
  html_url : string;
  state : string;
  created_at : string;
  updated_at : string;
  user : option GitHubUser.t;
  labels : list GitHubLabel.t;
  assignees : list GitHubUser.t;
  draft : bool;
  merged_at : option string;        (* [string | null] *)
}.
End GitHubPullRequest.

Module GitHubBranch.
Record head := mkHead { sha : string; url : string }.
Record t := mk {
  name : string;
  commit : head;
  protected : bool;
}.
End GitHubBranch.

Module GitHubCommit.
Record signature := mkSignature {
  name : string;
  email : string;
  date : string;
}.
Record detail := mkDetail {
  author : signature;
  committer : signature;
  message : string;
}.
Record t := mk {
  sha : string;
  commit : detail;
  author_user : option GitHubUser.t;      (* the outer [author] *)
  committer_user : option GitHubUser.t;   (* the outer [committer] *)
}.
End GitHubCommit.

(** ** Service state, failures and the upstream *)

Record RateLimitInfo := mkRateLimitInfo {
  remaining : JS.Num;
  reset : JS.Num;
  limit : JS.Num;
}.

(** What the cache's [Map<string, CacheEntry<unknown>>] holds: the list a
    normalizer stored. [get<T>] hands it back through an unchecked cast. *)
Inductive Cached :=
| Repositories (repos : list Repository.t)
| Items (items : list NormalizedItem.t).

(** The four ways [request] can throw, by the place that throws:
    the pre-flight gate, [fetch] itself rejecting, the [!response.ok] branch,
    and [response.json()] rejecting. *)
Inductive Failure :=
| RateLimitExceeded (message : string)
| NetworkFailure
| UpstreamError (message : string)
| DecodeError.

Inductive Result (A : Type) :=
| Ok (a : A)
| Err (e : Failure).
Arguments Ok {A} _.
Arguments Err {A} _.

(** A [fetch] response as [request] reads it.
    - [headers !! h] is [response.headers.get(h)].
    - [errorMessage] is the rendering of [JSON.parse(await response.text()).message]
      when the body parses and that property is truthy, [None] otherwise
      (the catch clause, or a falsy property).
    - [json] is the body decoded by [response.json()], [None] when that
      rejects.
    Reading the body of an error response ([response.text()]) is taken to
    complete. *)
Record Response (T : Type) := mkResponse {
  ok : bool;
  status : Z;
  statusText : string;
  headers : gmap string string;
  errorMessage : option string;
  json : option T;
}.
Arguments mkResponse {T} _ _ _ _ _ _.
Arguments ok {T} _.
Arguments status {T} _.
Arguments statusText {T} _.
Arguments headers {T} _.
Arguments errorMessage {T} _.
Arguments json {T} _.

(** How one [fetch] call ends: with a response, or rejected ([None]), after
    [elapsed] milliseconds. *)
Record Reply (T : Type) := mkReply {
  response : option (Response T);
  elapsed : N;
}.
Arguments mkReply {T} _ _.
Arguments response {T} _.
Arguments elapsed {T} _.

(** The upstream API: what it answers to a call, given the URLs of the calls
    made before it (oldest first) and the URL of this one. *)
Definition Upstream (T : Type) := list string -> string -> Reply T.

(** The module-level state, the clock, and the URLs passed to [fetch] so far
    (oldest first). The last field is bookkeeping of the model: it is how a
    statement says that a network call was or was not made. *)
Record World := mkWorld {
  rateLimitInfo : RateLimitInfo;
  cache : gmap string (CacheEntry Cached);
  clock : Z;
  calls : list string;
}.

Definition with_rateLimitInfo (rl : RateLimitInfo) (w : World) : World :=
  mkWorld rl (cache w) (clock w) (calls w).

Definition with_cache (c : gmap string (CacheEntry Cached)) (w : World) : World :=
  mkWorld (rateLimitInfo w) c (clock w) (calls w).

Definition with_clock (t : Z) (w : World) : World :=
  mkWorld (rateLimitInfo w) (cache w) t (calls w).

Definition with_calls (l : list string) (w : World) : World :=
  mkWorld (rateLimitInfo w) (cache w) (clock w) l.

(** The value [rateLimitInfo] is initialised to when the module is loaded at
    time [t0]. *)
Definition initialRateLimitInfo (t0 : Z) : RateLimitInfo :=
  mkRateLimitInfo (JS.Int 5000) (JS.Int (t0 + 3600000)) (JS.Int 5000).

(** ** [class GitHubService]

    The token held by the instance and the fixed headers [request] sends
    with it have no part in what the methods do with a reply: the [Upstream]
    stands for the API as it answers calls made with them. *)

Module GitHubService.

Definition baseUrl : string := "https://api.github.com".

(** *** [request] *)

(** The check at the head of [request]: [Some] failure when it throws. *)
Definition gate (w : World) : option Failure :=
  if JS.le (remaining (rateLimitInfo w)) (JS.Int 0) then
    let waitTime := JS.sub (reset (rateLimitInfo w)) (JS.Int (clock w)) in
    if JS.gt waitTime (JS.Int 0) then
      Some (RateLimitExceeded
              ("GitHub API rate limit exceeded. Resets in "
               +:+ JS.show (JS.ceil_div waitTime 1000) +:+ " seconds."))
    else None
  else None.

Definition resolve (endpoint : string) : string :=
  if JS.startsWith endpoint "http" then endpoint else baseUrl +:+ endpoint.

(** [if (h) field = parse(h)]: the assignment runs for a truthy header
    value only. *)
Definition fromHeader (h : option string) (parse : string -> JS.Num)
           (prior : JS.Num) : JS.Num :=
  if JS.truthy_string h then parse (default "" h) else prior.

(** The three assignments to [rateLimitInfo] after a response. *)
Definition updateRateLimit {T} (r : Response T) (rl : RateLimitInfo)
  : RateLimitInfo :=
  let remaining' := headers r !! "x-ratelimit-remaining" in
  let reset' := headers r !! "x-ratelimit-reset" in
  let limit' := headers r !! "x-ratelimit-limit" in
  mkRateLimitInfo
    (fromHeader remaining' JS.parseInt (remaining rl))
    (fromHeader reset' (fun v => JS.mul (JS.parseInt v) (JS.Int 1000)) (reset rl))
    (fromHeader limit' JS.parseInt (limit rl)).

(** What a settled [fetch] does to [rateLimitInfo]. *)
Definition absorb {T} (reply : Reply T) (rl : RateLimitInfo) : RateLimitInfo :=
  match response reply with
  | Some r => updateRateLimit r rl
  | None => rl
  end.

(** What [request] returns or throws once its [fetch] has settled. *)
Definition outcome {T} (reply : Reply T) : Result T :=
  match response reply with
  | None => Err NetworkFailure
  | Some r =>
      if ok r then
        match json r with
        | Some v => Ok v
        | None => Err DecodeError
        end
      else
        let message :=
          match errorMessage r with
          | Some m => "GitHub API error: " +:+ m
          | None =>
              "GitHub API error: " +:+ pretty (status r) +:+ " " +:+ statusText r
          end in
        Err (UpstreamError message)
  end.

(** [request] up to and including the call of [fetch]: the gate, then the
    call is recorded and the upstream chooses its reply. *)
Definition launch {T} (up : Upstream T) (endpoint : string) (w : World)
  : Result (Reply T) * World :=
  match gate w with
  | Some e => (Err e, w)
  | None =>
      let url := resolve endpoint in
      (Ok (up (calls w) url), with_calls (calls w ++ [url]) w)
  end.

(** [request] from the moment its [fetch] settles. *)
Definition settle {T} (reply : Reply T) (w : World) : Result T * World :=
  (outcome reply, with_rateLimitInfo (absorb reply (rateLimitInfo w)) w).

Definition request {T} (up : Upstream T) (endpoint : string) (w : World)
  : Result T * World :=
  match launch up endpoint w with
  | (Err e, w1) => (Err e, w1)
  | (Ok reply, w1) => settle reply (with_clock (clock w1 + Z.of_N (elapsed reply)) w1)
  end.

(** *** [fetchAllPages] *)

Definition perPage : nat := 100.

Definition pageUrl (endpoint : string) (page : nat) : string :=
  let separator := if JS.includes endpoint "?" then "&" else "?" in
  endpoint +:+ separator +:+ "per_page=" +:+ pretty perPage
           +:+ "&page=" +:+ pretty page.

(** The [while (true)] loop, entered with [results] and [page]. *)
Fixpoint fetchAllPages_loop {T} (fuel : nat) (up : Upstream (list T))
         (endpoint : string) (results : list T) (page : nat) (w : World)
  : option (Result (list T) * World) :=
  match fuel with
  | O => None
  | S fuel' =>
      match request up (pageUrl endpoint page) w with
      | (Err e, w1) => Some (Err e, w1)
      | (Ok data, w1) =>
          let results1 := results ++ data in
          if (length data <? perPage)%nat
          then Some (Ok results1, w1)
          else fetchAllPages_loop fuel' up endpoint results1 (S page) w1
      end
  end.

Definition fetchAllPages {T} (fuel : nat) (up : Upstream (list T))
           (endpoint : string) (w : World)
  : option (Result (list T) * World) :=
  fetchAllPages_loop fuel up endpoint [] 1%nat w.

(** *** The normalizers *)

(** [cache.get(key)] on the service's cache. *)
Definition cacheGet (key : string) (w : World) : option Cached * World :=
  let '(cached, store) := Cache.get (clock w) key (cache w) in
  (cached, with_cache store w).

(** [cache.set(key, d)] on the service's cache. *)
Definition cacheSet (key : string) (d : Cached) (w : World) : World :=
  with_cache (Cache.set (clock w) key d (cache w)) w.

(** The frame shared by the four public methods: answer from the cache
    when [cache.get] finds a value (a stored list is truthy, also when
    empty); otherwise run [fetch], and on success store and return what it
    built. *)
Definition cachedOr (cacheKey : string)
           (fetch : World -> option (Result Cached * World)) (w : World)
  : option (Result Cached * World) :=
  match cacheGet cacheKey w with
  | (Some cached, w1) => Some (Ok cached, w1)
  | (None, w1) =>
      match fetch w1 with
      | None => None
      | Some (Err e, w2) => Some (Err e, w2)
      | Some (Ok normalized, w2) =>
          Some (Ok normalized, cacheSet cacheKey normalized w2)
      end
  end.

(** Sequencing of a fetched list into the step that normalizes it. *)
Definition andThen {A B} (m : option (Result A * World))
           (k : A -> World -> option (Result B * World))
  : option (Result B * World) :=
  match m with
  | None => None
  | Some (Err e, w) => Some (Err e, w)
  | Some (Ok a, w) => k a w
  end.

Definition normalizeRepo (repo : GitHubRepository.t) : Repository.t :=
  Repository.mk
    (GitHubRepository.id repo)
    (GitHubRepository.name repo)
    (GitHubRepository.full_name repo)
    (GitHubRepository.description repo)
    (GitHubRepository.html_url repo)
    (GitHubRepository.private repo)
    (GitHubRepository.default_branch repo).

Definition getOrganizationRepos (fuel : nat)
           (up : Upstream (list GitHubRepository.t)) (org : string) (w : World)
  : option (Result Cached * World) :=
  let cacheKey := "repos:" +:+ org in
  cachedOr cacheKey
    (fun w1 =>
       andThen (fetchAllPages fuel up ("/orgs/" +:+ org +:+ "/repos") w1)
         (fun repos w2 => Some (Ok (Repositories (map normalizeRepo repos)), w2)))
    w.

Definition normalizeLabel (label : GitHubLabel.t) : Label.t :=
  Label.mk (GitHubLabel.name label) (GitHubLabel.color label).

Definition normalizeAssignee (assignee : GitHubUser.t) : Assignee.t :=
  Assignee.mk (GitHubUser.login assignee) (GitHubUser.avatar_url assignee).

(** [user?.login ?? 'unknown'] *)
Definition authorLogin (user : option GitHubUser.t) : string :=
  match user with
  | Some u => GitHubUser.login u
  | None => "unknown"
  end.

(** [user?.avatar_url ?? null] *)
Definition authorAvatar (user : option GitHubUser.t) : option string :=
  match user with
  | Some u => Some (GitHubUser.avatar_url u)
  | None => None
  end.

Definition normalizeIssue (owner repo : string) (issue : GitHubIssue.t)
  : NormalizedItem.t :=
  NormalizedItem.mk
    ("issue-" +:+ owner +:+ "-" +:+ repo +:+ "-" +:+ pretty (GitHubIssue.id issue))
    ItemType.issue
    repo
    (owner +:+ "/" +:+ repo)
    (GitHubIssue.title issue)
    (authorLogin (GitHubIssue.user issue))
    (authorAvatar (GitHubIssue.user issue))
    (map normalizeLabel (GitHubIssue.labels issue))
    (map normalizeAssignee (GitHubIssue.assignees issue))
    (GitHubIssue.created_at issue)
    (GitHubIssue.updated_at issue)
    (GitHubIssue.html_url issue)
    (Some (GitHubIssue.state issue))
    (Some (GitHubIssue.number issue))
    None.

(** [issues.filter((issue) => !issue.pull_request)] *)
Definition filterIssues (issues : list GitHubIssue.t) : list GitHubIssue.t :=
  List.filter (fun issue => negb (JS.truthy_field (GitHubIssue.pull_request issue)))
              issues.

Definition getRepositoryIssues (fuel : nat)
           (up : Upstream (list GitHubIssue.t)) (owner repo : string) (w : World)
  : option (Result Cached * World) :=
  let cacheKey := "issues:" +:+ owner +:+ "/" +:+ repo in
  cachedOr cacheKey
    (fun w1 =>
       andThen (fetchAllPages fuel up
                  ("/repos/" +:+ owner +:+ "/" +:+ repo +:+ "/issues?state=all") w1)
         (fun issues w2 =>
            let filteredIssues := filterIssues issues in
            Some (Ok (Items (map (normalizeIssue owner repo) filteredIssues)), w2)))
    w.

Definition normalizePull (owner repo : string) (pr : GitHubPullRequest.t)
  : NormalizedItem.t :=
  NormalizedItem.mk
    ("pr-" +:+ owner +:+ "-" +:+ repo +:+ "-" +:+ pretty (GitHubPullRequest.id pr))
    ItemType.pr
    repo
    (owner +:+ "/" +:+ repo)
    (GitHubPullRequest.title pr)
    (authorLogin (GitHubPullRequest.user pr))
    (authorAvatar (GitHubPullRequest.user pr))
    (map normalizeLabel (GitHubPullRequest.labels pr))
    (map normalizeAssignee (GitHubPullRequest.assignees pr))
    (GitHubPullRequest.created_at pr)
    (GitHubPullRequest.updated_at pr)
    (GitHubPullRequest.html_url pr)
    (Some (if JS.truthy_string (GitHubPullRequest.merged_at pr)
           then "merged" else GitHubPullRequest.state pr))
    (Some (GitHubPullRequest.number pr))
    (Some (GitHubPullRequest.draft pr)).

Definition getRepositoryPulls (fuel : nat)
           (up : Upstream (list GitHubPullRequest.t)) (owner repo : string)
           (w : World)
  : option (Result Cached * World) :=
  let cacheKey := "pulls:" +:+ owner +:+ "/" +:+ repo in
  cachedOr cacheKey
    (fun w1 =>
       andThen (fetchAllPages fuel up
                  ("/repos/" +:+ owner +:+ "/" +:+ repo +:+ "/pulls?state=all") w1)
         (fun pulls w2 => Some (Ok (Items (map (normalizePull owner repo) pulls)), w2)))
    w.

(** *** Branches and their head commits *)

(** The endpoint [getCommitDetails] passes to [request]. *)
Definition commitEndpoint (owner repo sha : string) : string :=
  "/repos/" +:+ owner +:+ "/" +:+ repo +:+ "/commits/" +:+ sha.

Definition getCommitDetails (up : Upstream GitHubCommit.t)
           (owner repo sha : string) (w : World)
  : Result GitHubCommit.t * World :=
  request up (commitEndpoint owner repo sha) w.

(** [branches.map(async ...)] runs each callback, in list order, up to the
    [await] of its [fetch]: every gate is checked and every call issued
    before any response is looked at. *)
Fixpoint launchAll {T} (up : Upstream T) (endpoints : list string) (w : World)
  : list (Result (Reply T)) * World :=
  match endpoints with
  | [] => ([], w)
  | endpoint :: rest =>
      let '(r, w1) := launch up endpoint w in
      let '(rs, w2) := launchAll up rest w1 in
      (r :: rs, w2)
  end.

Fixpoint insertByElapsed {T} (r : Reply T) (l : list (Reply T))
  : list (Reply T) :=
  match l with
  | [] => [r]
  | x :: l' =>
      if (elapsed r <=? elapsed x)%N then r :: l else x :: insertByElapsed r l'
  end.

(** The order in which replies settle: by time taken, calls issued earlier
    first among equals. *)
Definition arrivalOrder {T} (l : list (Reply T)) : list (Reply T) :=
  foldr insertByElapsed [] l.

Definition issued {T} (launched : list (Result (Reply T))) : list (Reply T) :=
  omap (fun l => match l with Ok reply => Some reply | Err _ => None end) launched.

(** [await Promise.all(...)] over requests launched together: each reply
    updates [rateLimitInfo] as it settles, the clock moves to the last
    arrival, and the results come back in the order of the input. *)
Definition joinAll {T} (launched : list (Result (Reply T))) (w : World)
  : list (Result T) * World :=
  let replies := issued launched in
  let rl := foldl (fun rl reply => absorb reply rl) (rateLimitInfo w)
                  (arrivalOrder replies) in
  let waited := foldr N.max 0%N (map elapsed replies) in
  (map (fun l => match l with Ok reply => outcome reply | Err e => Err e end)
       launched,
   with_clock (clock w + Z.of_N waited) (with_rateLimitInfo rl w)).

(** The outcome of [getCommitDetails] for the head of each branch. *)
Definition commitLookups (up : Upstream GitHubCommit.t) (owner repo : string)
           (branches : list GitHubBranch.t) (w : World)
  : list (Result GitHubCommit.t) * World :=
  let endpoints :=
    map (fun b => commitEndpoint owner repo (GitHubBranch.sha (GitHubBranch.commit b)))
        branches in
  let '(launched, w1) := launchAll up endpoints w in
  joinAll launched w1.

(** [try { ... return { branch, commit } } catch { return { branch, commit: null } }] *)
Definition caught (lookup : Result GitHubCommit.t) : option GitHubCommit.t :=
  match lookup with
  | Ok commit => Some commit
  | Err _ => None
  end.

(** [commit?.commit?.committer?.date || ''] *)
Definition lastCommitDate (commit : option GitHubCommit.t) : string :=
  match commit with
  | Some c =>
      let date := GitHubCommit.date (GitHubCommit.committer (GitHubCommit.commit c)) in
      if JS.truthy_string (Some date) then date else ""
  | None => ""
  end.

Definition normalizeBranch (owner repo : string)
           (bc : GitHubBranch.t * option GitHubCommit.t) : NormalizedItem.t :=
  let '(branch, commit) := bc in
  NormalizedItem.mk
    ("branch-" +:+ owner +:+ "-" +:+ repo +:+ "-" +:+ GitHubBranch.name branch)
    ItemType.branch
    repo
    (owner +:+ "/" +:+ repo)
    (GitHubBranch.name branch)
    ""
    None
    []
    []
    (lastCommitDate commit)
    (lastCommitDate commit)
    ("https://github.com/" +:+ owner +:+ "/" +:+ repo +:+ "/tree/"
       +:+ GitHubBranch.name branch)
    None
    None
    None.

Definition getRepositoryBranches (fuel : nat)
           (up : Upstream (list GitHubBranch.t))
           (upCommit : Upstream GitHubCommit.t) (owner repo : string)
           (w : World)
  : option (Result Cached * World) :=
  let cacheKey := "branches:" +:+ owner +:+ "/" +:+ repo in
  cachedOr cacheKey
    (fun w1 =>
       andThen (fetchAllPages fuel up
                  ("/repos/" +:+ owner +:+ "/" +:+ repo +:+ "/branches") w1)
         (fun branches w2 =>
            let '(lookups, w3) := commitLookups upCommit owner repo branches w2 in
            let branchesWithCommits := zip branches (map caught lookups) in
            Some (Ok (Items (map (normalizeBranch owner repo) branchesWithCommits)),
                  w3)))
    w.


Definition clearCache (w : World) : World :=
  with_cache (Cache.clear (cache w)) w.

End GitHubService.

(** ** Runs of the upstream *)

(** [serves up endpoint page w pages w']: starting in world [w], the requests
    for pages [page], [page + 1], ... of [endpoint] succeed one after the
    other, return the lists [pages] in that order, and leave world [w']. *)
Fixpoint serves {T} (up : Upstream (list T)) (endpoint : string) (page : nat)
         (w : World) (pages : list (list T)) (w' : World) : Prop :=
  match pages with
  | [] => w' = w
  | data :: rest =>
      exists w1,
        GitHubService.request up (GitHubService.pageUrl endpoint page) w = (Ok data, w1)
        /\ serves up endpoint (S page) w1 rest w'
  end.

(** ** Outcomes of a normalizer call, as statements about the cache describe
    them *)

(** [answersFromCache key w run]: a live entry under [key] is returned as it
    is, and the world stays as it was (no call is made). *)
Definition answersFromCache (key : string) (w : World)
           (run : option (Result Cached * World)) : Prop :=
  forall entry,
    cache w !! key = Some entry -> clock w <= expiresAt entry ->
    run = Some (Ok (data entry), w).

(** [writesNothingOnFailure key w run]: if the call [run], made in world [w]
    with cache key [key], fails, then the cache it leaves has no entry under
    [key] and has every other key as before; it is the cache of [w] itself
    when that had no entry under [key], and otherwise the entry found there
    had expired and has been deleted. *)
Definition writesNothingOnFailure (key : string) (w : World)
           (run : option (Result Cached * World)) : Prop :=
  forall e w',
    run = Some (Err e, w') ->
    cache w' !! key = None
    /\ (forall k, k <> key -> cache w' !! k = cache w !! k)
    /\ (cache w !! key = None -> cache w' = cache w)
    /\ (forall entry, cache w !! key = Some entry ->
                      expiresAt entry < clock w /\ cache w' = delete key (cache w)).

(** ** Concrete upstreams and worlds, used to run the service *)

Module Scenario.

(** A fresh process: module loaded at time 0, nothing cached, no call made,
    the clock at one second. *)
Definition fresh : World :=
  mkWorld (initialRateLimitInfo 0) ∅ 1000 [].

(** The quota is used up and resets ten seconds from now. *)
Definition exhausted : World :=
  mkWorld (mkRateLimitInfo (JS.Int 0) (JS.Int 11000) (JS.Int 5000)) ∅ 1000 [].

(** The quota is used up, but its reset time has passed. *)
Definition stale : World :=
  mkWorld (mkRateLimitInfo (JS.Int 0) (JS.Int 500) (JS.Int 5000)) ∅ 1000 [].

Definition okResponse {T} (hs : gmap string string) (body : T) : Response T :=
  mkResponse true 200 "OK" hs None (Some body).

Definition errorResponse {T} (hs : gmap string string) : Response T :=
  mkResponse false 403 "Forbidden" hs (Some "API rate limit exceeded") None.

(** An upstream that answers every call with the same reply. *)
Definition always {T} (r : Response T) : Upstream T :=
  fun _ _ => mkReply (Some r) 5.

(** An upstream that serves [pages] in turn, one per call, and empty pages
    after the last one. *)
Definition paged {T} (pages : list (list T)) : Upstream (list T) :=
  fun earlier _ => mkReply (Some (okResponse ∅ (nth (length earlier) pages []))) 5.

(** 237 items in pages of 100, 100 and 37. *)
Definition pages237 : list (list nat) :=
  [seq 0 100; seq 100 100; seq 200 37].

(** 300 items in three full pages; the fourth page is empty. *)
Definition pages300 : list (list nat) :=
  [seq 0 100; seq 100 100; seq 200 100; []].

Definition issuesEndpoint : string := "/repos/acme/site/issues?state=all".

Definition after (elapsed : Z) (urls : list string) : World :=
  mkWorld (initialRateLimitInfo 0) ∅ (1000 + elapsed) urls.

Definition octocat : GitHubUser.t :=
  GitHubUser.mk "octocat" "https://avatars.example/octocat".

Definition bug : GitHubLabel.t := GitHubLabel.mk "bug" "d73a4a".

(** An entry of the issues listing; [marker] is its [pull_request]
    property. *)
Definition issueRecord (id : Z) (marker : option JS.Value) : GitHubIssue.t :=
  GitHubIssue.mk id (id - 1000) "Crash on start"
                 "https://github.com/acme/site/issues/1" "open"
                 "2024-01-01T00:00:00Z" "2024-01-02T00:00:00Z"
                 (Some octocat) [bug] [octocat] marker.

(** The [pull_request] object GitHub puts on an issue that is a pull
    request. *)
Definition pullMarker : JS.Value :=
  JS.Object [("url", JS.Str "https://api.github.com/repos/acme/site/pulls/2")].

Definition pullRecord (id : Z) (state : string) (merged_at : option string)
  : GitHubPullRequest.t :=
  GitHubPullRequest.mk id (id - 2000) "Fix crash"
                       "https://github.com/acme/site/pull/2" state
                       "2024-02-01T00:00:00Z" "2024-02-02T00:00:00Z"
                       None [] [] true merged_at.

(** A listing of one issue and one pull request. *)
Definition issuesListing : list GitHubIssue.t :=
  [issueRecord 1001 None; issueRecord 1002 (Some pullMarker)].

(** A merged pull request whose raw state is ['closed'], and an open one. *)
Definition pullsListing : list GitHubPullRequest.t :=
  [pullRecord 2001 "closed" (Some "2024-02-03T00:00:00Z");
   pullRecord 2002 "open" None].

Definition pullsEndpoint : string := "/repos/acme/site/pulls?state=all".

Definition branchRecord (name sha : string) : GitHubBranch.t :=
  GitHubBranch.mk name
    (GitHubBranch.mkHead sha ("https://api.github.com/repos/acme/site/commits/" +:+ sha))
    false.

Definition threeBranches : list GitHubBranch.t :=
  [branchRecord "main" "aaa"; branchRecord "dev" "bbb"; branchRecord "fix/crash" "ccc"].

(** A commit authored on 1 March and committed (rebased) on 5 March. *)
Definition commitRecord : GitHubCommit.t :=
  GitHubCommit.mk "aaa"
    (GitHubCommit.mkDetail
       (GitHubCommit.mkSignature "Ann" "ann@example.org" "2024-03-01T10:00:00Z")
       (GitHubCommit.mkSignature "Bob" "bob@example.org" "2024-03-05T12:00:00Z")
       "Fix crash")
    None None.

(** The commits endpoint: an error for the commit [bbb], the commit record
    for any other. *)
Definition commits : Upstream GitHubCommit.t :=
  fun _ url =>
    if String.eqb url (GitHubService.resolve
                         (GitHubService.commitEndpoint "acme" "site" "bbb"))
    then mkReply (Some (errorResponse ∅)) 7
    else mkReply (Some (okResponse ∅ commitRecord)) 5.

(** A world whose cache holds, under the issues key of acme/site, an entry
    that expired at time 900; the clock is at 1000. *)
Definition staleEntry : World :=
  mkWorld (initialRateLimitInfo 0)
          {[ "issues:acme/site" := mkCacheEntry (Items []) 900 ]} 1000 [].

Definition branchesEndpoint : string := "/repos/acme/site/branches".

(** An upstream whose first page is full and whose second call fails. *)
Definition secondPageFails : Upstream (list GitHubIssue.t) :=
  fun earlier _ =>
    match earlier with
    | [] => mkReply (Some (okResponse ∅ (repeat (issueRecord 1001 None) 100))) 5
    | _ => mkReply (Some (errorResponse ∅)) 5
    end.

(** An upstream whose body is not JSON. *)
Definition garbled : Upstream (list GitHubIssue.t) :=
  fun _ _ => mkReply (Some (mkResponse true 200 "OK" ∅ None None)) 5.

(** An upstream that cannot be reached. *)
Definition unreachable : Upstream (list GitHubIssue.t) :=
  fun _ _ => mkReply None 30000.

(** Rate-limit headers of a response that spent the quota; it carries no
    [x-ratelimit-limit]. *)
Definition spentHeaders : gmap string string :=
  {[ "x-ratelimit-remaining" := "0"; "x-ratelimit-reset" := "1700000000" ]}.

(** A response whose [x-ratelimit-remaining] header is there with an empty
    value. *)
Definition blankHeaders : gmap string string :=
  {[ "x-ratelimit-remaining" := "" ]}.

End Scenario.


(** ** Cache keys and invariants of the service's cache *)

(** The key each public method builds for its cache entry. *)
Module CacheKey.

Definition repos (org : string) : string := "repos:" +:+ org.

Definition issues (owner repo : string) : string :=
  "issues:" +:+ owner +:+ "/" +:+ repo.

Definition pulls (owner repo : string) : string :=
  "pulls:" +:+ owner +:+ "/" +:+ repo.

Definition branches (owner repo : string) : string :=
  "branches:" +:+ owner +:+ "/" +:+ repo.

End CacheKey.

(** The cache holds a list of repositories under the keys that start with
    [repos:], and a list of items under every other key. *)
Definition WellShaped (store : gmap string (CacheEntry Cached)) : Prop :=
  forall key entry,
    store !! key = Some entry ->
    match data entry with
    | Repositories _ => JS.startsWith key "repos:" = true
    | Items _ => JS.startsWith key "repos:" = false
    end.

(** No entry of the cache expires later than five minutes from now. *)
Definition WithinTtl (w : World) : Prop :=
  forall key entry,
    cache w !! key = Some entry -> expiresAt entry <= clock w + CACHE_TTL_MS.

(** [servedFromCache v w' again]: in any world that has the cache of [w'] and
    a clock at most five minutes past that of [w'], the call [again] returns
    [v] and leaves the world as it is. *)
Definition servedFromCache (v : Cached) (w' : World)
           (again : World -> option (Result Cached * World)) : Prop :=
  forall w'',
    cache w'' = cache w' ->
    clock w'' <= clock w' + CACHE_TTL_MS ->
    again w'' = Some (Ok v, w'').

(** [touchesOnly key w run]: whatever the call [run] made in world [w]
    returns, it leaves every cache key other than [key] as it was. *)
Definition touchesOnly (key : string) (w : World)
           (run : option (Result Cached * World)) : Prop :=
  forall r w' k,
    run = Some (r, w') -> k <> key -> cache w' !! k = cache w !! k.


(** ** More concrete upstreams and worlds *)

Module Fixture.

(** Rate-limit headers of a response with quota left. *)
Definition healthyHeaders : gmap string string :=
  {[ "x-ratelimit-remaining" := "4999" ]}.

(** An upstream that serves full pages of issues and reports, with each, that
    the quota is spent until long after. *)
Definition spending : Upstream (list GitHubIssue.t) :=
  fun _ _ =>
    mkReply (Some (Scenario.okResponse Scenario.spentHeaders
                     (repeat (Scenario.issueRecord 1001 None) 100))) 5.

(** The world [spending] leaves after its first page. *)
Definition spent : World :=
  mkWorld (mkRateLimitInfo (JS.Int 0) (JS.Int 1700000000000) (JS.Int 5000))
          ∅ 1005
          [GitHubService.resolve (GitHubService.pageUrl Scenario.issuesEndpoint 1)].

End Fixture.


(** [preservedBy P w run]: if [P] holds of the world [w] in which the call
    [run] is made, it holds of the world the call leaves, whatever it
    returns. *)
Definition preservedBy (P : World -> Prop) (w : World)
           (run : option (Result Cached * World)) : Prop :=
  P w -> forall r w', run = Some (r, w') -> P w'.

(** [goesUpstream url w run]: the call [run], made in world [w], passes [url]
    to [fetch] before anything else. *)
Definition goesUpstream (url : string) (w : World)
           (run : option (Result Cached * World)) : Prop :=
  forall r w', run = Some (r, w') -> exists more, calls w' = calls w ++ url :: more.


(** [endsAfter up endpoint w n]: listing [endpoint] from world [w], the
    upstream serves [n] full pages and then answers the request for page
    [n + 1] with a short page or with a failure; the listing comes to an end
    with that request. *)
Definition endsAfter {T} (up : Upstream (list T)) (endpoint : string) (w : World)
           (n : nat) : Prop :=
  exists (full : list (list T)) (w1 : World),
    length full = n
    /\ serves up endpoint 1 w full w1
    /\ Forall (fun data => (GitHubService.perPage <= length data)%nat) full
    /\ match (GitHubService.request up (GitHubService.pageUrl endpoint (S n)) w1).1 with
       | Ok data => (length data < GitHubService.perPage)%nat
       | Err _ => True
       end.

(** [requestsFirst url w run]: the call [run], made in world [w], returns,
    and the first URL it has passed to [fetch] is [url]. *)
Definition requestsFirst (url : string) (w : World)
           (run : option (Result Cached * World)) : Prop :=
  exists r w' more, run = Some (r, w') /\ calls w' = calls w ++ url :: more.


Module Fixture2.

(** The world a first, successful listing of the issues of acme/site
    leaves. *)
Definition cachedIssues : World :=
  mkWorld (initialRateLimitInfo 0)
          {[ "issues:acme/site" :=
               mkCacheEntry (Items [GitHubService.normalizeIssue "acme" "site"
                                      (Scenario.issueRecord 1001 None)]) 301005 ]}
          1005
          [GitHubService.resolve (GitHubService.pageUrl Scenario.issuesEndpoint 1)].

Definition repoRecord : GitHubRepository.t :=
  GitHubRepository.mk 42 "site" "acme/site" None "https://github.com/acme/site"
                      true "main".

End Fixture2.


(** The shape of cached value that a key calls for. *)
Definition fits (key : string) (v : Cached) : Prop :=
  match v with
  | Repositories _ => JS.startsWith key "repos:" = true
  | Items _ => JS.startsWith key "repos:" = false
  end.


(** ** The HTTP API ([routes/github.ts] and the handlers of [index.ts])

    A handler is followed from the request's parameters to the response it
    sends. The body is the object handed to [res.json], before it is
    serialized. *)

Module Api.

Record ApiError := mkApiError {
  error : string;
  message : string;
  statusCode : option Z;
}.

Inductive Body :=
| RepositoriesResponse (repositories : Cached)
| ItemsResponse (items : Cached)
| ErrorResponse (e : ApiError)
| MessageResponse (message : string)
| HealthResponse (status timestamp : string) (remaining limit : JS.Num)
                 (resetsAt : string).

Record HttpResponse := mkHttpResponse {
  status : Z;
  body : Body;
}.

(** What the JavaScript runtime supplies: the [message] of the errors it
    throws itself ([fetch] rejecting, [response.json()] rejecting,
    [toISOString] on an invalid date), and the rendering of a valid time
    value by [toISOString]. *)
Record Runtime := mkRuntime {
  fetchFailed : string;
  invalidJson : string;
  invalidTime : string;
  toISOString : Z -> string;
}.

(** [err.message] of what the service throws. *)
Definition messageOf (rt : Runtime) (e : Failure) : string :=
  match e with
  | RateLimitExceeded m => m
  | NetworkFailure => fetchFailed rt
  | UpstreamError m => m
  | DecodeError => invalidJson rt
  end.

(** [res.json(body)]: the status stays at its default. *)
Definition json (b : Body) : HttpResponse := mkHttpResponse 200 b.

(** The global error handler of [index.ts]. *)
Definition errorHandler (errMessage : string) : HttpResponse :=
  let statusCode := 500 in
  mkHttpResponse statusCode
    (ErrorResponse
       (mkApiError "Internal Server Error"
                   (if JS.truthy_string (Some errMessage) then errMessage
                    else "An unexpected error occurred")
                   (Some statusCode))).

(** The 404 handler of [index.ts]. *)
Definition notFound : HttpResponse :=
  mkHttpResponse 404
    (ErrorResponse
       (mkApiError "Not Found" "The requested endpoint does not exist" (Some 404))).

(** [asyncHandler(fn)]: what the handler sent, or, when its promise rejects,
    what the error handler sends for the error passed to [next]. *)
Definition asyncHandler (rt : Runtime)
           (handled : option (Result HttpResponse * World))
  : option (HttpResponse * World) :=
  match handled with
  | None => None
  | Some (Ok sent, w) => Some (sent, w)
  | Some (Err e, w) => Some (errorHandler (messageOf rt e), w)
  end.

(** The tail shared by the four data handlers: await the service, wrap what
    it returns, send it. *)
Definition sendResult (wrap : Cached -> Body)
           (run : option (Result Cached * World))
  : option (Result HttpResponse * World) :=
  match run with
  | None => None
  | Some (Ok v, w) => Some (Ok (json (wrap v)), w)
  | Some (Err e, w) => Some (Err e, w)
  end.

Definition badRequest (message : string) : HttpResponse :=
  mkHttpResponse 400 (ErrorResponse (mkApiError "Bad Request" message (Some 400))).

(** [GET /api/orgs/:org/repos] *)
Definition orgRepos (rt : Runtime) (fuel : nat)
           (up : Upstream (list GitHubRepository.t)) (org : string) (w : World)
  : option (HttpResponse * World) :=
  asyncHandler rt
    (if negb (JS.truthy_string (Some org))
     then Some (Ok (badRequest "Organization name is required"), w)
     else sendResult RepositoriesResponse
            (GitHubService.getOrganizationRepos fuel up org w)).

(** [GET /api/repos/:owner/:repo/issues] *)
Definition repoIssues (rt : Runtime) (fuel : nat)
           (up : Upstream (list GitHubIssue.t)) (owner repo : string) (w : World)
  : option (HttpResponse * World) :=
  asyncHandler rt
    (if negb (JS.truthy_string (Some owner)) || negb (JS.truthy_string (Some repo))
     then Some (Ok (badRequest "Owner and repository name are required"), w)
     else sendResult ItemsResponse
            (GitHubService.getRepositoryIssues fuel up owner repo w)).

(** [GET /api/repos/:owner/:repo/pulls] *)
Definition repoPulls (rt : Runtime) (fuel : nat)
           (up : Upstream (list GitHubPullRequest.t)) (owner repo : string)
           (w : World)
  : option (HttpResponse * World) :=
  asyncHandler rt
    (if negb (JS.truthy_string (Some owner)) || negb (JS.truthy_string (Some repo))
     then Some (Ok (badRequest "Owner and repository name are required"), w)
     else sendResult ItemsResponse
            (GitHubService.getRepositoryPulls fuel up owner repo w)).

(** [GET /api/repos/:owner/:repo/branches] *)
Definition repoBranches (rt : Runtime) (fuel : nat)
           (up : Upstream (list GitHubBranch.t))
           (upCommit : Upstream GitHubCommit.t) (owner repo : string) (w : World)
  : option (HttpResponse * World) :=
  asyncHandler rt
    (if negb (JS.truthy_string (Some owner)) || negb (JS.truthy_string (Some repo))
     then Some (Ok (badRequest "Owner and repository name are required"), w)
     else sendResult ItemsResponse
            (GitHubService.getRepositoryBranches fuel up upCommit owner repo w)).

(** [POST /api/cache/clear] *)
Definition cacheClear (w : World) : HttpResponse * World :=
  (json (MessageResponse "Cache cleared successfully"), GitHubService.clearCache w).



End Api.



Module Fixture3.

Definition runtime : Api.Runtime :=
  Api.mkRuntime "fetch failed" "Unexpected token < in JSON at position 0"
                "Invalid time value" (fun t => "T" +:+ pretty t).


(** The quota is used up and resets ten seconds from now; the cache holds,
    under the issues key of acme/site, an entry that expired at time 900 (the
    clock is at 1000), and a live entry under the pulls key. *)
Definition spentWithStaleEntry : World :=
  mkWorld (mkRateLimitInfo (JS.Int 0) (JS.Int 11000) (JS.Int 5000))
          {[ "issues:acme/site" := mkCacheEntry (Items []) 900;
             "pulls:acme/site" := mkCacheEntry (Items []) 200000 ]}
          1000 [].

(** The same world once the expired entry is gone. *)
Definition spentWithoutStaleEntry : World :=
  mkWorld (mkRateLimitInfo (JS.Int 0) (JS.Int 11000) (JS.Int 5000))
          {[ "pulls:acme/site" := mkCacheEntry (Items []) 200000 ]}
          1000 [].

End Fixture3.


(** ** The frontend

    Components are followed through the values they compute from their props
    and state, and through the new state their handlers pass to the setters.
    What the browser supplies to them is a parameter. *)

(** The browser's part: locale comparison of strings (its sign is what
    matters), the time value of [new Date(s)] ([NaN] for a string that is not
    a date), [trim] and [toLowerCase]. *)
Record Browser := mkBrowser {
  localeCompare : string -> string -> Z;
  getTime : string -> JS.Num;
  trim : string -> string;
  toLowerCase : string -> string;
}.

(** Array and string methods. *)
Module Arr.

(** [l.includes(x)] on an array of strings. *)
Definition includes (l : list string) (x : string) : bool :=
  existsb (String.eqb x) l.

(** [s.includes(t)] on strings: [t] occurs in [s]. *)
Fixpoint occurs (t s : string) : bool :=
  String.prefix t s
  || match s with
     | String _ rest => occurs t rest
     | EmptyString => false
     end.

Fixpoint insert {A} (compare : A -> A -> Z) (x : A) (l : list A) : list A :=
  match l with
  | [] => [x]
  | y :: rest =>
      if compare x y <=? 0 then x :: l else y :: insert compare x rest
  end.

(** [l.sort(compare)], as the language fixes it for a consistent comparator:
    the arrangement in which [compare] is never positive from an earlier to
    a later element, elements that compare equal keeping their order. *)
Definition sort {A} (compare : A -> A -> Z) (l : list A) : list A :=
  foldr (insert compare) [] l.

(** [[...new Set(l)]]: the elements in order of first occurrence. *)
Fixpoint unique (l : list string) : list string :=
  match l with
  | [] => []
  | x :: rest => x :: List.filter (fun y => negb (String.eqb y x)) (unique rest)
  end.

(** The comparator of [l.sort()] on strings: by code units. *)
Definition byCodeUnits (a b : string) : Z :=
  match String.compare a b with
  | Lt => -1
  | Eq => 0
  | Gt => 1
  end.

End Arr.

Module SortField.
Inductive t := repository | createdAt | updatedAt | labels | assignee.

(** [a === b] *)
Definition eqb (a b : t) : bool :=
  match a, b with
  | repository, repository
  | createdAt, createdAt
  | updatedAt, updatedAt
  | labels, labels
  | assignee, assignee => true
  | _, _ => false
  end.
End SortField.

Module SortDirection.
Inductive t := asc | desc.
End SortDirection.

Module ColumnConfig.
Record t := mk {
  sortField : SortField.t;
  sortDirection : SortDirection.t;
  filterRepos : list string;
  filterLabels : list string;
  filterAssignees : list string;
}.
End ColumnConfig.

(** [Column.tsx] *)
Module Column.

(** The predicate of [items.filter(...)] in [filteredItems]. *)
Definition passes (config : ColumnConfig.t) (item : NormalizedItem.t) : bool :=
  if (0 <? length (ColumnConfig.filterRepos config))%nat
     && negb (Arr.includes (ColumnConfig.filterRepos config)
                           (NormalizedItem.repository item))
  then false
  else
    if (0 <? length (ColumnConfig.filterLabels config))%nat
       && (let itemLabels := map Label.name (NormalizedItem.labels item) in
           negb (existsb (fun label => Arr.includes itemLabels label)
                         (ColumnConfig.filterLabels config)))
    then false
    else
      if (0 <? length (ColumnConfig.filterAssignees config))%nat
         && (let itemAssignees := map Assignee.login (NormalizedItem.assignees item) in
             negb (existsb (fun assignee => Arr.includes itemAssignees assignee)
                           (ColumnConfig.filterAssignees config)))
      then false
      else true.

Definition filteredItems (config : ColumnConfig.t) (items : list NormalizedItem.t)
  : list NormalizedItem.t :=
  List.filter (passes config) items.

Definition getDateValue (browser : Browser) (dateStr : string) : Z :=
  if negb (JS.truthy_string (Some dateStr)) then 0
  else
    match getTime browser dateStr with
    | JS.NaN => 0
    | JS.Int time => time
    end.

(** The two date cases of the comparator, on the time values. *)
Definition compareTimes (multiplier aTime bTime : Z) : Z :=
  if (aTime =? 0) && (bTime =? 0) then 0
  else if aTime =? 0 then 1
  else if bTime =? 0 then -1
  else multiplier * (aTime - bTime).

(** [l[0]?.name || ''] *)
Definition firstOr (l : list string) : string :=
  match l with
  | x :: _ => if JS.truthy_string (Some x) then x else ""
  | [] => ""
  end.

(** The comparator passed to [sorted.sort]. *)
Definition compareItems (browser : Browser) (config : ColumnConfig.t)
           (a b : NormalizedItem.t) : Z :=
  let multiplier :=
    match ColumnConfig.sortDirection config with
    | SortDirection.asc => 1
    | SortDirection.desc => -1
    end in
  match ColumnConfig.sortField config with
  | SortField.repository =>
      multiplier * localeCompare browser (NormalizedItem.repository a)
                                 (NormalizedItem.repository b)
  | SortField.createdAt =>
      compareTimes multiplier
                   (getDateValue browser (NormalizedItem.createdAt a))
                   (getDateValue browser (NormalizedItem.createdAt b))
  | SortField.updatedAt =>
      compareTimes multiplier
                   (getDateValue browser (NormalizedItem.updatedAt a))
                   (getDateValue browser (NormalizedItem.updatedAt b))
  | SortField.labels =>
      let aLabel := firstOr (map Label.name (NormalizedItem.labels a)) in
      let bLabel := firstOr (map Label.name (NormalizedItem.labels b)) in
      multiplier * localeCompare browser aLabel bLabel
  | SortField.assignee =>
      let aAssignee := firstOr (map Assignee.login (NormalizedItem.assignees a)) in
      let bAssignee := firstOr (map Assignee.login (NormalizedItem.assignees b)) in
      multiplier * localeCompare browser aAssignee bAssignee
  end.

Definition sortedItems (browser : Browser) (config : ColumnConfig.t)
           (items : list NormalizedItem.t) : list NormalizedItem.t :=
  let sorted := filteredItems config items in
  Arr.sort (compareItems browser config) sorted.

(** [handleSortChange]: the configuration passed to [onConfigChange]. *)
Definition handleSortChange (config : ColumnConfig.t) (field : SortField.t)
  : ColumnConfig.t :=
  if SortField.eqb (ColumnConfig.sortField config) field
  then ColumnConfig.mk (ColumnConfig.sortField config)
         (match ColumnConfig.sortDirection config with
          | SortDirection.asc => SortDirection.desc
          | SortDirection.desc => SortDirection.asc
          end)
         (ColumnConfig.filterRepos config)
         (ColumnConfig.filterLabels config)
         (ColumnConfig.filterAssignees config)
  else ColumnConfig.mk field SortDirection.desc
         (ColumnConfig.filterRepos config)
         (ColumnConfig.filterLabels config)
         (ColumnConfig.filterAssignees config).

Inductive FilterType := repos | labels | assignees.

(** [config[key]] for the key [`filter${Type}`]. *)
Definition current (config : ColumnConfig.t) (type : FilterType) : list string :=
  match type with
  | repos => ColumnConfig.filterRepos config
  | labels => ColumnConfig.filterLabels config
  | assignees => ColumnConfig.filterAssignees config
  end.

(** [handleFilterChange]: the configuration passed to [onConfigChange]. *)
Definition handleFilterChange (config : ColumnConfig.t) (type : FilterType)
           (value : string) : ColumnConfig.t :=
  let updated :=
    if Arr.includes (current config type) value
    then List.filter (fun v => negb (String.eqb v value)) (current config type)
    else current config type ++ [value] in
  match type with
  | repos =>
      ColumnConfig.mk (ColumnConfig.sortField config) (ColumnConfig.sortDirection config)
                      updated (ColumnConfig.filterLabels config)
                      (ColumnConfig.filterAssignees config)
  | labels =>
      ColumnConfig.mk (ColumnConfig.sortField config) (ColumnConfig.sortDirection config)
                      (ColumnConfig.filterRepos config) updated
                      (ColumnConfig.filterAssignees config)
  | assignees =>
      ColumnConfig.mk (ColumnConfig.sortField config) (ColumnConfig.sortDirection config)
                      (ColumnConfig.filterRepos config)
                      (ColumnConfig.filterLabels config) updated
  end.

(** [clearFilters]: the configuration passed to [onConfigChange]. *)
Definition clearFilters (config : ColumnConfig.t) : ColumnConfig.t :=
  ColumnConfig.mk (ColumnConfig.sortField config) (ColumnConfig.sortDirection config)
                  [] [] [].

Definition hasActiveFilters (config : ColumnConfig.t) : bool :=
  (0 <? length (ColumnConfig.filterRepos config))%nat
  || (0 <? length (ColumnConfig.filterLabels config))%nat
  || (0 <? length (ColumnConfig.filterAssignees config))%nat.

End Column.


(** [Dashboard.tsx] *)
Module Dashboard.




Record FilterOptions := mkFilterOptions {
  repos : list string;
  labels : list string;
  assignees : list string;
}.

Definition filterOptions (issues pulls branches : list NormalizedItem.t)
  : FilterOptions :=
  let allItems := issues ++ pulls ++ branches in
  mkFilterOptions
    (Arr.sort Arr.byCodeUnits
       (Arr.unique (map NormalizedItem.repository allItems)))
    (Arr.sort Arr.byCodeUnits
       (Arr.unique
          (flat_map (fun item => map Label.name (NormalizedItem.labels item))
                    allItems)))
    (Arr.sort Arr.byCodeUnits
       (Arr.unique
          (flat_map (fun item => map Assignee.login (NormalizedItem.assignees item))
                    allItems))).

Definition ISSUES_CONFIG : string := "repo-dashboard:issuesConfig".
Definition PULLS_CONFIG : string := "repo-dashboard:pullsConfig".
Definition BRANCHES_CONFIG : string := "repo-dashboard:branchesConfig".

Definition defaultIssuesConfig : ColumnConfig.t :=
  ColumnConfig.mk SortField.createdAt SortDirection.desc [] [] [].

Definition defaultPullsConfig : ColumnConfig.t :=
  ColumnConfig.mk SortField.createdAt SortDirection.desc [] [] [].

Definition defaultBranchesConfig : ColumnConfig.t :=
  ColumnConfig.mk SortField.updatedAt SortDirection.desc [] [] [].

End Dashboard.

(** [RepoSelector.tsx] *)
Module RepoSelector.

Definition filteredRepos (browser : Browser) (repositories : list Repository.t)
           (searchTerm : string) : list Repository.t :=
  if negb (JS.truthy_string (Some (trim browser searchTerm))) then repositories
  else
    let term := toLowerCase browser searchTerm in
    List.filter
      (fun repo =>
         Arr.occurs term (toLowerCase browser (Repository.name repo))
         || match Repository.description repo with
            | Some description => Arr.occurs term (toLowerCase browser description)
            | None => false
            end)
      repositories.

(** [handleToggle]: the updater passed to [setSelectedIds], applied to the
    previous set. *)
Definition handleToggle (id : Z) (prev : gset Z) : gset Z :=
  if bool_decide (id ∈ prev) then prev ∖ {[ id ]} else prev ∪ {[ id ]}.

(** [handleSelectAll]: the set passed to [setSelectedIds]. *)
Definition handleSelectAll (filteredRepos : list Repository.t) : gset Z :=
  list_to_set (map Repository.id filteredRepos).

Definition handleDeselectAll : gset Z := ∅.

(** [handleConfirm]: the list passed to [onConfirm]. *)
Definition handleConfirm (repositories : list Repository.t) (selectedIds : gset Z)
  : list Repository.t :=
  List.filter (fun r => bool_decide (Repository.id r ∈ selectedIds)) repositories.

Definition selectedCount (selectedIds : gset Z) : nat := size selectedIds.

End RepoSelector.

(** [ItemCard.tsx] *)
Module ItemCard.

(** [Math.floor(a / d)] for a positive integer constant [d]. *)
Definition floorDiv (a : JS.Num) (d : Z) : JS.Num :=
  match a with
  | JS.Int x => JS.Int (x / d)
  | JS.NaN => JS.NaN
  end.

(** [formatRelativeTime]; [now] is the time value of [new Date()]. *)
Definition formatRelativeTime (browser : Browser) (now : Z) (dateString : string)
  : string :=
  if negb (JS.truthy_string (Some dateString)) then ""
  else
    let diffMs := JS.sub (JS.Int now) (getTime browser dateString) in
    let diffSecs := floorDiv diffMs 1000 in
    let diffMins := floorDiv diffSecs 60 in
    let diffHours := floorDiv diffMins 60 in
    let diffDays := floorDiv diffHours 24 in
    let diffWeeks := floorDiv diffDays 7 in
    let diffMonths := floorDiv diffDays 30 in
    let diffYears := floorDiv diffDays 365 in
    if JS.gt diffYears (JS.Int 0) then JS.show diffYears +:+ "y ago"
    else if JS.gt diffMonths (JS.Int 0) then JS.show diffMonths +:+ "mo ago"
    else if JS.gt diffWeeks (JS.Int 0) then JS.show diffWeeks +:+ "w ago"
    else if JS.gt diffDays (JS.Int 0) then JS.show diffDays +:+ "d ago"
    else if JS.gt diffHours (JS.Int 0) then JS.show diffHours +:+ "h ago"
    else if JS.gt diffMins (JS.Int 0) then JS.show diffMins +:+ "m ago"
    else "just now".

End ItemCard.

(** [App.tsx]: the helpers around [localStorage]. The storage is the map from
    keys to the strings stored under them. *)
Module App.

Definition APP_STATE : string := "repo-dashboard:appState".
Definition ORGANIZATION : string := "repo-dashboard:organization".
Definition REPOSITORIES : string := "repo-dashboard:repositories".
Definition SELECTED_REPOS : string := "repo-dashboard:selectedRepos".
Definition DASHBOARD_DATA : string := "repo-dashboard:dashboardData".

(** [Object.values(STORAGE_KEYS)] *)
Definition STORAGE_KEYS : list string :=
  [APP_STATE; ORGANIZATION; REPOSITORIES; SELECTED_REPOS; DASHBOARD_DATA].

(** [JSON.parse] and [JSON.stringify] at the type of the stored value;
    [parse] is [None] where [JSON.parse] throws. *)
Record Json (T : Type) := mkJson {
  parse : string -> option T;
  stringify : T -> string;
}.
Arguments mkJson {T} _ _.
Arguments parse {T} _ _.
Arguments stringify {T} _ _.

Definition loadFromStorage {T} (json : Json T) (key : string) (defaultValue : T)
           (storage : gmap string string) : T :=
  match storage !! key with
  | Some stored =>
      if JS.truthy_string (Some stored) then
        match parse json stored with
        | Some v => v
        | None => defaultValue
        end
      else defaultValue
  | None => defaultValue
  end.

(** [saveToStorage]. [fits] tells whether the browser accepts the storage
    that [setItem] would produce; when it does not, [setItem] throws and the
    storage stays as it is. *)
Definition saveToStorage {T} (json : Json T) (fits : gmap string string -> bool)
           (key : string) (value : T) (storage : gmap string string)
  : gmap string string :=
  let next := <[key := stringify json value]> storage in
  if fits next then next else storage.

Definition clearStorage (storage : gmap string string) : gmap string string :=
  foldl (fun st key => delete key st) storage STORAGE_KEYS.

End App.

Module Fixture4.

Definition browser : Browser :=
  mkBrowser (fun a b => Arr.byCodeUnits a b)
            (fun s => if String.eqb s "2024-03-05T12:00:00Z" then JS.Int 1709640000000
                      else if String.eqb s "2024-03-01T10:00:00Z" then JS.Int 1709287200000
                      else JS.NaN)
            (fun s => s) (fun s => s).

Definition labelFilter : ColumnConfig.t :=
  ColumnConfig.mk SortField.updatedAt SortDirection.desc [] ["bug"] [].

Definition byCreated : ColumnConfig.t :=
  ColumnConfig.mk SortField.createdAt SortDirection.desc [] [] [].

Definition branchItem (name : string) (commit : option GitHubCommit.t)
  : NormalizedItem.t :=
  GitHubService.normalizeBranch "acme" "site" (Scenario.branchRecord name "aaa", commit).

Definition boolJson : App.Json bool :=
  App.mkJson (fun s => if String.eqb s "true" then Some true
                       else if String.eqb s "false" then Some false else None)
             (fun b => if b then "true" else "false").

Definition repoA : Repository.t :=
  Repository.mk 1 "site" "acme/site" None "https://github.com/acme/site" false "main".

Definition repoB : Repository.t :=
  Repository.mk 2 "docs" "acme/docs" (Some "The site's documentation")
                "https://github.com/acme/docs" false "main".

End Fixture4.


(** [Ordered R l]: [R] holds from every element of [l] to every later one. *)
Fixpoint Ordered {A} (R : A -> A -> Prop) (l : list A) : Prop :=
  match l with
  | [] => True
  | x :: rest => Forall (R x) rest /\ Ordered R rest
  end.

(** The date a column sorts by, for the two date fields. *)
Definition sortDate (browser : Browser) (config : ColumnConfig.t)
           (item : NormalizedItem.t) : Z :=
  match ColumnConfig.sortField config with
  | SortField.createdAt => Column.getDateValue browser (NormalizedItem.createdAt item)
  | _ => Column.getDateValue browser (NormalizedItem.updatedAt item)
  end.

(** [a] may come before [b] in a column sorted by date: an item without a
    date (value 0) only before other items without a date, and two dated
    items in the direction of the sort. *)
Definition dateOrder (direction : SortDirection.t) (a b : Z) : Prop :=
  (a = 0 -> b = 0)
  /\ (a <> 0 -> b <> 0 ->
      match direction with
      | SortDirection.asc => a <= b
      | SortDirection.desc => b <= a
      end).


(** [Dashboard.tsx]: the helpers around [localStorage]. *)
Module DashboardStorage.

Definition loadConfig (json : App.Json ColumnConfig.t) (key : string)
           (defaultValue : ColumnConfig.t) (storage : gmap string string)
  : ColumnConfig.t :=
  match storage !! key with
  | Some stored =>
      if JS.truthy_string (Some stored) then
        match App.parse json stored with
        | Some config => config
        | None => defaultValue
        end
      else defaultValue
  | None => defaultValue
  end.

Definition saveConfig (json : App.Json ColumnConfig.t)
           (fits : gmap string string -> bool) (key : string)
           (config : ColumnConfig.t) (storage : gmap string string)
  : gmap string string :=
  let next := <[key := App.stringify json config]> storage in
  if fits next then next else storage.

End DashboardStorage.

(* ===================================================================== *)
(** * Properties *)
(* ===================================================================== *)

Example parseInt_digits : JS.parseInt "4999" = JS.Int 4999.
Proof. reflexivity. Qed.

Example parseInt_empty : JS.parseInt "" = JS.NaN.
Proof. reflexivity. Qed.

Example parseInt_prefix : JS.parseInt " -12abc" = JS.Int (-12).
Proof. reflexivity. Qed.

Example show_int : JS.show (JS.Int 237) = "237".
Proof. reflexivity. Qed.

(** ** The cache *)

Section CacheFacts.
Context {T : Type}.
Implicit Types (store : gmap string (CacheEntry T)) (key : string) (v : T).

Lemma get_fresh store key v now t :
  t <= now + CACHE_TTL_MS ->
  Cache.get t key (Cache.set now key v store)
  = (Some v, Cache.set now key v store).
Proof.
  intros Ht. unfold Cache.get, Cache.set.
  rewrite lookup_insert_eq. cbn [expiresAt data].
  destruct (Z.ltb_spec (now + CACHE_TTL_MS) t) as [Hlt|_]; [lia | reflexivity].
Qed.

Lemma get_expired store key v now t :
  now + CACHE_TTL_MS < t ->
  Cache.get t key (Cache.set now key v store) = (None, delete key store).
Proof.
  intros Ht. unfold Cache.get, Cache.set.
  rewrite lookup_insert_eq. cbn [expiresAt data].
  destruct (Z.ltb_spec (now + CACHE_TTL_MS) t) as [_|Hge]; [| lia].
  by rewrite delete_insert_eq.
Qed.

Lemma get_absent store key t :
  store !! key = None -> Cache.get t key store = (None, store).
Proof. intros H. unfold Cache.get. by rewrite H. Qed.

(** A lookup never adds an entry, and touches no key but its own. *)
Lemma get_store_lookup store key t k :
  (Cache.get t key store).2 !! k
  = if decide (k = key)
    then match store !! key with
         | Some entry => if expiresAt entry <? t then None else Some entry
         | None => None
         end
    else store !! k.
Proof.
  unfold Cache.get. case_decide as Hk.
  - subst k. destruct (store !! key) as [entry|] eqn:E; cbn; [|done].
    destruct (expiresAt entry <? t); cbn; [apply lookup_delete_eq | done].
  - destruct (store !! key) as [entry|] eqn:E; cbn; [|done].
    destruct (expiresAt entry <? t); cbn; [by apply lookup_delete_ne | done].
Qed.

End CacheFacts.

(** C7. For every key and value, [cache.get] right after [cache.set] with that
    key (and at any time up to the expiry, five minutes later) returns the
    stored value and leaves the store as it is; at any time more than
    [CACHE_TTL_MS] = 300000 ms after the [set], [cache.get] on that key
    returns [null] and the store it leaves has no entry under the key, every
    other key being untouched. *)
Theorem cache_get_after_set :
  forall (T : Type) (store : gmap string (CacheEntry T)) (key : string) (v : T)
         (now t : Z),
    CACHE_TTL_MS = 300000
    /\ Cache.get now key (Cache.set now key v store)
       = (Some v, Cache.set now key v store)
    /\ (t <= now + CACHE_TTL_MS ->
        Cache.get t key (Cache.set now key v store)
        = (Some v, Cache.set now key v store))
    /\ (now + CACHE_TTL_MS < t ->
        let '(found, store') := Cache.get t key (Cache.set now key v store) in
        found = None
        /\ store' = delete key (Cache.set now key v store)
        /\ store' !! key = None
        /\ forall k, k <> key -> store' !! k = store !! k).
Proof.
  intros T store key v now t. split; [reflexivity|].
  split; [apply get_fresh; unfold CACHE_TTL_MS; lia|].
  split; [apply get_fresh|].
  intros Ht. rewrite get_expired by exact Ht.
  split; [reflexivity|]. split.
  { unfold Cache.set. by rewrite delete_insert_eq. }
  split; [apply lookup_delete_eq|].
  intros k Hk. by apply lookup_delete_ne.
Qed.

Lemma cache_get_after_set_witness :
  Cache.get 1000 "repos:acme" (Cache.set 1000 "repos:acme" 7%nat ∅)
  = (Some 7%nat, Cache.set 1000 "repos:acme" 7%nat ∅)
  /\ (Cache.get 301001 "repos:acme" (Cache.set 1000 "repos:acme" 7%nat ∅)).1 = None.
Proof.
  split.
  - apply (cache_get_after_set nat ∅ "repos:acme" 7%nat 1000 1000).
    vm_compute. discriminate.
  - pose proof (cache_get_after_set nat ∅ "repos:acme" 7%nat 1000 301001) as H.
    destruct H as (_ & _ & _ & H).
    destruct (Cache.get 301001 "repos:acme" (Cache.set 1000 "repos:acme" 7%nat ∅))
      as [found store'].
    apply H. reflexivity.
Defined.

(** ** The request executor *)

Section RequestFacts.
Context {T : Type}.
Implicit Types (up : Upstream T) (w : World) (endpoint : string).

Lemma gt_sub_zero (a : JS.Num) (now : Z) :
  JS.gt (JS.sub a (JS.Int now)) (JS.Int 0) = JS.gt a (JS.Int now).
Proof.
  destruct a as [|z]; cbn; [reflexivity|].
  destruct (Z.ltb_spec 0 (z - now)), (Z.ltb_spec now z); (reflexivity || lia).
Qed.

(** The gate throws exactly when the quota is spent and not yet reset, and
    what it throws is the rate-limit error. *)
Lemma gate_closed w :
  JS.le (remaining (rateLimitInfo w)) (JS.Int 0)
  && JS.gt (reset (rateLimitInfo w)) (JS.Int (clock w)) = true ->
  exists message, GitHubService.gate w = Some (RateLimitExceeded message).
Proof.
  unfold GitHubService.gate. rewrite gt_sub_zero.
  intros [-> ->]%andb_true_iff. eauto.
Qed.

Lemma gate_open w :
  JS.le (remaining (rateLimitInfo w)) (JS.Int 0)
  && JS.gt (reset (rateLimitInfo w)) (JS.Int (clock w)) = false ->
  GitHubService.gate w = None.
Proof.
  unfold GitHubService.gate. rewrite gt_sub_zero.
  destruct (JS.le _ _); cbn; [intros ->|]; reflexivity.
Qed.

Lemma request_gated up endpoint w e :
  GitHubService.gate w = Some e ->
  GitHubService.request up endpoint w = (Err e, w).
Proof.
  intros H. unfold GitHubService.request, GitHubService.launch. by rewrite H.
Qed.

(** Past the gate, [request] makes its call and finishes on the reply. *)
Lemma request_passed up endpoint w :
  GitHubService.gate w = None ->
  let url := GitHubService.resolve endpoint in
  let reply := up (calls w) url in
  GitHubService.request up endpoint w
  = (GitHubService.outcome reply,
     mkWorld (GitHubService.absorb reply (rateLimitInfo w)) (cache w)
             (clock w + Z.of_N (elapsed reply)) (calls w ++ [url])).
Proof.
  intros H. unfold GitHubService.request, GitHubService.launch. rewrite H.
  reflexivity.
Qed.

Lemma outcome_not_rate_limit (reply : Reply T) message :
  GitHubService.outcome reply <> Err (RateLimitExceeded message).
Proof.
  unfold GitHubService.outcome.
  destruct (response reply) as [r|]; [|discriminate].
  destruct (ok r); [destruct (json r)|]; discriminate.
Qed.

(** [request] leaves the cache alone. *)
Lemma request_cache up endpoint w :
  cache (GitHubService.request up endpoint w).2 = cache w.
Proof.
  destruct (GitHubService.gate w) as [e|] eqn:G.
  - by rewrite (request_gated _ _ _ _ G).
  - by rewrite (request_passed _ _ _ G).
Qed.

Lemma fromHeader_present (v : string) parse prior :
  v <> "" -> GitHubService.fromHeader (Some v) parse prior = parse v.
Proof. destruct v; [congruence | reflexivity]. Qed.

Lemma fromHeader_missing (h : option string) parse prior :
  h = None \/ h = Some "" -> GitHubService.fromHeader h parse prior = prior.
Proof. intros [-> | ->]; reflexivity. Qed.

End RequestFacts.

(** C2. For every rate-limit state, [request] fails with the rate-limit error
    and leaves the world as it found it (no call to [fetch] is recorded) if
    and only if [remaining <= 0] and [reset] is strictly later than the
    current time; otherwise, and only then, exactly one call to [fetch] is
    made, for the resolved URL. In any world, a rate-limit error comes from
    the gate alone, with no call made. *)
Theorem request_rate_limit_gate :
  forall (T : Type) (up : Upstream T) (endpoint : string) (w : World),
    let spent :=
      JS.le (remaining (rateLimitInfo w)) (JS.Int 0)
      && JS.gt (reset (rateLimitInfo w)) (JS.Int (clock w)) in
    (spent = true <->
     exists message,
       GitHubService.request up endpoint w = (Err (RateLimitExceeded message), w))
    /\ (spent = false <->
        calls (GitHubService.request up endpoint w).2
        = calls w ++ [GitHubService.resolve endpoint])
    /\ (forall message,
          (GitHubService.request up endpoint w).1 = Err (RateLimitExceeded message) ->
          (GitHubService.request up endpoint w).2 = w).
Proof.
  intros T up endpoint w spent.
  destruct spent eqn:S; subst spent.
  - destruct (gate_closed w S) as [message G].
    rewrite (request_gated up endpoint w _ G). cbn [fst snd].
    split; [split; eauto|]. split; [|reflexivity].
    split; [discriminate|].
    intros H. apply (f_equal length) in H. rewrite length_app in H.
    cbn in H. lia.
  - pose proof (gate_open w S) as G.
    rewrite (request_passed up endpoint w G). cbn [fst snd calls].
    split; [|split].
    + split; [discriminate|]. intros [message H]. exfalso.
      injection H as H _. exact (outcome_not_rate_limit _ _ H).
    + split; reflexivity.
    + intros message H. exfalso. exact (outcome_not_rate_limit _ _ H).
Qed.

Lemma request_rate_limit_gate_witness :
  let up : Upstream nat := Scenario.always (Scenario.okResponse ∅ 1%nat) in
  (exists message,
      GitHubService.request up "/orgs/acme/repos" Scenario.exhausted
      = (Err (RateLimitExceeded message), Scenario.exhausted))
  /\ calls (GitHubService.request up "/orgs/acme/repos" Scenario.stale).2
     = calls Scenario.stale ++ [GitHubService.resolve "/orgs/acme/repos"].
Proof.
  intros up. split.
  - apply (request_rate_limit_gate nat up "/orgs/acme/repos" Scenario.exhausted).
    vm_compute. reflexivity.
  - apply (request_rate_limit_gate nat up "/orgs/acme/repos" Scenario.stale).
    vm_compute. reflexivity.
Defined.

(** With [remaining = 0] and a reset ten seconds ahead, the request is
    refused and nothing is sent. *)
Example request_refused_when_exhausted :
  GitHubService.request (Scenario.always (Scenario.okResponse ∅ 1%nat))
                        "/orgs/acme/repos" Scenario.exhausted
  = (Err (RateLimitExceeded
            "GitHub API rate limit exceeded. Resets in 10 seconds."),
     Scenario.exhausted).
Proof. vm_compute. reflexivity. Qed.

(** With [remaining = 0] and a reset time in the past, the request goes out. *)
Example request_sent_when_stale :
  let '(result, w) :=
    GitHubService.request (Scenario.always (Scenario.okResponse ∅ 1%nat))
                          "/orgs/acme/repos" Scenario.stale in
  result = Ok 1%nat /\ calls w = ["https://api.github.com/orgs/acme/repos"].
Proof. vm_compute. split; reflexivity. Qed.

(** C8, as the code has it. After every response that [request] receives,
    successful or not, each of [remaining], [reset] and [limit] is read from
    its header when that header is there with a non-empty value
    ([parseInt], and times 1000 for [reset]), and keeps its prior value when
    the header is absent or empty. *)
Theorem rate_limit_updated_from_headers :
  forall (T : Type) (up : Upstream T) (endpoint : string) (w : World)
         (r : Response T),
    GitHubService.gate w = None ->
    response (up (calls w) (GitHubService.resolve endpoint)) = Some r ->
    let rl := rateLimitInfo w in
    let rl' := rateLimitInfo (GitHubService.request up endpoint w).2 in
    let header (h : string) := headers r !! h in
    (forall v, header "x-ratelimit-remaining" = Some v -> v <> "" ->
               remaining rl' = JS.parseInt v)
    /\ (header "x-ratelimit-remaining" = None
        \/ header "x-ratelimit-remaining" = Some "" ->
        remaining rl' = remaining rl)
    /\ (forall v, header "x-ratelimit-reset" = Some v -> v <> "" ->
                  reset rl' = JS.mul (JS.parseInt v) (JS.Int 1000))
    /\ (header "x-ratelimit-reset" = None
        \/ header "x-ratelimit-reset" = Some "" ->
        reset rl' = reset rl)
    /\ (forall v, header "x-ratelimit-limit" = Some v -> v <> "" ->
                  limit rl' = JS.parseInt v)
    /\ (header "x-ratelimit-limit" = None
        \/ header "x-ratelimit-limit" = Some "" ->
        limit rl' = limit rl).
Proof.
  intros T up endpoint w r G Hr rl rl' header. subst rl'.
  rewrite (request_passed up endpoint w G). cbn [snd rateLimitInfo].
  unfold GitHubService.absorb. rewrite Hr.
  unfold GitHubService.updateRateLimit. cbn [remaining reset limit].
  fold (header "x-ratelimit-remaining") (header "x-ratelimit-reset")
       (header "x-ratelimit-limit").
  repeat split.
  - intros v -> Hv. by apply fromHeader_present.
  - apply fromHeader_missing.
  - intros v -> Hv. by apply (fromHeader_present v).
  - apply fromHeader_missing.
  - intros v -> Hv. by apply fromHeader_present.
  - apply fromHeader_missing.
Qed.

(** An error response carrying [remaining] and [reset] but no [limit]: the
    first two fields are replaced, the third keeps its value, and the request
    fails with the upstream's message. *)
Lemma rate_limit_updated_from_headers_witness :
  let up : Upstream nat := Scenario.always (Scenario.errorResponse Scenario.spentHeaders) in
  let done := GitHubService.request up "/orgs/acme/repos" Scenario.fresh in
  done.1 = Err (UpstreamError "GitHub API error: API rate limit exceeded")
  /\ remaining (rateLimitInfo done.2) = JS.Int 0
  /\ reset (rateLimitInfo done.2) = JS.Int 1700000000000
  /\ limit (rateLimitInfo done.2) = limit (rateLimitInfo Scenario.fresh).
Proof.
  intros up done.
  pose proof (rate_limit_updated_from_headers nat up "/orgs/acme/repos"
                Scenario.fresh (Scenario.errorResponse Scenario.spentHeaders)
                eq_refl eq_refl) as (Hrem & _ & Hreset & _ & _ & Hlimit).
  split; [vm_compute; reflexivity|].
  split; [|split].
  - apply (Hrem "0"); [vm_compute; reflexivity | discriminate].
  - apply (Hreset "1700000000"); [vm_compute; reflexivity | discriminate].
  - apply Hlimit. left. vm_compute. reflexivity.
Defined.

(** C8 as worded fails on a header that is present with an empty value: the
    response has an [x-ratelimit-remaining] header, yet [remaining] is not
    read from it ([parseInt] of it is [NaN]); it keeps the prior 5000. *)
Lemma rate_limit_empty_header_ignored :
  let r : Response nat := Scenario.okResponse Scenario.blankHeaders 1%nat in
  let done := GitHubService.request (Scenario.always r) "/orgs/acme/repos"
                                    Scenario.fresh in
  headers r !! "x-ratelimit-remaining" = Some ""
  /\ calls done.2 = ["https://api.github.com/orgs/acme/repos"]
  /\ remaining (rateLimitInfo done.2) = JS.Int 5000
  /\ remaining (rateLimitInfo done.2) <> JS.parseInt "".
Proof. vm_compute. repeat split; discriminate. Qed.

(** ** The paginator *)

Section PaginatorFacts.
Context {T : Type}.
Implicit Types (up : Upstream (list T)) (w : World) (endpoint : string).

(** A request that returns has made exactly one call. *)
Lemma request_ok_calls {A} (up : Upstream A) endpoint w a w1 :
  GitHubService.request up endpoint w = (Ok a, w1) ->
  calls w1 = calls w ++ [GitHubService.resolve endpoint].
Proof.
  destruct (GitHubService.gate w) as [e|] eqn:G.
  - rewrite (request_gated _ _ _ _ G). discriminate.
  - rewrite (request_passed _ _ _ G). by intros [= _ <-].
Qed.

Lemma serves_calls up endpoint pages : forall page w w',
  serves up endpoint page w pages w' ->
  calls w' = calls w
             ++ map (fun p => GitHubService.resolve (GitHubService.pageUrl endpoint p))
                    (seq page (length pages)).
Proof.
  induction pages as [|data rest IH]; intros page w w'; cbn.
  - intros ->. by rewrite app_nil_r.
  - intros (w1 & Hreq & Hrest).
    rewrite (IH _ _ _ Hrest), (request_ok_calls _ _ _ _ _ Hreq).
    by rewrite <- app_assoc.
Qed.

(** The loop goes through full pages and returns at the first short one. *)
Lemma loop_until_short up endpoint full : forall fuel results page w last w',
  serves up endpoint page w (full ++ [last]) w' ->
  Forall (fun data => (GitHubService.perPage <= length data)%nat) full ->
  (length last < GitHubService.perPage)%nat ->
  (length full < fuel)%nat ->
  GitHubService.fetchAllPages_loop fuel up endpoint results page w
  = Some (Ok (results ++ concat (full ++ [last])), w').
Proof.
  induction full as [|data rest IH]; intros fuel results page w last w'.
  - cbn [app serves]. intros (w1 & Hreq & ->) _ Hshort Hfuel.
    destruct fuel as [|fuel]; [cbn in Hfuel; lia|].
    cbn [GitHubService.fetchAllPages_loop]. rewrite Hreq.
    apply Nat.ltb_lt in Hshort. rewrite Hshort.
    cbn. by rewrite app_nil_r.
  - cbn [app serves]. intros (w1 & Hreq & Hrest) Hfull Hshort Hfuel.
    destruct fuel as [|fuel]; [cbn in Hfuel; lia|].
    cbn [GitHubService.fetchAllPages_loop]. rewrite Hreq.
    inversion Hfull as [|? ? Hdata Hfull']; subst.
    apply Nat.ltb_ge in Hdata. rewrite Hdata.
    rewrite (IH fuel (results ++ data) (S page) w1 last w' Hrest Hfull' Hshort)
      by (cbn in Hfuel; lia).
    cbn [concat]. by rewrite <- app_assoc.
Qed.

(** After [n] full pages the loop has not returned. *)
Lemma loop_goes_on up endpoint pages : forall results page w w',
  serves up endpoint page w pages w' ->
  Forall (fun data => (GitHubService.perPage <= length data)%nat) pages ->
  GitHubService.fetchAllPages_loop (length pages) up endpoint results page w = None.
Proof.
  induction pages as [|data rest IH]; intros results page w w'; cbn [serves].
  - reflexivity.
  - intros (w1 & Hreq & Hrest) Hfull.
    cbn [length GitHubService.fetchAllPages_loop]. rewrite Hreq.
    inversion Hfull as [|? ? Hdata Hfull']; subst.
    apply Nat.ltb_ge in Hdata. rewrite Hdata. eauto.
Qed.

(** The loop leaves the cache alone, however it ends. *)
Lemma loop_cache up endpoint : forall fuel results page w r w',
  GitHubService.fetchAllPages_loop fuel up endpoint results page w = Some (r, w') ->
  cache w' = cache w.
Proof.
  induction fuel as [|fuel IH]; intros results page w r w'; [discriminate|].
  cbn [GitHubService.fetchAllPages_loop].
  pose proof (request_cache up (GitHubService.pageUrl endpoint page) w) as Hc.
  destruct (GitHubService.request up (GitHubService.pageUrl endpoint page) w)
    as [[data|e] w1]; cbn [snd] in Hc.
  - destruct (length data <? GitHubService.perPage)%nat.
    + intros [= _ <-]. exact Hc.
    + intros H. rewrite (IH _ _ _ _ _ H). exact Hc.
  - intros [= _ <-]. exact Hc.
Qed.

End PaginatorFacts.

Example pageUrl_plain :
  GitHubService.pageUrl "/orgs/acme/repos" 1 = "/orgs/acme/repos?per_page=100&page=1".
Proof. vm_compute. reflexivity. Qed.

Example pageUrl_with_query :
  GitHubService.pageUrl "/repos/acme/site/issues?state=all" 3
  = "/repos/acme/site/issues?state=all&per_page=100&page=3".
Proof. vm_compute. reflexivity. Qed.

(** The URL the loop passes to [request] for a page, spelled out. *)
Lemma pageUrl_text (endpoint : string) (page : nat) :
  GitHubService.pageUrl endpoint page
  = endpoint +:+ (if JS.includes endpoint "?" then "&" else "?")
      +:+ "per_page=100&page=" +:+ pretty page.
Proof. reflexivity. Qed.

(** C1. [fetchAllPages] asks for page 1, 2, 3, ... of the endpoint, one after
    the other, each with [per_page=100]: the URL of page [n] is the endpoint
    followed by [&] (or [?] when the endpoint has no query yet) and
    [per_page=100&page=n]. Whenever the upstream serves full pages (100 items
    or more) followed by a page of fewer than 100 items (possibly none), it
    returns, given fuel for that many iterations, the concatenation of all
    these pages in order, in the world the last request left, having made
    exactly one call per page, for the pages 1, 2, ... in this order, and
    none after the short one. As long as it has seen full pages only, it has
    not returned. *)
Theorem fetchAllPages_until_short_page :
  forall (T : Type) (up : Upstream (list T)) (endpoint : string) (w : World),
    let separator := if JS.includes endpoint "?" then "&" else "?" in
    let url (page : nat) :=
      GitHubService.resolve
        (endpoint +:+ separator +:+ "per_page=100&page=" +:+ pretty page) in
    (forall (full : list (list T)) (last : list T) (w' : World) (fuel : nat),
        serves up endpoint 1 w (full ++ [last]) w' ->
        Forall (fun data => (100 <= length data)%nat) full ->
        (length last < 100)%nat ->
        (length full < fuel)%nat ->
        GitHubService.fetchAllPages fuel up endpoint w
        = Some (Ok (concat (full ++ [last])), w')
        /\ calls w' = calls w ++ map url (seq 1 (S (length full))))
    /\ (forall (pages : list (list T)) (w' : World),
          serves up endpoint 1 w pages w' ->
          Forall (fun data => (100 <= length data)%nat) pages ->
          GitHubService.fetchAllPages (length pages) up endpoint w = None).
Proof.
  intros T up endpoint w separator url. split.
  - intros full last w' fuel Hserves Hfull Hshort Hfuel. split.
    + unfold GitHubService.fetchAllPages.
      by rewrite (loop_until_short up endpoint full fuel [] 1%nat w last w').
    + rewrite (serves_calls _ _ _ _ _ _ Hserves).
      rewrite length_app. cbn [length]. rewrite Nat.add_1_r.
      apply (f_equal (app (calls w))), map_ext. intros page.
      by rewrite pageUrl_text.
  - intros pages w' Hserves Hfull.
    unfold GitHubService.fetchAllPages. by eapply loop_goes_on.
Qed.

(** Pages of 100, 100 and 37 items: 237 items in page order, after exactly
    three calls, for the pages 1, 2 and 3 with [per_page=100]. *)
Lemma fetchAllPages_until_short_page_witness :
  let urls :=
    ["https://api.github.com/repos/acme/site/issues?state=all&per_page=100&page=1";
     "https://api.github.com/repos/acme/site/issues?state=all&per_page=100&page=2";
     "https://api.github.com/repos/acme/site/issues?state=all&per_page=100&page=3"] in
  GitHubService.fetchAllPages 3 (Scenario.paged Scenario.pages237)
                              "/repos/acme/site/issues?state=all" Scenario.fresh
  = Some (Ok (seq 0 237), Scenario.after 15 urls)
  /\ calls (Scenario.after 15 urls) = urls.
Proof.
  intros urls.
  destruct (fetchAllPages_until_short_page nat (Scenario.paged Scenario.pages237)
              "/repos/acme/site/issues?state=all" Scenario.fresh) as (Hstop & _).
  apply (Hstop [seq 0 100; seq 100 100] (seq 200 37) (Scenario.after 15 urls) 3%nat).
  - exists (Scenario.after 5 (take 1 urls)). split; [vm_compute; reflexivity|].
    exists (Scenario.after 10 (take 2 urls)). split; [vm_compute; reflexivity|].
    exists (Scenario.after 15 urls). split; [vm_compute; reflexivity|].
    reflexivity.
  - repeat constructor.
  - vm_compute. lia.
  - vm_compute. lia.
Defined.

(** Pages of 100, 100, 100 and 0 items: 300 items, four calls. *)
Example fetchAllPages_empty_last_page :
  let urls := map (fun page => GitHubService.resolve
                                 (GitHubService.pageUrl Scenario.issuesEndpoint page))
                  [1; 2; 3; 4]%nat in
  GitHubService.fetchAllPages 4 (Scenario.paged Scenario.pages300)
                              Scenario.issuesEndpoint Scenario.fresh
  = Some (Ok (seq 0 300), Scenario.after 20 urls)
  /\ length urls = 4%nat
  /\ GitHubService.fetchAllPages 3 (Scenario.paged Scenario.pages300)
                                 Scenario.issuesEndpoint Scenario.fresh
     = None.
Proof. vm_compute. repeat split. Qed.

(** ** The normalizers: the frame around the cache *)

Section FrameFacts.
Implicit Types (w : World) (key : string).

Lemma cachedOr_miss key fetch w w1 :
  GitHubService.cacheGet key w = (None, w1) ->
  GitHubService.cachedOr key fetch w
  = match fetch w1 with
    | None => None
    | Some (Err e, w2) => Some (Err e, w2)
    | Some (Ok normalized, w2) =>
        Some (Ok normalized, GitHubService.cacheSet key normalized w2)
    end.
Proof. intros H. unfold GitHubService.cachedOr. by rewrite H. Qed.

Lemma cachedOr_hit key fetch w w1 cached :
  GitHubService.cacheGet key w = (Some cached, w1) ->
  GitHubService.cachedOr key fetch w = Some (Ok cached, w1).
Proof. intros H. unfold GitHubService.cachedOr. by rewrite H. Qed.

Lemma fetchAllPages_cache {T} fuel (up : Upstream (list T)) endpoint w r w' :
  GitHubService.fetchAllPages fuel up endpoint w = Some (r, w') ->
  cache w' = cache w.
Proof. apply loop_cache. Qed.

Lemma getOrganizationRepos_miss fuel up org w w1 repos w2 :
  GitHubService.cacheGet ("repos:" +:+ org) w = (None, w1) ->
  GitHubService.fetchAllPages fuel up ("/orgs/" +:+ org +:+ "/repos") w1
  = Some (Ok repos, w2) ->
  let normalized := Repositories (map GitHubService.normalizeRepo repos) in
  GitHubService.getOrganizationRepos fuel up org w
  = Some (Ok normalized, GitHubService.cacheSet ("repos:" +:+ org) normalized w2).
Proof.
  intros Hmiss Hfetch. unfold GitHubService.getOrganizationRepos.
  rewrite (cachedOr_miss _ _ _ _ Hmiss), Hfetch. reflexivity.
Qed.

Lemma getRepositoryIssues_miss fuel up owner repo w w1 issues w2 :
  GitHubService.cacheGet ("issues:" +:+ owner +:+ "/" +:+ repo) w = (None, w1) ->
  GitHubService.fetchAllPages fuel up
    ("/repos/" +:+ owner +:+ "/" +:+ repo +:+ "/issues?state=all") w1
  = Some (Ok issues, w2) ->
  let normalized :=
    Items (map (GitHubService.normalizeIssue owner repo)
               (GitHubService.filterIssues issues)) in
  GitHubService.getRepositoryIssues fuel up owner repo w
  = Some (Ok normalized,
          GitHubService.cacheSet ("issues:" +:+ owner +:+ "/" +:+ repo) normalized w2).
Proof.
  intros Hmiss Hfetch. unfold GitHubService.getRepositoryIssues.
  rewrite (cachedOr_miss _ _ _ _ Hmiss), Hfetch. reflexivity.
Qed.

Lemma getRepositoryPulls_miss fuel up owner repo w w1 pulls w2 :
  GitHubService.cacheGet ("pulls:" +:+ owner +:+ "/" +:+ repo) w = (None, w1) ->
  GitHubService.fetchAllPages fuel up
    ("/repos/" +:+ owner +:+ "/" +:+ repo +:+ "/pulls?state=all") w1
  = Some (Ok pulls, w2) ->
  let normalized := Items (map (GitHubService.normalizePull owner repo) pulls) in
  GitHubService.getRepositoryPulls fuel up owner repo w
  = Some (Ok normalized,
          GitHubService.cacheSet ("pulls:" +:+ owner +:+ "/" +:+ repo) normalized w2).
Proof.
  intros Hmiss Hfetch. unfold GitHubService.getRepositoryPulls.
  rewrite (cachedOr_miss _ _ _ _ Hmiss), Hfetch. reflexivity.
Qed.

Lemma getRepositoryBranches_miss fuel up upCommit owner repo w w1 branches w2 :
  GitHubService.cacheGet ("branches:" +:+ owner +:+ "/" +:+ repo) w = (None, w1) ->
  GitHubService.fetchAllPages fuel up
    ("/repos/" +:+ owner +:+ "/" +:+ repo +:+ "/branches") w1
  = Some (Ok branches, w2) ->
  let lookups := (GitHubService.commitLookups upCommit owner repo branches w2).1 in
  let w3 := (GitHubService.commitLookups upCommit owner repo branches w2).2 in
  let normalized :=
    Items (map (GitHubService.normalizeBranch owner repo)
               (zip branches (map GitHubService.caught lookups))) in
  GitHubService.getRepositoryBranches fuel up upCommit owner repo w
  = Some (Ok normalized,
          GitHubService.cacheSet ("branches:" +:+ owner +:+ "/" +:+ repo) normalized w3).
Proof.
  intros Hmiss Hfetch. unfold GitHubService.getRepositoryBranches.
  rewrite (cachedOr_miss _ _ _ _ Hmiss), Hfetch. cbn [GitHubService.andThen].
  destruct (GitHubService.commitLookups upCommit owner repo branches w2)
    as [lookups w3]. reflexivity.
Qed.

End FrameFacts.

(** ** Issues and pull requests *)

Lemma Forall2_map_graph {A B} (P : A -> B -> Prop) (f : A -> B) (l : list A) :
  (forall x, P x (f x)) -> Forall2 P l (map f l).
Proof. intros H. induction l; cbn; constructor; auto. Qed.

Lemma Forall_map_image {A B} (P : B -> Prop) (f : A -> B) (l : list A) :
  (forall x, P (f x)) -> Forall P (map f l).
Proof. intros H. induction l; cbn; constructor; auto. Qed.

Lemma filterIssues_In (issues : list GitHubIssue.t) (i : GitHubIssue.t) :
  In i (GitHubService.filterIssues issues)
  <-> In i issues /\ JS.truthy_field (GitHubIssue.pull_request i) = false.
Proof.
  unfold GitHubService.filterIssues. rewrite filter_In, negb_true_iff. tauto.
Qed.

(** C5, as the code has it. On a cache miss, [getRepositoryIssues] returns
    the normalization, in order, of exactly those fetched records whose
    [pull_request] property is not truthy (absent, or one of [null], [false],
    [0], the empty string); a record with a truthy [pull_request] yields no
    item, and every item has [type = 'issue']. *)
Theorem issues_exclude_pull_requests :
  forall (fuel : nat) (up : Upstream (list GitHubIssue.t)) (owner repo : string)
         (w w1 w2 : World) (issues : list GitHubIssue.t),
    GitHubService.cacheGet ("issues:" +:+ owner +:+ "/" +:+ repo) w = (None, w1) ->
    GitHubService.fetchAllPages fuel up
      ("/repos/" +:+ owner +:+ "/" +:+ repo +:+ "/issues?state=all") w1
    = Some (Ok issues, w2) ->
    exists (kept : list GitHubIssue.t) (w' : World),
      GitHubService.getRepositoryIssues fuel up owner repo w
      = Some (Ok (Items (map (GitHubService.normalizeIssue owner repo) kept)), w')
      /\ kept = List.filter
                  (fun i => negb (JS.truthy_field (GitHubIssue.pull_request i)))
                  issues
      /\ (forall i, In i kept
                    <-> In i issues
                        /\ JS.truthy_field (GitHubIssue.pull_request i) = false)
      /\ Forall (fun item => NormalizedItem.type item = ItemType.issue)
                (map (GitHubService.normalizeIssue owner repo) kept).
Proof.
  intros fuel up owner repo w w1 w2 issues Hmiss Hfetch.
  exists (GitHubService.filterIssues issues). eexists.
  split; [exact (getRepositoryIssues_miss _ _ _ _ _ _ _ _ Hmiss Hfetch)|].
  split; [reflexivity|].
  split; [apply filterIssues_In|].
  by apply Forall_map_image.
Qed.

(** A listing of one issue and one pull request: the issue alone comes out. *)
Lemma issues_exclude_pull_requests_witness :
  let up := Scenario.paged [Scenario.issuesListing] in
  let w2 := Scenario.after 5 [GitHubService.resolve
                                (GitHubService.pageUrl Scenario.issuesEndpoint 1)] in
  GitHubService.cacheGet "issues:acme/site" Scenario.fresh = (None, Scenario.fresh)
  /\ GitHubService.fetchAllPages 1 up Scenario.issuesEndpoint Scenario.fresh
     = Some (Ok Scenario.issuesListing, w2)
  /\ exists kept w',
      GitHubService.getRepositoryIssues 1 up "acme" "site" Scenario.fresh
      = Some (Ok (Items (map (GitHubService.normalizeIssue "acme" "site") kept)), w')
      /\ kept = [Scenario.issueRecord 1001 None].
Proof.
  intros up w2.
  assert (Hmiss : GitHubService.cacheGet "issues:acme/site" Scenario.fresh
                  = (None, Scenario.fresh)) by (vm_compute; reflexivity).
  assert (Hfetch : GitHubService.fetchAllPages 1 up Scenario.issuesEndpoint
                                               Scenario.fresh
                   = Some (Ok Scenario.issuesListing, w2))
    by (vm_compute; reflexivity).
  split; [exact Hmiss|]. split; [exact Hfetch|].
  destruct (issues_exclude_pull_requests 1 up "acme" "site" Scenario.fresh
              Scenario.fresh w2 Scenario.issuesListing Hmiss Hfetch)
    as (kept & w' & Hrun & Hkept & _).
  exists kept, w'. split; [exact Hrun|]. rewrite Hkept. reflexivity.
Defined.

(** C5 as worded fails on a record that has a [pull_request] property whose
    value is falsy: here [pull_request: null]. The record carries the field
    and is still returned as an issue. *)
Lemma issue_with_null_marker_kept :
  let record := Scenario.issueRecord 1003 (Some JS.Null) in
  GitHubIssue.pull_request record <> None
  /\ fst <$> GitHubService.getRepositoryIssues 1 (Scenario.paged [[record]])
                                               "acme" "site" Scenario.fresh
     = Some (Ok (Items [GitHubService.normalizeIssue "acme" "site" record])).
Proof. split; [discriminate | vm_compute; reflexivity]. Qed.

(** C4, as the code has it. On a cache miss, [getRepositoryPulls] returns one
    item per fetched record, in order, with [type = 'pr']; its [state] is
    ['merged'] when [merged_at] is a non-empty string, whatever the raw state,
    and the raw state when [merged_at] is [null] or the empty string; its
    [isDraft] is the raw [draft] flag. *)
Theorem pulls_state_and_draft :
  forall (fuel : nat) (up : Upstream (list GitHubPullRequest.t))
         (owner repo : string) (w w1 w2 : World)
         (pulls : list GitHubPullRequest.t),
    GitHubService.cacheGet ("pulls:" +:+ owner +:+ "/" +:+ repo) w = (None, w1) ->
    GitHubService.fetchAllPages fuel up
      ("/repos/" +:+ owner +:+ "/" +:+ repo +:+ "/pulls?state=all") w1
    = Some (Ok pulls, w2) ->
    exists (items : list NormalizedItem.t) (w' : World),
      GitHubService.getRepositoryPulls fuel up owner repo w
      = Some (Ok (Items items), w')
      /\ Forall2
           (fun pr item =>
              (forall ts, GitHubPullRequest.merged_at pr = Some ts -> ts <> "" ->
                          NormalizedItem.state item = Some "merged")
              /\ (GitHubPullRequest.merged_at pr = None
                  \/ GitHubPullRequest.merged_at pr = Some "" ->
                  NormalizedItem.state item = Some (GitHubPullRequest.state pr))
              /\ NormalizedItem.isDraft item = Some (GitHubPullRequest.draft pr)
              /\ NormalizedItem.type item = ItemType.pr)
           pulls items.
Proof.
  intros fuel up owner repo w w1 w2 pulls Hmiss Hfetch.
  eexists. eexists.
  split; [exact (getRepositoryPulls_miss _ _ _ _ _ _ _ _ Hmiss Hfetch)|].
  apply Forall2_map_graph. intros pr. cbn.
  split; [|split; [|split; reflexivity]].
  - intros ts -> Hts. destruct ts; [congruence | reflexivity].
  - intros [-> | ->]; reflexivity.
Qed.

(** A merged pull request whose raw state is ['closed'], and an open one. *)
Lemma pulls_state_and_draft_witness :
  let up := Scenario.paged [Scenario.pullsListing] in
  let w2 := Scenario.after 5 [GitHubService.resolve
                                (GitHubService.pageUrl Scenario.pullsEndpoint 1)] in
  GitHubService.cacheGet "pulls:acme/site" Scenario.fresh = (None, Scenario.fresh)
  /\ GitHubService.fetchAllPages 1 up Scenario.pullsEndpoint Scenario.fresh
     = Some (Ok Scenario.pullsListing, w2)
  /\ exists items w',
      GitHubService.getRepositoryPulls 1 up "acme" "site" Scenario.fresh
      = Some (Ok (Items items), w')
      /\ NormalizedItem.state <$> items = [Some "merged"; Some "open"].
Proof.
  intros up w2.
  assert (Hmiss : GitHubService.cacheGet "pulls:acme/site" Scenario.fresh
                  = (None, Scenario.fresh)) by (vm_compute; reflexivity).
  assert (Hfetch : GitHubService.fetchAllPages 1 up Scenario.pullsEndpoint
                                               Scenario.fresh
                   = Some (Ok Scenario.pullsListing, w2))
    by (vm_compute; reflexivity).
  split; [exact Hmiss|]. split; [exact Hfetch|].
  destruct (pulls_state_and_draft 1 up "acme" "site" Scenario.fresh
              Scenario.fresh w2 Scenario.pullsListing Hmiss Hfetch)
    as (items & w' & Hrun & Hall).
  exists items, w'. split; [exact Hrun|].
  inversion Hall as [|pr1 it1 ? ? (H1 & _) Hrest]; subst.
  inversion Hrest as [|pr2 it2 ? ? (_ & H2 & _) Hnil]; subst.
  inversion Hnil; subst. cbn.
  rewrite (H1 "2024-02-03T00:00:00Z" eq_refl) by discriminate.
  rewrite H2 by (left; reflexivity). reflexivity.
Defined.

(** C4 as worded fails on a record whose [merged_at] is the empty string: it
    is not [null], and the item keeps the raw state. *)
Lemma pull_with_empty_merged_at_not_merged :
  let record := Scenario.pullRecord 2003 "closed" (Some "") in
  GitHubPullRequest.merged_at record <> None
  /\ fst <$> GitHubService.getRepositoryPulls 1 (Scenario.paged [[record]])
                                              "acme" "site" Scenario.fresh
     = Some (Ok (Items [GitHubService.normalizePull "acme" "site" record]))
  /\ NormalizedItem.state (GitHubService.normalizePull "acme" "site" record)
     = Some "closed".
Proof. split; [discriminate | split; vm_compute; reflexivity]. Qed.

(** ** Branches *)

Section BranchFacts.
Implicit Types (w : World) (owner repo : string).

Lemma launch_cache {T} (up : Upstream T) endpoint w :
  cache (GitHubService.launch up endpoint w).2 = cache w.
Proof.
  unfold GitHubService.launch. by destruct (GitHubService.gate w).
Qed.

Lemma launchAll_length {T} (up : Upstream T) endpoints : forall w,
  length (GitHubService.launchAll up endpoints w).1 = length endpoints.
Proof.
  induction endpoints as [|endpoint rest IH]; intros w; cbn; [reflexivity|].
  destruct (GitHubService.launch up endpoint w) as [r w1].
  specialize (IH w1).
  destruct (GitHubService.launchAll up rest w1) as [rs w2].
  cbn in *. by rewrite IH.
Qed.

Lemma launchAll_cache {T} (up : Upstream T) endpoints : forall w,
  cache (GitHubService.launchAll up endpoints w).2 = cache w.
Proof.
  induction endpoints as [|endpoint rest IH]; intros w; cbn; [reflexivity|].
  pose proof (launch_cache up endpoint w) as H1.
  destruct (GitHubService.launch up endpoint w) as [r w1].
  specialize (IH w1).
  destruct (GitHubService.launchAll up rest w1) as [rs w2].
  cbn in *. congruence.
Qed.

Lemma map_lookup_Some {A B} (f : A -> B) (l : list A) (i : nat) (x : A) :
  l !! i = Some x -> map f l !! i = Some (f x).
Proof.
  intros H. change (map f l) with (f <$> l). by rewrite list_lookup_fmap, H.
Qed.

Lemma gate_with_calls l w :
  GitHubService.gate (with_calls l w) = GitHubService.gate w.
Proof. reflexivity. Qed.

(** With the gate closed, every launch fails on it and nothing is sent. *)
Lemma launchAll_gated {T} (up : Upstream T) endpoints w e :
  GitHubService.gate w = Some e ->
  GitHubService.launchAll up endpoints w = (map (fun _ => Err e) endpoints, w).
Proof.
  intros G. induction endpoints as [|endpoint rest IH]; cbn; [reflexivity|].
  unfold GitHubService.launch. rewrite G, IH. reflexivity.
Qed.

(** With the gate open, the launch at position [i] is the call for that
    endpoint, made after the calls for the endpoints before it. *)
Lemma launchAll_open {T} (up : Upstream T) endpoints : forall w i endpoint,
  GitHubService.gate w = None ->
  endpoints !! i = Some endpoint ->
  (GitHubService.launchAll up endpoints w).1 !! i
  = Some (Ok (up (calls w ++ map GitHubService.resolve (take i endpoints))
                 (GitHubService.resolve endpoint))).
Proof.
  induction endpoints as [|first rest IH]; intros w i endpoint G Hi;
    [destruct i; discriminate|].
  cbn [GitHubService.launchAll]. unfold GitHubService.launch. rewrite G.
  specialize (IH (with_calls (calls w ++ [GitHubService.resolve first]) w)).
  destruct (GitHubService.launchAll up rest
              (with_calls (calls w ++ [GitHubService.resolve first]) w))
    as [rs w2].
  destruct i as [|i]; cbn in *.
  - injection Hi as <-. by rewrite app_nil_r.
  - specialize (IH i endpoint G Hi). rewrite <- app_assoc in IH. exact IH.
Qed.

(** Each lookup is what [request] returns for that branch's commit: the
    gate's failure if the gate is closed when the lookups start, and
    otherwise the outcome of the reply to its call. *)
Lemma commitLookups_each up owner repo branches w i branch :
  branches !! i = Some branch ->
  let endpoint (b : GitHubBranch.t) :=
    GitHubService.commitEndpoint owner repo (GitHubBranch.sha (GitHubBranch.commit b)) in
  (GitHubService.commitLookups up owner repo branches w).1 !! i
  = Some match GitHubService.gate w with
         | Some e => Err e
         | None =>
             GitHubService.outcome
               (up (calls w ++ map GitHubService.resolve
                                   (take i (map endpoint branches)))
                   (GitHubService.resolve (endpoint branch)))
         end.
Proof.
  intros Hi endpoint. unfold GitHubService.commitLookups.
  fold endpoint.
  pose proof (map_lookup_Some endpoint _ _ _ Hi) as Hep.
  destruct (GitHubService.gate w) as [e|] eqn:G.
  - rewrite (launchAll_gated up _ w e G). cbn [GitHubService.joinAll fst].
    pose proof (map_lookup_Some (fun _ => @Err (Reply GitHubCommit.t) e) _ _ _ Hep)
      as Hl.
    exact (map_lookup_Some
             (fun l => match l with
                       | Ok reply => GitHubService.outcome reply
                       | Err e => Err e
                       end) _ _ _ Hl).
  - pose proof (launchAll_open up (map endpoint branches) w i (endpoint branch) G Hep)
      as Hl.
    destruct (GitHubService.launchAll up (map endpoint branches) w) as [launched w1].
    cbn [fst GitHubService.joinAll] in *.
    exact (map_lookup_Some
             (fun l => match l with
                       | Ok reply => GitHubService.outcome reply
                       | Err e => Err e
                       end) _ _ _ Hl).
Qed.

(** Each lookup is [getCommitDetails] for the head commit of its branch,
    called when the calls for the branches before it have gone out and
    nothing else has changed. *)
Lemma commitLookups_getCommitDetails up owner repo branches w i branch :
  branches !! i = Some branch ->
  let sha (b : GitHubBranch.t) := GitHubBranch.sha (GitHubBranch.commit b) in
  let earlier :=
    map (fun b => GitHubService.resolve (GitHubService.commitEndpoint owner repo (sha b)))
        (take i branches) in
  (GitHubService.commitLookups up owner repo branches w).1 !! i
  = Some (GitHubService.getCommitDetails up owner repo (sha branch)
            (with_calls (calls w ++ earlier) w)).1.
Proof.
  intros Hi sha earlier.
  rewrite (commitLookups_each up owner repo branches w i branch Hi). f_equal.
  assert (Hearlier :
            map GitHubService.resolve
                (take i (map (fun b => GitHubService.commitEndpoint owner repo (sha b))
                             branches))
            = earlier)
    by (unfold earlier; rewrite firstn_map, map_map; reflexivity).
  cbv zeta. unfold sha in Hearlier |- *. rewrite Hearlier.
  unfold GitHubService.getCommitDetails.
  destruct (GitHubService.gate w) as [e|] eqn:G.
  - rewrite (request_gated up _ (with_calls (calls w ++ earlier) w) e);
      [reflexivity | exact G].
  - rewrite (request_passed up _ (with_calls (calls w ++ earlier) w));
      [reflexivity | exact G].
Qed.

Lemma commitLookups_length up owner repo branches w :
  length (GitHubService.commitLookups up owner repo branches w).1
  = length branches.
Proof.
  unfold GitHubService.commitLookups.
  match goal with |- context [GitHubService.launchAll up ?eps w] =>
    pose proof (launchAll_length up eps w) as H;
    destruct (GitHubService.launchAll up eps w) as [launched w1]
  end.
  cbn in *. by rewrite !length_map in *.
Qed.

Lemma commitLookups_cache up owner repo branches w :
  cache (GitHubService.commitLookups up owner repo branches w).2 = cache w.
Proof.
  unfold GitHubService.commitLookups.
  match goal with |- context [GitHubService.launchAll up ?eps w] =>
    pose proof (launchAll_cache up eps w) as H;
    destruct (GitHubService.launchAll up eps w) as [launched w1]
  end.
  exact H.
Qed.

(** For a single branch, the lookup is [getCommitDetails] itself. *)
Lemma commitLookups_single up owner repo branch w :
  GitHubService.commitLookups up owner repo [branch] w
  = ([(GitHubService.getCommitDetails up owner repo
         (GitHubBranch.sha (GitHubBranch.commit branch)) w).1],
     (GitHubService.getCommitDetails up owner repo
        (GitHubBranch.sha (GitHubBranch.commit branch)) w).2).
Proof.
  unfold GitHubService.commitLookups, GitHubService.getCommitDetails,
    GitHubService.request.
  cbn [map GitHubService.launchAll].
  unfold GitHubService.launch.
  destruct (GitHubService.gate w) as [e|]; cbn.
  - destruct w. unfold GitHubService.joinAll, with_clock, with_rateLimitInfo; cbn.
    by rewrite Z.add_0_r.
  - unfold GitHubService.joinAll, GitHubService.settle; cbn.
    by rewrite N.max_0_r.
Qed.

Lemma lastCommitDate_found (commit : GitHubCommit.t) :
  GitHubService.lastCommitDate (Some commit)
  = GitHubCommit.date (GitHubCommit.committer (GitHubCommit.commit commit)).
Proof.
  unfold GitHubService.lastCommitDate.
  by destruct (GitHubCommit.date _).
Qed.

(** The item at each position is built from the branch and the lookup at
    that position. *)
Lemma branch_items_lookup owner repo (branches : list GitHubBranch.t) :
  forall (lookups : list (Result GitHubCommit.t)) (i : nat) (branch : GitHubBranch.t),
    length lookups = length branches ->
    branches !! i = Some branch ->
    exists lookup,
      lookups !! i = Some lookup
      /\ map (GitHubService.normalizeBranch owner repo)
             (zip branches (map GitHubService.caught lookups)) !! i
         = Some (GitHubService.normalizeBranch owner repo
                   (branch, GitHubService.caught lookup)).
Proof.
  induction branches as [|b rest IH]; intros lookups i branch Hlen Hi.
  - destruct i; discriminate.
  - destruct lookups as [|l lookups]; [discriminate|].
    destruct i as [|i]; cbn in *.
    + injection Hi as <-. eauto.
    + apply IH; [lia | exact Hi].
Qed.

Lemma branch_items_length owner repo (branches : list GitHubBranch.t)
      (lookups : list (Result GitHubCommit.t)) :
  length lookups = length branches ->
  length (map (GitHubService.normalizeBranch owner repo)
              (zip branches (map GitHubService.caught lookups)))
  = length branches.
Proof.
  intros H. rewrite length_map, length_zip_with, length_map. lia.
Qed.

End BranchFacts.

(** C3. On a cache miss with a fetched branch list, whatever the per-branch
    commit lookups do, [getRepositoryBranches] returns normally with exactly
    one item per branch, in order (the item at position [i] carries the name
    of branch [i]). The lookup of a branch is the call of [getCommitDetails]
    for the sha of its head commit, started when the calls for the branches
    before it have been issued and before any reply is looked at; past the
    gate, its result is what the upstream's reply to
    [/repos/owner/repo/commits/sha] amounts to. Where that lookup fails, the
    item of the branch has [createdAt = ''] and [updatedAt = '']; where it
    returns a commit, both fields hold the date found in that commit. *)
Theorem branches_survive_failed_lookups :
  forall (fuel : nat) (up : Upstream (list GitHubBranch.t))
         (upCommit : Upstream GitHubCommit.t) (owner repo : string)
         (w w1 w2 : World) (branches : list GitHubBranch.t),
    GitHubService.cacheGet ("branches:" +:+ owner +:+ "/" +:+ repo) w = (None, w1) ->
    GitHubService.fetchAllPages fuel up
      ("/repos/" +:+ owner +:+ "/" +:+ repo +:+ "/branches") w1
    = Some (Ok branches, w2) ->
    exists (w' : World) (items : list NormalizedItem.t),
      GitHubService.getRepositoryBranches fuel up upCommit owner repo w
      = Some (Ok (Items items), w')
      /\ length items = length branches
      /\ forall i branch,
           branches !! i = Some branch ->
           let url (b : GitHubBranch.t) :=
             "https://api.github.com/repos/" +:+ owner +:+ "/" +:+ repo
               +:+ "/commits/" +:+ GitHubBranch.sha (GitHubBranch.commit b) in
           let earlier := calls w2 ++ map url (take i branches) in
           let lookup :=
             (GitHubService.getCommitDetails upCommit owner repo
                (GitHubBranch.sha (GitHubBranch.commit branch))
                (with_calls earlier w2)).1 in
           exists item,
             items !! i = Some item
             /\ NormalizedItem.title item = GitHubBranch.name branch
             /\ (GitHubService.gate w2 = None ->
                 lookup = GitHubService.outcome (upCommit earlier (url branch)))
             /\ match lookup with
                | Err _ =>
                    NormalizedItem.createdAt item = ""
                    /\ NormalizedItem.updatedAt item = ""
                | Ok commit =>
                    let date :=
                      GitHubCommit.date
                        (GitHubCommit.committer (GitHubCommit.commit commit)) in
                    NormalizedItem.createdAt item = date
                    /\ NormalizedItem.updatedAt item = date
                end.
Proof.
  intros fuel up upCommit owner repo w w1 w2 branches Hmiss Hfetch.
  pose proof (getRepositoryBranches_miss fuel up upCommit owner repo
                w w1 branches w2 Hmiss Hfetch) as Hrun.
  pose proof (commitLookups_length upCommit owner repo branches w2) as Hlen.
  pose proof (commitLookups_getCommitDetails upCommit owner repo branches w2)
    as Heach.
  destruct (GitHubService.commitLookups upCommit owner repo branches w2)
    as [lookups w3]. cbn [fst snd] in Hrun, Hlen, Heach.
  eexists _, _.
  split; [exact Hrun|].
  split; [by apply branch_items_length|].
  intros i branch Hi url earlier lookup.
  destruct (branch_items_lookup owner repo branches lookups i branch Hlen Hi)
    as (found & Hl & Hitem).
  specialize (Heach i branch Hi).
  rewrite Hl in Heach. injection Heach as Hfound.
  assert (Hreply : GitHubService.gate w2 = None ->
                   lookup = GitHubService.outcome (upCommit earlier (url branch))).
  { intros G. subst lookup. unfold GitHubService.getCommitDetails.
    rewrite (request_passed upCommit _ (with_calls earlier w2)); [reflexivity|].
    exact G. }
  assert (Hlookup : lookup = found) by (symmetry; exact Hfound).
  clearbody lookup. subst lookup.
  eexists. split; [exact Hitem|].
  split; [reflexivity|]. split; [exact Hreply|].
  destruct found as [commit|e]; cbn [GitHubService.caught GitHubService.normalizeBranch
    NormalizedItem.createdAt NormalizedItem.updatedAt].
  - by rewrite lastCommitDate_found.
  - split; reflexivity.
Qed.

(** Three branches, the lookup of the second failing: three items; the first
    and the third carry the date of the commit the upstream returned, the
    second has no dates. *)
Lemma branches_survive_failed_lookups_witness :
  let up := Scenario.paged [Scenario.threeBranches] in
  let w2 :=
    Scenario.after 5
      ["https://api.github.com/repos/acme/site/branches?per_page=100&page=1"] in
  GitHubService.cacheGet "branches:acme/site" Scenario.fresh = (None, Scenario.fresh)
  /\ GitHubService.fetchAllPages 1 up "/repos/acme/site/branches" Scenario.fresh
     = Some (Ok Scenario.threeBranches, w2)
  /\ exists items w',
      GitHubService.getRepositoryBranches 1 up Scenario.commits "acme" "site"
                                          Scenario.fresh
      = Some (Ok (Items items), w')
      /\ length items = 3%nat
      /\ (exists item,
             items !! 0%nat = Some item
             /\ NormalizedItem.title item = "main"
             /\ NormalizedItem.createdAt item = "2024-03-05T12:00:00Z"
             /\ NormalizedItem.updatedAt item = "2024-03-05T12:00:00Z")
      /\ (exists item,
             items !! 1%nat = Some item
             /\ NormalizedItem.title item = "dev"
             /\ NormalizedItem.createdAt item = ""
             /\ NormalizedItem.updatedAt item = "")
      /\ (exists item,
             items !! 2%nat = Some item
             /\ NormalizedItem.title item = "fix/crash"
             /\ NormalizedItem.createdAt item = "2024-03-05T12:00:00Z"
             /\ NormalizedItem.updatedAt item = "2024-03-05T12:00:00Z").
Proof.
  intros up w2.
  assert (Hmiss : GitHubService.cacheGet "branches:acme/site" Scenario.fresh
                  = (None, Scenario.fresh)) by (vm_compute; reflexivity).
  assert (Hfetch : GitHubService.fetchAllPages 1 up "/repos/acme/site/branches"
                                               Scenario.fresh
                   = Some (Ok Scenario.threeBranches, w2))
    by (vm_compute; reflexivity).
  split; [exact Hmiss|]. split; [exact Hfetch|].
  destruct (branches_survive_failed_lookups 1 up Scenario.commits "acme" "site"
              Scenario.fresh Scenario.fresh w2 Scenario.threeBranches Hmiss Hfetch)
    as (w' & items & Hrun & Hlen & Heach).
  exists items, w'. split; [exact Hrun|]. split; [exact Hlen|].
  split; [|split].
  - destruct (Heach 0%nat (Scenario.branchRecord "main" "aaa") eq_refl)
      as (item & Hitem & Htitle & _ & Hdates).
    exists item. split; [exact Hitem|]. split; [exact Htitle | exact Hdates].
  - destruct (Heach 1%nat (Scenario.branchRecord "dev" "bbb") eq_refl)
      as (item & Hitem & Htitle & _ & Hdates).
    exists item. split; [exact Hitem|]. split; [exact Htitle | exact Hdates].
  - destruct (Heach 2%nat (Scenario.branchRecord "fix/crash" "ccc") eq_refl)
      as (item & Hitem & Htitle & _ & Hdates).
    exists item. split; [exact Hitem|]. split; [exact Htitle | exact Hdates].
Defined.

Example branches_with_one_failed_lookup :
  let run := GitHubService.getRepositoryBranches 1
               (Scenario.paged [Scenario.threeBranches]) Scenario.commits
               "acme" "site" Scenario.fresh in
  (GitHubService.commitLookups Scenario.commits "acme" "site" Scenario.threeBranches
     (Scenario.after 5 [GitHubService.resolve
                          (GitHubService.pageUrl Scenario.branchesEndpoint 1)])).1
  = [Ok Scenario.commitRecord;
     Err (UpstreamError "GitHub API error: API rate limit exceeded");
     Ok Scenario.commitRecord]
  /\ fst <$> run
     = Some (Ok (Items
                   [GitHubService.normalizeBranch "acme" "site"
                      (Scenario.branchRecord "main" "aaa", Some Scenario.commitRecord);
                    GitHubService.normalizeBranch "acme" "site"
                      (Scenario.branchRecord "dev" "bbb", None);
                    GitHubService.normalizeBranch "acme" "site"
                      (Scenario.branchRecord "fix/crash" "ccc", Some Scenario.commitRecord)]))
  /\ (NormalizedItem.createdAt
        <$> [GitHubService.normalizeBranch "acme" "site"
               (Scenario.branchRecord "main" "aaa", Some Scenario.commitRecord);
             GitHubService.normalizeBranch "acme" "site"
               (Scenario.branchRecord "dev" "bbb", None)])
     = ["2024-03-05T12:00:00Z"; ""].
Proof. vm_compute. repeat split. Qed.

Lemma Forall2_branch_items (P : Result GitHubCommit.t -> NormalizedItem.t -> Prop)
      owner repo (branches : list GitHubBranch.t) :
  (forall branch lookup,
      P lookup (GitHubService.normalizeBranch owner repo
                  (branch, GitHubService.caught lookup))) ->
  forall lookups : list (Result GitHubCommit.t),
    length lookups = length branches ->
    Forall2 P lookups
            (map (GitHubService.normalizeBranch owner repo)
                 (zip branches (map GitHubService.caught lookups))).
Proof.
  intros HP. induction branches as [|b rest IH]; intros [|l lookups] Hlen;
    try discriminate; cbn; constructor; [apply HP|].
  apply IH. cbn in Hlen. lia.
Qed.

(** C6, as the code has it. The date taken from a branch's head commit is the
    commit's committer date ([commit.committer.date]); it goes into both
    [createdAt] and [updatedAt] of the branch's item, which are the empty
    string when the lookup failed. Every branch item has [type = 'branch'],
    an empty author, no avatar, empty label and assignee lists, and no
    [state], [number] or [isDraft]. *)
Theorem branch_items_dates_and_shape :
  forall (fuel : nat) (up : Upstream (list GitHubBranch.t))
         (upCommit : Upstream GitHubCommit.t) (owner repo : string)
         (w w1 w2 : World) (branches : list GitHubBranch.t),
    GitHubService.cacheGet ("branches:" +:+ owner +:+ "/" +:+ repo) w = (None, w1) ->
    GitHubService.fetchAllPages fuel up
      ("/repos/" +:+ owner +:+ "/" +:+ repo +:+ "/branches") w1
    = Some (Ok branches, w2) ->
    exists (lookups : list (Result GitHubCommit.t)) (w3 w' : World)
           (items : list NormalizedItem.t),
      GitHubService.commitLookups upCommit owner repo branches w2 = (lookups, w3)
      /\ GitHubService.getRepositoryBranches fuel up upCommit owner repo w
         = Some (Ok (Items items), w')
      /\ Forall2
           (fun lookup item =>
              NormalizedItem.createdAt item = NormalizedItem.updatedAt item
              /\ (forall commit, lookup = Ok commit ->
                                 NormalizedItem.createdAt item
                                 = GitHubCommit.date
                                     (GitHubCommit.committer
                                        (GitHubCommit.commit commit)))
              /\ (forall e, lookup = Err e -> NormalizedItem.createdAt item = "")
              /\ NormalizedItem.type item = ItemType.branch
              /\ NormalizedItem.author item = ""
              /\ NormalizedItem.authorAvatarUrl item = None
              /\ NormalizedItem.labels item = []
              /\ NormalizedItem.assignees item = []
              /\ NormalizedItem.state item = None
              /\ NormalizedItem.number item = None
              /\ NormalizedItem.isDraft item = None)
           lookups items.
Proof.
  intros fuel up upCommit owner repo w w1 w2 branches Hmiss Hfetch.
  pose proof (getRepositoryBranches_miss fuel up upCommit owner repo
                w w1 branches w2 Hmiss Hfetch) as Hrun.
  pose proof (commitLookups_length upCommit owner repo branches w2) as Hlen.
  destruct (GitHubService.commitLookups upCommit owner repo branches w2)
    as [lookups w3]. cbn [fst snd] in *.
  eexists lookups, w3, _, _.
  split; [reflexivity|]. split; [exact Hrun|].
  apply Forall2_branch_items; [|exact Hlen].
  intros branch lookup. cbn.
  split; [reflexivity|]. split; [|split; [|repeat split]].
  - intros commit ->. apply lastCommitDate_found.
  - intros e ->. reflexivity.
Qed.

Lemma branch_items_dates_and_shape_witness :
  let up := Scenario.paged [Scenario.threeBranches] in
  let w2 := Scenario.after 5 [GitHubService.resolve
                                (GitHubService.pageUrl Scenario.branchesEndpoint 1)] in
  GitHubService.cacheGet "branches:acme/site" Scenario.fresh = (None, Scenario.fresh)
  /\ GitHubService.fetchAllPages 1 up Scenario.branchesEndpoint Scenario.fresh
     = Some (Ok Scenario.threeBranches, w2)
  /\ exists items w',
      GitHubService.getRepositoryBranches 1 up Scenario.commits "acme" "site"
                                          Scenario.fresh
      = Some (Ok (Items items), w')
      /\ Forall (fun item => NormalizedItem.createdAt item
                             = NormalizedItem.updatedAt item
                             /\ NormalizedItem.author item = "") items.
Proof.
  intros up w2.
  assert (Hmiss : GitHubService.cacheGet "branches:acme/site" Scenario.fresh
                  = (None, Scenario.fresh)) by (vm_compute; reflexivity).
  assert (Hfetch : GitHubService.fetchAllPages 1 up Scenario.branchesEndpoint
                                               Scenario.fresh
                   = Some (Ok Scenario.threeBranches, w2))
    by (vm_compute; reflexivity).
  split; [exact Hmiss|]. split; [exact Hfetch|].
  destruct (branch_items_dates_and_shape 1 up Scenario.commits "acme" "site"
              Scenario.fresh Scenario.fresh w2 Scenario.threeBranches Hmiss Hfetch)
    as (lookups & w3 & w' & items & _ & Hrun & Hall).
  exists items, w'. split; [exact Hrun|].
  clear Hrun. induction Hall as [|lookup item ? ? (Hsame & _ & _ & _ & Hauthor & _) _ IH];
    constructor; auto.
Defined.

(** C6 as worded fails on a commit whose author date and committer date
    differ: the lookup returns the commit, and the item's [createdAt] is the
    committer date (5 March), not the author date (1 March). *)
Lemma branch_date_is_not_author_date :
  let branch := Scenario.branchRecord "main" "aaa" in
  let item := GitHubService.normalizeBranch "acme" "site"
                (branch, Some Scenario.commitRecord) in
  (GitHubService.getCommitDetails Scenario.commits "acme" "site" "aaa"
     (Scenario.after 5 [GitHubService.resolve
                          (GitHubService.pageUrl Scenario.branchesEndpoint 1)])).1
  = Ok Scenario.commitRecord
  /\ fst <$> GitHubService.getRepositoryBranches 1 (Scenario.paged [[branch]])
               Scenario.commits "acme" "site" Scenario.fresh
     = Some (Ok (Items [item]))
  /\ NormalizedItem.createdAt item = "2024-03-05T12:00:00Z"
  /\ GitHubCommit.date (GitHubCommit.author (GitHubCommit.commit Scenario.commitRecord))
     = "2024-03-01T10:00:00Z"
  /\ NormalizedItem.createdAt item
     <> GitHubCommit.date
          (GitHubCommit.author (GitHubCommit.commit Scenario.commitRecord)).
Proof. vm_compute. repeat split. discriminate. Qed.

(** ** Item identifiers *)

Section IdFacts.
Variables owner repo : string.

Lemma id_suffix_inj (kind a b : string) :
  kind +:+ owner +:+ "-" +:+ repo +:+ "-" +:+ a
  = kind +:+ owner +:+ "-" +:+ repo +:+ "-" +:+ b ->
  a = b.
Proof.
  intros H.
  repeat (apply (inj (String.append _)) in H).
  exact H.
Qed.

Lemma NoDup_map_inj {A B} (f : A -> B) (l : list A) :
  (forall x y, f x = f y -> x = y) -> NoDup l -> NoDup (map f l).
Proof. intros Hf. exact (NoDup_fmap_2 (Inj0 := Hf) f l). Qed.

Lemma NoDup_map_filter {A B} (f : A -> B) (p : A -> bool) (l : list A) :
  NoDup (map f l) -> NoDup (map f (List.filter p l)).
Proof.
  induction l as [|a l IH]; cbn; [done|].
  rewrite NoDup_cons. intros [Hnotin Hnd].
  destruct (p a); cbn; [|auto].
  apply NoDup_cons. split; [|auto].
  intros Hin. apply Hnotin.
  apply list_elem_of_In, in_map_iff in Hin as (x & Hx & Hin).
  apply filter_In in Hin as [Hin _].
  apply list_elem_of_In, in_map_iff. eauto.
Qed.

Lemma issue_ids (issues : list GitHubIssue.t) :
  map NormalizedItem.id (map (GitHubService.normalizeIssue owner repo) issues)
  = map (fun z => "issue-" +:+ owner +:+ "-" +:+ repo +:+ "-" +:+ pretty z)
        (map GitHubIssue.id issues).
Proof. by rewrite !map_map. Qed.

Lemma pull_ids (pulls : list GitHubPullRequest.t) :
  map NormalizedItem.id (map (GitHubService.normalizePull owner repo) pulls)
  = map (fun z => "pr-" +:+ owner +:+ "-" +:+ repo +:+ "-" +:+ pretty z)
        (map GitHubPullRequest.id pulls).
Proof. by rewrite !map_map. Qed.

Lemma branch_ids (branches : list GitHubBranch.t) :
  forall commits : list (option GitHubCommit.t),
    length commits = length branches ->
    map NormalizedItem.id
        (map (GitHubService.normalizeBranch owner repo) (zip branches commits))
    = map (fun name => "branch-" +:+ owner +:+ "-" +:+ repo +:+ "-" +:+ name)
          (map GitHubBranch.name branches).
Proof.
  induction branches as [|b rest IH]; intros [|c commits] Hlen;
    try discriminate; cbn; [reflexivity|].
  f_equal. apply IH. cbn in Hlen. lia.
Qed.

End IdFacts.

(** C9. On a cache miss, the ids of the items a normalizer returns are, in
    order, [issue-{owner}-{repo}-{id}] for the issues kept,
    [pr-{owner}-{repo}-{id}] for the pull requests and
    [branch-{owner}-{repo}-{name}] for the branches. If the upstream ids (the
    branch names) of the fetched records are pairwise distinct, so are the ids
    of the result. The id is a function of kind, owner, repo and upstream id
    (name) alone: two records with the same upstream id (name), whatever else
    differs, get the same id. *)
Theorem item_ids_unique_and_stable :
  forall (owner repo : string),
    (forall fuel up w w1 w2 (issues : list GitHubIssue.t),
        GitHubService.cacheGet ("issues:" +:+ owner +:+ "/" +:+ repo) w = (None, w1) ->
        GitHubService.fetchAllPages fuel up
          ("/repos/" +:+ owner +:+ "/" +:+ repo +:+ "/issues?state=all") w1
        = Some (Ok issues, w2) ->
        exists items w',
          GitHubService.getRepositoryIssues fuel up owner repo w
          = Some (Ok (Items items), w')
          /\ map NormalizedItem.id items
             = map (fun i => "issue-" +:+ owner +:+ "-" +:+ repo +:+ "-"
                               +:+ pretty (GitHubIssue.id i))
                   (GitHubService.filterIssues issues)
          /\ (NoDup (map GitHubIssue.id issues) -> NoDup (map NormalizedItem.id items)))
    /\ (forall fuel up w w1 w2 (pulls : list GitHubPullRequest.t),
          GitHubService.cacheGet ("pulls:" +:+ owner +:+ "/" +:+ repo) w = (None, w1) ->
          GitHubService.fetchAllPages fuel up
            ("/repos/" +:+ owner +:+ "/" +:+ repo +:+ "/pulls?state=all") w1
          = Some (Ok pulls, w2) ->
          exists items w',
            GitHubService.getRepositoryPulls fuel up owner repo w
            = Some (Ok (Items items), w')
            /\ map NormalizedItem.id items
               = map (fun pr => "pr-" +:+ owner +:+ "-" +:+ repo +:+ "-"
                                  +:+ pretty (GitHubPullRequest.id pr))
                     pulls
            /\ (NoDup (map GitHubPullRequest.id pulls) ->
                NoDup (map NormalizedItem.id items)))
    /\ (forall fuel up upCommit w w1 w2 (branches : list GitHubBranch.t),
          GitHubService.cacheGet ("branches:" +:+ owner +:+ "/" +:+ repo) w = (None, w1) ->
          GitHubService.fetchAllPages fuel up
            ("/repos/" +:+ owner +:+ "/" +:+ repo +:+ "/branches") w1
          = Some (Ok branches, w2) ->
          exists items w',
            GitHubService.getRepositoryBranches fuel up upCommit owner repo w
            = Some (Ok (Items items), w')
            /\ map NormalizedItem.id items
               = map (fun b => "branch-" +:+ owner +:+ "-" +:+ repo +:+ "-"
                                 +:+ GitHubBranch.name b)
                     branches
            /\ (NoDup (map GitHubBranch.name branches) ->
                NoDup (map NormalizedItem.id items)))
    /\ (forall i1 i2 : GitHubIssue.t,
          GitHubIssue.id i1 = GitHubIssue.id i2 ->
          NormalizedItem.id (GitHubService.normalizeIssue owner repo i1)
          = NormalizedItem.id (GitHubService.normalizeIssue owner repo i2))
    /\ (forall p1 p2 : GitHubPullRequest.t,
          GitHubPullRequest.id p1 = GitHubPullRequest.id p2 ->
          NormalizedItem.id (GitHubService.normalizePull owner repo p1)
          = NormalizedItem.id (GitHubService.normalizePull owner repo p2))
    /\ (forall (b1 b2 : GitHubBranch.t) (c1 c2 : option GitHubCommit.t),
          GitHubBranch.name b1 = GitHubBranch.name b2 ->
          NormalizedItem.id (GitHubService.normalizeBranch owner repo (b1, c1))
          = NormalizedItem.id (GitHubService.normalizeBranch owner repo (b2, c2))).
Proof.
  intros owner repo. repeat apply conj.
  - intros fuel up w w1 w2 issues Hmiss Hfetch.
    eexists. eexists.
    split; [exact (getRepositoryIssues_miss _ _ _ _ _ _ _ _ Hmiss Hfetch)|].
    split; [by rewrite issue_ids, map_map|].
    intros Hnd. rewrite issue_ids.
    apply NoDup_map_inj.
    + intros x y H. apply id_suffix_inj in H. by apply (inj pretty).
    + by apply NoDup_map_filter.
  - intros fuel up w w1 w2 pulls Hmiss Hfetch.
    eexists. eexists.
    split; [exact (getRepositoryPulls_miss _ _ _ _ _ _ _ _ Hmiss Hfetch)|].
    split; [by rewrite pull_ids, map_map|].
    intros Hnd. rewrite pull_ids.
    apply NoDup_map_inj; [|exact Hnd].
    intros x y H. apply id_suffix_inj in H. by apply (inj pretty).
  - intros fuel up upCommit w w1 w2 branches Hmiss Hfetch.
    eexists. eexists.
    split; [exact (getRepositoryBranches_miss _ _ _ _ _ _ _ _ _ Hmiss Hfetch)|].
    rewrite branch_ids
      by (rewrite length_map; apply commitLookups_length).
    split; [by rewrite map_map|].
    intros Hnd. apply NoDup_map_inj; [|exact Hnd].
    intros x y H. by apply id_suffix_inj in H.
  - intros i1 i2 H. cbn. by rewrite H.
  - intros p1 p2 H. cbn. by rewrite H.
  - intros b1 b2 c1 c2 H. cbn. by rewrite H.
Qed.

Lemma item_ids_unique_and_stable_witness :
  let up := Scenario.paged [Scenario.issuesListing] in
  let w2 := Scenario.after 5 [GitHubService.resolve
                                (GitHubService.pageUrl Scenario.issuesEndpoint 1)] in
  GitHubService.cacheGet "issues:acme/site" Scenario.fresh = (None, Scenario.fresh)
  /\ GitHubService.fetchAllPages 1 up Scenario.issuesEndpoint Scenario.fresh
     = Some (Ok Scenario.issuesListing, w2)
  /\ NoDup (map GitHubIssue.id Scenario.issuesListing)
  /\ exists items w',
      GitHubService.getRepositoryIssues 1 up "acme" "site" Scenario.fresh
      = Some (Ok (Items items), w')
      /\ map NormalizedItem.id items = ["issue-acme-site-1001"]
      /\ NoDup (map NormalizedItem.id items).
Proof.
  intros up w2.
  assert (Hmiss : GitHubService.cacheGet "issues:acme/site" Scenario.fresh
                  = (None, Scenario.fresh)) by (vm_compute; reflexivity).
  assert (Hfetch : GitHubService.fetchAllPages 1 up Scenario.issuesEndpoint
                                               Scenario.fresh
                   = Some (Ok Scenario.issuesListing, w2))
    by (vm_compute; reflexivity).
  assert (Hnd : NoDup (map GitHubIssue.id Scenario.issuesListing)).
  { apply (bool_decide_unpack _). vm_compute. exact I. }
  split; [exact Hmiss|]. split; [exact Hfetch|]. split; [exact Hnd|].
  destruct (item_ids_unique_and_stable "acme" "site") as (Hissues & _).
  destruct (Hissues 1%nat up Scenario.fresh Scenario.fresh w2
              Scenario.issuesListing Hmiss Hfetch)
    as (items & w' & Hrun & Hids & Huniq).
  exists items, w'. split; [exact Hrun|]. split; [|exact (Huniq Hnd)].
  rewrite Hids. vm_compute. reflexivity.
Defined.

(** ** Failures and the cache *)

Section FailureFacts.
Implicit Types (w : World) (key : string).

Lemma andThen_cache {A} (m : option (Result A * World))
      (k : A -> World -> option (Result Cached * World)) w r w' :
  (forall r1 w1, m = Some (r1, w1) -> cache w1 = cache w) ->
  (forall a w1 r2 w2, k a w1 = Some (r2, w2) -> cache w2 = cache w1) ->
  GitHubService.andThen m k = Some (r, w') ->
  cache w' = cache w.
Proof.
  intros Hm Hk. destruct m as [[[a|e] w1]|]; cbn; [| |discriminate].
  - intros H. rewrite (Hk _ _ _ _ H). eauto.
  - intros [= _ <-]. eauto.
Qed.

(** Only the last step of the frame writes to the cache, and it is reached
    on success only. *)
Lemma cachedOr_failure key fetch w :
  (forall w1 r w2, fetch w1 = Some (r, w2) -> cache w2 = cache w1) ->
  writesNothingOnFailure key w (GitHubService.cachedOr key fetch w).
Proof.
  intros Hfetch e w'. unfold GitHubService.cachedOr, GitHubService.cacheGet.
  pose proof (get_store_lookup (cache w) key (clock w)) as Hstore.
  unfold Cache.get in *.
  destruct (cache w !! key) as [entry|] eqn:E.
  - destruct (Z.ltb_spec (expiresAt entry) (clock w)) as [Hold|Hlive];
      [|discriminate].
    cbn [snd] in Hstore.
    destruct (fetch _) as [[[normalized|e'] w2]|] eqn:F; try discriminate.
    intros [= <- <-]. apply Hfetch in F. cbn [cache with_cache] in F.
    rewrite F. split; [apply lookup_delete_eq|].
    split; [intros k Hk; by apply lookup_delete_ne|].
    split; [discriminate|].
    by intros ? [= <-].
  - destruct (fetch _) as [[[normalized|e'] w2]|] eqn:F; try discriminate.
    intros [= <- <-]. apply Hfetch in F. cbn [cache with_cache] in F.
    rewrite F. repeat split; auto; discriminate.
Qed.

Lemma cachedOr_live key fetch w :
  answersFromCache key w (GitHubService.cachedOr key fetch w).
Proof.
  intros entry E Hlive.
  unfold GitHubService.cachedOr, GitHubService.cacheGet, Cache.get.
  rewrite E.
  destruct (Z.ltb_spec (expiresAt entry) (clock w)) as [Hold|_]; [lia|].
  by destruct w.
Qed.

End FailureFacts.

(** C10, as the code has it. If a call of [getOrganizationRepos],
    [getRepositoryIssues], [getRepositoryPulls] or [getRepositoryBranches]
    fails, for whatever reason, nothing has been written to the cache: it is
    as the lookup at the start of the call left it. That is, it has no entry
    under the requested key and has every other key as before; it is the
    cache as it was when there was no entry under the key, and otherwise the
    entry that was there had expired and has been deleted by the lookup. An
    entry that has not expired is returned as it is, without any request. *)
Theorem failed_call_writes_nothing :
  forall (fuel : nat) (org owner repo : string) (w : World)
         (upRepos : Upstream (list GitHubRepository.t))
         (upIssues : Upstream (list GitHubIssue.t))
         (upPulls : Upstream (list GitHubPullRequest.t))
         (upBranches : Upstream (list GitHubBranch.t))
         (upCommit : Upstream GitHubCommit.t),
    (writesNothingOnFailure ("repos:" +:+ org) w
       (GitHubService.getOrganizationRepos fuel upRepos org w)
     /\ answersFromCache ("repos:" +:+ org) w
          (GitHubService.getOrganizationRepos fuel upRepos org w))
    /\ (writesNothingOnFailure ("issues:" +:+ owner +:+ "/" +:+ repo) w
          (GitHubService.getRepositoryIssues fuel upIssues owner repo w)
        /\ answersFromCache ("issues:" +:+ owner +:+ "/" +:+ repo) w
             (GitHubService.getRepositoryIssues fuel upIssues owner repo w))
    /\ (writesNothingOnFailure ("pulls:" +:+ owner +:+ "/" +:+ repo) w
          (GitHubService.getRepositoryPulls fuel upPulls owner repo w)
        /\ answersFromCache ("pulls:" +:+ owner +:+ "/" +:+ repo) w
             (GitHubService.getRepositoryPulls fuel upPulls owner repo w))
    /\ (writesNothingOnFailure ("branches:" +:+ owner +:+ "/" +:+ repo) w
          (GitHubService.getRepositoryBranches fuel upBranches upCommit owner repo w)
        /\ answersFromCache ("branches:" +:+ owner +:+ "/" +:+ repo) w
             (GitHubService.getRepositoryBranches fuel upBranches upCommit
                                                  owner repo w)).
Proof.
  intros fuel org owner repo w upRepos upIssues upPulls upBranches upCommit.
  repeat apply conj; try apply cachedOr_live; apply cachedOr_failure;
    intros w1 r w2; apply andThen_cache.
  all: try (intros r1 w3; apply fetchAllPages_cache).
  all: try (intros a w3 r2 w4 [= _ <-]; reflexivity).
  intros branches w3 r2 w4.
  pose proof (commitLookups_cache upCommit owner repo branches w3) as Hc.
  destruct (GitHubService.commitLookups upCommit owner repo branches w3)
    as [lookups w5].
  intros [= _ <-]. exact Hc.
Qed.

(** A first fetch that fails on an upstream error: no entry afterwards. *)
Lemma failed_call_writes_nothing_witness :
  let up : Upstream (list GitHubIssue.t) :=
    Scenario.always (Scenario.errorResponse ∅) in
  let w' := mkWorld (initialRateLimitInfo 0) ∅ 1005
                    [GitHubService.resolve
                       (GitHubService.pageUrl Scenario.issuesEndpoint 1)] in
  GitHubService.getRepositoryIssues 1 up "acme" "site" Scenario.fresh
  = Some (Err (UpstreamError "GitHub API error: API rate limit exceeded"), w')
  /\ cache w' !! "issues:acme/site" = None
  /\ cache w' = cache Scenario.fresh.
Proof.
  intros up w'.
  assert (Hrun : GitHubService.getRepositoryIssues 1 up "acme" "site" Scenario.fresh
                 = Some (Err (UpstreamError
                                "GitHub API error: API rate limit exceeded"), w'))
    by (vm_compute; reflexivity).
  split; [exact Hrun|].
  destruct (failed_call_writes_nothing 1 "acme" "acme" "site" Scenario.fresh
              (Scenario.always (Scenario.errorResponse ∅)) up
              (Scenario.always (Scenario.errorResponse ∅))
              (Scenario.always (Scenario.errorResponse ∅))
              Scenario.commits) as (_ & (Hissues & _) & _).
  destruct (Hissues _ _ Hrun) as (Hnone & _ & Hsame & _).
  split; [exact Hnone|]. apply Hsame. reflexivity.
Defined.

(** Each kind of failure, on a first fetch: the gate, an unreachable
    upstream, a body that does not decode, a failure on the second page. In
    every case the call fails and the cache stays empty. *)
Example failures_leave_cache_empty :
  let failed (run : option (Result Cached * World)) :=
    match run with
    | Some (Err _, w') => cache w' = ∅
    | _ => False
    end in
  failed (GitHubService.getRepositoryIssues 1 (Scenario.paged [Scenario.issuesListing])
            "acme" "site" Scenario.exhausted)
  /\ failed (GitHubService.getRepositoryIssues 1 Scenario.unreachable
               "acme" "site" Scenario.fresh)
  /\ failed (GitHubService.getRepositoryIssues 1 Scenario.garbled
               "acme" "site" Scenario.fresh)
  /\ failed (GitHubService.getRepositoryIssues 2 Scenario.secondPageFails
               "acme" "site" Scenario.fresh).
Proof. vm_compute. repeat split. Qed.

(** C10 as worded fails when the cache holds an expired entry under the
    requested key: the call fails, and the entry that was there is gone. *)
Lemma failed_call_drops_expired_entry :
  let up : Upstream (list GitHubIssue.t) :=
    Scenario.always (Scenario.errorResponse ∅) in
  exists e w',
    GitHubService.getRepositoryIssues 1 up "acme" "site" Scenario.staleEntry
    = Some (Err e, w')
    /\ cache Scenario.staleEntry !! "issues:acme/site"
       = Some (mkCacheEntry (Items []) 900)
    /\ cache w' !! "issues:acme/site" = None
    /\ cache w' <> cache Scenario.staleEntry.
Proof.
  intros up. eexists. eexists.
  split; [vm_compute; reflexivity|].
  split; [vm_compute; reflexivity|].
  split; [vm_compute; reflexivity|].
  intros H. apply (f_equal (fun m => m !! "issues:acme/site")) in H.
  vm_compute in H. discriminate.
Qed.

(* ===================================================================== *)
(** * Further properties of the service *)
(* ===================================================================== *)

(** ** The cache, continued *)

Section CacheMore.
Context {T : Type}.
Implicit Types (store : gmap string (CacheEntry T)) (key : string) (v : T).

Lemma get_value store key t :
  (Cache.get t key store).1
  = match store !! key with
    | Some entry => if expiresAt entry <? t then None else Some (data entry)
    | None => None
    end.
Proof.
  unfold Cache.get. destruct (store !! key) as [entry|]; [|reflexivity].
  by destruct (expiresAt entry <? t).
Qed.

End CacheMore.

(** X1. Lazy expiry cannot be observed: a lookup, of any key at any time,
    never changes what a lookup made at the same or a later time returns.
    The only thing [get] ever deletes is an entry that every later [get]
    would have reported absent anyway. *)
Theorem cache_lookup_unobservable :
  forall (T : Type) (store : gmap string (CacheEntry T)) (key key' : string)
         (t t' : Z),
    t <= t' ->
    (Cache.get t' key' (Cache.get t key store).2).1
    = (Cache.get t' key' store).1.
Proof.
  intros T store key key' t t' Ht.
  rewrite !get_value, get_store_lookup.
  case_decide as Hk; [subst key'|reflexivity].
  destruct (store !! key) as [entry|]; [|reflexivity].
  destruct (Z.ltb_spec (expiresAt entry) t) as [Hold|Hlive]; [|reflexivity].
  destruct (Z.ltb_spec (expiresAt entry) t') as [_|Hlive']; [reflexivity | lia].
Qed.

Lemma cache_lookup_unobservable_witness :
  let store : gmap string (CacheEntry nat) :=
    {[ "repos:acme" := mkCacheEntry 7%nat 900 ]} in
  (Cache.get 2000 "repos:acme" (Cache.get 1000 "repos:acme" store).2).1
  = (Cache.get 2000 "repos:acme" store).1.
Proof.
  intros store.
  apply (cache_lookup_unobservable nat store "repos:acme" "repos:acme" 1000 2000).
  lia.
Defined.

(** X2. Storing again under a key replaces the value and restarts the five
    minutes: until the new expiry a lookup returns the second value, also
    when the first would have expired by then, and the store is the one a
    single [set] of the second value gives. *)
Theorem cache_set_replaces_and_restarts :
  forall (T : Type) (store : gmap string (CacheEntry T)) (key : string)
         (v1 v2 : T) (now1 now2 t : Z),
    t <= now2 + CACHE_TTL_MS ->
    Cache.get t key (Cache.set now2 key v2 (Cache.set now1 key v1 store))
    = (Some v2, Cache.set now2 key v2 store).
Proof.
  intros T store key v1 v2 now1 now2 t Ht.
  unfold Cache.set at 1 2. rewrite insert_insert_eq.
  by apply get_fresh.
Qed.

Lemma cache_set_replaces_and_restarts_witness :
  Cache.get 400000 "repos:acme"
            (Cache.set 350000 "repos:acme" 8%nat (Cache.set 1000 "repos:acme" 7%nat ∅))
  = (Some 8%nat, Cache.set 350000 "repos:acme" 8%nat ∅).
Proof.
  apply (cache_set_replaces_and_restarts nat ∅ "repos:acme" 7%nat 8%nat
           1000 350000 400000).
  vm_compute. discriminate.
Defined.

(** ** The gate, continued *)

Lemma parseInt_Int_nonempty (v : string) (n : Z) :
  JS.parseInt v = JS.Int n -> v <> "".
Proof. intros H ->. discriminate. Qed.

(** X3. When the gate refuses a request, its message reads
    [Resets in s seconds] where [s] is the time left until the reset, in
    seconds, rounded up: [1000 * (s - 1) < reset - now <= 1000 * s]. In
    particular [s] is at least 1. *)
Theorem gate_message_seconds :
  forall (w : World) (e : Failure),
    GitHubService.gate w = Some e ->
    exists (r s : Z),
      reset (rateLimitInfo w) = JS.Int r
      /\ e = RateLimitExceeded
               ("GitHub API rate limit exceeded. Resets in "
                +:+ pretty s +:+ " seconds.")
      /\ 1 <= s
      /\ 1000 * (s - 1) < r - clock w <= 1000 * s.
Proof.
  intros w e. unfold GitHubService.gate.
  destruct (JS.le _ _); [|discriminate].
  destruct (reset (rateLimitInfo w)) as [|r]; cbn; [discriminate|].
  destruct (Z.ltb_spec 0 (r - clock w)) as [Hpos|]; [|discriminate].
  intros [= <-]. exists r, (- (- (r - clock w) / 1000)).
  split; [reflexivity|]. split; [reflexivity|].
  pose proof (Z.div_mod (- (r - clock w)) 1000 ltac:(lia)) as Hdm.
  pose proof (Z.mod_pos_bound (- (r - clock w)) 1000 ltac:(lia)) as Hb.
  lia.
Qed.

Lemma gate_message_seconds_witness :
  exists (r s : Z),
    reset (rateLimitInfo Scenario.exhausted) = JS.Int r
    /\ RateLimitExceeded "GitHub API rate limit exceeded. Resets in 10 seconds."
       = RateLimitExceeded
           ("GitHub API rate limit exceeded. Resets in "
            +:+ pretty s +:+ " seconds.")
    /\ 1 <= s
    /\ 1000 * (s - 1) < r - clock Scenario.exhausted <= 1000 * s.
Proof.
  apply (gate_message_seconds Scenario.exhausted). vm_compute. reflexivity.
Defined.

(** X4. The tracker corrects itself from the last response. If that response
    reports a positive [x-ratelimit-remaining], the next request passes the
    gate, whatever the tracker held before. If it reports a remaining count
    of zero or less and an [x-ratelimit-reset] that, in milliseconds, lies
    after the time the response arrived, the next request is refused. *)
Theorem gate_follows_last_response :
  forall (T : Type) (up : Upstream T) (endpoint : string) (w : World)
         (r : Response T),
    GitHubService.gate w = None ->
    response (up (calls w) (GitHubService.resolve endpoint)) = Some r ->
    let w' := (GitHubService.request up endpoint w).2 in
    (forall v n,
        headers r !! "x-ratelimit-remaining" = Some v ->
        JS.parseInt v = JS.Int n -> 0 < n ->
        GitHubService.gate w' = None)
    /\ (forall v n s x,
          headers r !! "x-ratelimit-remaining" = Some v ->
          JS.parseInt v = JS.Int n -> n <= 0 ->
          headers r !! "x-ratelimit-reset" = Some s ->
          JS.parseInt s = JS.Int x -> clock w' < x * 1000 ->
          exists message,
            GitHubService.gate w' = Some (RateLimitExceeded message)).
Proof.
  intros T up endpoint w r G Hr w'. subst w'.
  rewrite (request_passed up endpoint w G). cbn [snd].
  unfold GitHubService.absorb. rewrite Hr. split.
  - intros v n Hv Hn Hpos. apply gate_open.
    cbn [rateLimitInfo GitHubService.updateRateLimit remaining].
    rewrite Hv, (fromHeader_present v) by exact (parseInt_Int_nonempty _ _ Hn).
    rewrite Hn. cbn. destruct (Z.leb_spec n 0); [lia | reflexivity].
  - intros v n s x Hv Hn Hle Hs Hx Hlater. apply gate_closed.
    cbn [rateLimitInfo GitHubService.updateRateLimit remaining reset clock] in *.
    rewrite Hv, Hs.
    rewrite (fromHeader_present v) by exact (parseInt_Int_nonempty _ _ Hn).
    rewrite (fromHeader_present s) by exact (parseInt_Int_nonempty _ _ Hx).
    rewrite Hn, Hx. cbn.
    destruct (Z.leb_spec n 0); [|lia].
    destruct (Z.ltb_spec (clock w + Z.of_N (elapsed (up (calls w) (GitHubService.resolve endpoint))))
                         (x * 1000)); [reflexivity | lia].
Qed.

Lemma gate_follows_last_response_witness :
  let healthy : Response nat := Scenario.okResponse Fixture.healthyHeaders 1%nat in
  let spent : Response nat := Scenario.okResponse Scenario.spentHeaders 1%nat in
  GitHubService.gate
    (GitHubService.request (Scenario.always healthy) "/orgs/acme/repos"
                           Scenario.stale).2 = None
  /\ exists message,
      GitHubService.gate
        (GitHubService.request (Scenario.always spent) "/orgs/acme/repos"
                               Scenario.fresh).2
      = Some (RateLimitExceeded message).
Proof.
  intros healthy spent. split.
  - apply (gate_follows_last_response nat (Scenario.always healthy)
             "/orgs/acme/repos" Scenario.stale healthy eq_refl eq_refl)
      with (v := "4999") (n := 4999); [reflexivity | reflexivity | lia].
  - apply (gate_follows_last_response nat (Scenario.always spent)
             "/orgs/acme/repos" Scenario.fresh spent eq_refl eq_refl)
      with (v := "0") (n := 0) (s := "1700000000") (x := 1700000000);
      [reflexivity | reflexivity | lia | reflexivity | reflexivity
       | vm_compute; reflexivity].
Defined.

(** ** The paginator, continued *)

Section PaginatorMore.
Context {T : Type}.
Implicit Types (up : Upstream (list T)) (w : World) (endpoint : string).

(** The loop goes through full pages and ends on the first failing request,
    with that failure. *)
Lemma loop_until_failure up endpoint full : forall fuel results page w w1 e w2,
  serves up endpoint page w full w1 ->
  Forall (fun data => (GitHubService.perPage <= length data)%nat) full ->
  GitHubService.request up (GitHubService.pageUrl endpoint (page + length full)) w1
  = (Err e, w2) ->
  (length full < fuel)%nat ->
  GitHubService.fetchAllPages_loop fuel up endpoint results page w
  = Some (Err e, w2).
Proof.
  induction full as [|data rest IH]; intros fuel results page w w1 e w2.
  - cbn [serves length]. intros -> _ Hreq Hfuel.
    destruct fuel as [|fuel]; [lia|].
    cbn [GitHubService.fetchAllPages_loop].
    rewrite Nat.add_0_r in Hreq. by rewrite Hreq.
  - cbn [serves length]. intros (w' & Hreq & Hrest) Hfull Hfail Hfuel.
    destruct fuel as [|fuel]; [lia|].
    cbn [GitHubService.fetchAllPages_loop]. rewrite Hreq.
    inversion Hfull as [|? ? Hdata Hfull']; subst.
    apply Nat.ltb_ge in Hdata. rewrite Hdata.
    apply (IH fuel _ (S page) w' w1 e w2 Hrest Hfull'); [|lia].
    by rewrite Nat.add_succ_comm.
Qed.

End PaginatorMore.

(** X5. [fetchAllPages] is all or nothing. If the upstream serves some full
    pages and the request for the next page fails, the call fails with that
    very failure, in the world the failing request left: the items of the
    pages already fetched are not returned, and nothing is retried. *)
Theorem fetchAllPages_fails_with_first_failure :
  forall (T : Type) (up : Upstream (list T)) (endpoint : string)
         (w w1 w2 : World) (full : list (list T)) (e : Failure) (fuel : nat),
    serves up endpoint 1 w full w1 ->
    Forall (fun data => (GitHubService.perPage <= length data)%nat) full ->
    GitHubService.request up (GitHubService.pageUrl endpoint (S (length full))) w1
    = (Err e, w2) ->
    (length full < fuel)%nat ->
    GitHubService.fetchAllPages fuel up endpoint w = Some (Err e, w2).
Proof.
  intros T up endpoint w w1 w2 full e fuel Hserves Hfull Hfail Hfuel.
  unfold GitHubService.fetchAllPages.
  by apply (loop_until_failure up endpoint full fuel [] 1%nat w w1 e w2).
Qed.

Lemma fetchAllPages_fails_with_first_failure_witness :
  let w1 := Scenario.after 5 [GitHubService.resolve
                                (GitHubService.pageUrl Scenario.issuesEndpoint 1)] in
  let w2 := Scenario.after 10 (map (fun page =>
                                      GitHubService.resolve
                                        (GitHubService.pageUrl Scenario.issuesEndpoint page))
                                   [1; 2]%nat) in
  GitHubService.fetchAllPages 5 Scenario.secondPageFails Scenario.issuesEndpoint
                              Scenario.fresh
  = Some (Err (UpstreamError "GitHub API error: API rate limit exceeded"), w2).
Proof.
  intros w1 w2.
  apply (fetchAllPages_fails_with_first_failure GitHubIssue.t
           Scenario.secondPageFails Scenario.issuesEndpoint Scenario.fresh w1 w2
           [repeat (Scenario.issueRecord 1001 None) 100]).
  - exists w1. split; [vm_compute; reflexivity | reflexivity].
  - repeat constructor.
  - vm_compute. reflexivity.
  - vm_compute. lia.
Defined.

(** X6. The paginator stops as soon as the quota is reported spent. If, after
    some full pages, the tracker says that nothing remains until a reset that
    is still ahead, the call fails with the rate-limit error without asking
    for the next page: the calls made are those for the pages served, and no
    other. *)
Theorem fetchAllPages_stops_when_quota_spent :
  forall (T : Type) (up : Upstream (list T)) (endpoint : string)
         (w w1 : World) (full : list (list T)) (fuel : nat),
    serves up endpoint 1 w full w1 ->
    Forall (fun data => (GitHubService.perPage <= length data)%nat) full ->
    JS.le (remaining (rateLimitInfo w1)) (JS.Int 0)
    && JS.gt (reset (rateLimitInfo w1)) (JS.Int (clock w1)) = true ->
    (length full < fuel)%nat ->
    exists message,
      GitHubService.fetchAllPages fuel up endpoint w
      = Some (Err (RateLimitExceeded message), w1)
      /\ calls w1
         = calls w
           ++ map (fun page =>
                     GitHubService.resolve (GitHubService.pageUrl endpoint page))
                  (seq 1 (length full)).
Proof.
  intros T up endpoint w w1 full fuel Hserves Hfull Hspent Hfuel.
  destruct (gate_closed w1 Hspent) as [message G].
  exists message. split.
  - unfold GitHubService.fetchAllPages.
    apply (loop_until_failure up endpoint full fuel [] 1%nat w w1 _ w1);
      try done.
    by apply request_gated.
  - exact (serves_calls up endpoint full 1%nat w w1 Hserves).
Qed.

Lemma fetchAllPages_stops_when_quota_spent_witness :
  exists message,
    GitHubService.fetchAllPages 5 Fixture.spending Scenario.issuesEndpoint
                                Scenario.fresh
    = Some (Err (RateLimitExceeded message), Fixture.spent)
    /\ calls Fixture.spent
       = calls Scenario.fresh
         ++ map (fun page =>
                   GitHubService.resolve
                     (GitHubService.pageUrl Scenario.issuesEndpoint page))
                (seq 1 1).
Proof.
  apply (fetchAllPages_stops_when_quota_spent GitHubIssue.t Fixture.spending
           Scenario.issuesEndpoint Scenario.fresh Fixture.spent
           [repeat (Scenario.issueRecord 1001 None) 100]).
  - exists Fixture.spent. split; [vm_compute; reflexivity | reflexivity].
  - repeat constructor.
  - vm_compute. reflexivity.
  - vm_compute. lia.
Defined.

(** ** How a call moves the clock, the calls and the cache *)

Section Footprint.
Implicit Types (w : World) (key : string).

Lemma request_clock {T} (up : Upstream T) endpoint w :
  clock w <= clock (GitHubService.request up endpoint w).2.
Proof.
  destruct (GitHubService.gate w) as [e|] eqn:G.
  - rewrite (request_gated _ _ _ _ G). cbn. lia.
  - rewrite (request_passed _ _ _ G). cbn. lia.
Qed.

Lemma request_calls {T} (up : Upstream T) endpoint w :
  exists more, calls (GitHubService.request up endpoint w).2 = calls w ++ more.
Proof.
  destruct (GitHubService.gate w) as [e|] eqn:G.
  - rewrite (request_gated _ _ _ _ G). exists []. by rewrite app_nil_r.
  - rewrite (request_passed _ _ _ G). eauto.
Qed.

Lemma loop_clock {T} (up : Upstream (list T)) endpoint :
  forall fuel results page w r w',
    GitHubService.fetchAllPages_loop fuel up endpoint results page w = Some (r, w') ->
    clock w <= clock w'.
Proof.
  induction fuel as [|fuel IH]; intros results page w r w'; [discriminate|].
  cbn [GitHubService.fetchAllPages_loop].
  pose proof (request_clock up (GitHubService.pageUrl endpoint page) w) as Hc.
  destruct (GitHubService.request up (GitHubService.pageUrl endpoint page) w)
    as [[data|e] w1]; cbn [snd] in Hc.
  - destruct (length data <? GitHubService.perPage)%nat.
    + intros [= _ <-]. exact Hc.
    + intros H. apply IH in H. lia.
  - intros [= _ <-]. exact Hc.
Qed.

Lemma loop_calls {T} (up : Upstream (list T)) endpoint :
  forall fuel results page w r w',
    GitHubService.fetchAllPages_loop fuel up endpoint results page w = Some (r, w') ->
    exists more, calls w' = calls w ++ more.
Proof.
  induction fuel as [|fuel IH]; intros results page w r w'; [discriminate|].
  cbn [GitHubService.fetchAllPages_loop].
  destruct (request_calls up (GitHubService.pageUrl endpoint page) w) as [m1 Hc].
  destruct (GitHubService.request up (GitHubService.pageUrl endpoint page) w)
    as [[data|e] w1]; cbn [snd] in Hc.
  - destruct (length data <? GitHubService.perPage)%nat.
    + intros [= _ <-]. eauto.
    + intros H. apply IH in H as [m2 H]. exists (m1 ++ m2).
      by rewrite H, Hc, app_assoc.
  - intros [= _ <-]. eauto.
Qed.

(** With the gate open, the paginator's first act is the call for page 1. *)
Lemma fetchAllPages_first_call {T} (up : Upstream (list T)) endpoint fuel w r w' :
  GitHubService.gate w = None ->
  GitHubService.fetchAllPages fuel up endpoint w = Some (r, w') ->
  exists more,
    calls w'
    = calls w ++ GitHubService.resolve (GitHubService.pageUrl endpoint 1) :: more.
Proof.
  intros G. unfold GitHubService.fetchAllPages.
  destruct fuel as [|fuel]; [discriminate|].
  cbn [GitHubService.fetchAllPages_loop].
  rewrite (request_passed up _ w G).
  destruct (GitHubService.outcome _) as [data|e].
  - destruct (length data <? GitHubService.perPage)%nat.
    + intros [= _ <-]. exists []. reflexivity.
    + intros H. apply loop_calls in H as [more H]. exists more.
      rewrite H. cbn. by rewrite <- app_assoc.
  - intros [= _ <-]. exists []. reflexivity.
Qed.

Lemma launchAll_clock {T} (up : Upstream T) endpoints : forall w,
  clock (GitHubService.launchAll up endpoints w).2 = clock w.
Proof.
  induction endpoints as [|endpoint rest IH]; intros w; cbn; [reflexivity|].
  unfold GitHubService.launch.
  destruct (GitHubService.gate w).
  - specialize (IH w). destruct (GitHubService.launchAll up rest w). exact IH.
  - specialize (IH (with_calls (calls w ++ [GitHubService.resolve endpoint]) w)).
    destruct (GitHubService.launchAll up rest _). exact IH.
Qed.

Lemma launchAll_open_calls {T} (up : Upstream T) endpoints : forall w,
  GitHubService.gate w = None ->
  calls (GitHubService.launchAll up endpoints w).2
  = calls w ++ map GitHubService.resolve endpoints.
Proof.
  induction endpoints as [|endpoint rest IH]; intros w G; cbn;
    [by rewrite app_nil_r|].
  unfold GitHubService.launch. rewrite G.
  specialize (IH (with_calls (calls w ++ [GitHubService.resolve endpoint]) w) G).
  destruct (GitHubService.launchAll up rest _) as [rs w2].
  cbn in *. by rewrite IH, <- app_assoc.
Qed.

Lemma issued_none {T} (e : Failure) (endpoints : list string) :
  GitHubService.issued (map (fun _ => @Err (Reply T) e) endpoints) = [].
Proof. induction endpoints; cbn; auto. Qed.

(** With the gate closed when the lookups start, each of them fails on the
    gate and the world stays as it is. *)
Lemma commitLookups_gated up owner repo branches w e :
  GitHubService.gate w = Some e ->
  GitHubService.commitLookups up owner repo branches w
  = (map (fun _ => Err e) branches, w).
Proof.
  intros G. unfold GitHubService.commitLookups.
  rewrite (launchAll_gated up _ w e G). unfold GitHubService.joinAll.
  rewrite issued_none. cbn [GitHubService.arrivalOrder foldr foldl map].
  rewrite !map_map. destruct w. unfold with_clock, with_rateLimitInfo. cbn.
  by rewrite Z.add_0_r.
Qed.

Lemma commitLookups_clock up owner repo branches w :
  clock w <= clock (GitHubService.commitLookups up owner repo branches w).2.
Proof.
  unfold GitHubService.commitLookups.
  match goal with |- context [GitHubService.launchAll up ?eps w] =>
    pose proof (launchAll_clock up eps w) as H;
    destruct (GitHubService.launchAll up eps w) as [launched w1]
  end.
  cbn in *. lia.
Qed.

(** With the gate open when the lookups start, one call goes out per branch,
    in order. *)
Lemma commitLookups_open_calls up owner repo branches w :
  GitHubService.gate w = None ->
  calls (GitHubService.commitLookups up owner repo branches w).2
  = calls w
    ++ map (fun b => GitHubService.resolve
                       (GitHubService.commitEndpoint owner repo
                          (GitHubBranch.sha (GitHubBranch.commit b))))
           branches.
Proof.
  intros G. unfold GitHubService.commitLookups.
  match goal with |- context [GitHubService.launchAll up ?eps w] =>
    pose proof (launchAll_open_calls up eps w G) as H;
    destruct (GitHubService.launchAll up eps w) as [launched w1]
  end.
  cbn in *. by rewrite H, map_map.
Qed.

(** The frame around the cache, seen from outside. *)

Lemma cacheGet_frame key w :
  clock (GitHubService.cacheGet key w).2 = clock w
  /\ calls (GitHubService.cacheGet key w).2 = calls w
  /\ rateLimitInfo (GitHubService.cacheGet key w).2 = rateLimitInfo w
  /\ cache (GitHubService.cacheGet key w).2 = (Cache.get (clock w) key (cache w)).2.
Proof.
  unfold GitHubService.cacheGet.
  by destruct (Cache.get (clock w) key (cache w)).
Qed.

Lemma cachedOr_touchesOnly key fetch w :
  (forall w1 r w2, fetch w1 = Some (r, w2) -> cache w2 = cache w1) ->
  touchesOnly key w (GitHubService.cachedOr key fetch w).
Proof.
  intros Hfetch r w' k Hrun Hk. unfold GitHubService.cachedOr in Hrun.
  destruct (cacheGet_frame key w) as (_ & _ & _ & Hc).
  pose proof (get_store_lookup (cache w) key (clock w) k) as Hl.
  rewrite <- Hc in Hl. rewrite decide_False in Hl by exact Hk.
  destruct (GitHubService.cacheGet key w) as [[cached|] w1]; cbn [snd] in *.
  - injection Hrun as _ <-. exact Hl.
  - destruct (fetch w1) as [[[v|e] w2]|] eqn:F; [| |discriminate].
    + injection Hrun as _ <-. apply Hfetch in F.
      unfold GitHubService.cacheSet, Cache.set. cbn [cache with_cache].
      rewrite lookup_insert_ne by congruence. by rewrite F.
    + injection Hrun as _ <-. apply Hfetch in F. by rewrite F.
Qed.

(** A call that had to fetch stores what it returns, for five minutes from
    the moment it finished. *)
Lemma cachedOr_stores key fetch w w1 v w' :
  GitHubService.cacheGet key w = (None, w1) ->
  GitHubService.cachedOr key fetch w = Some (Ok v, w') ->
  cache w' !! key = Some (mkCacheEntry v (clock w' + CACHE_TTL_MS)).
Proof.
  intros Hmiss. rewrite (cachedOr_miss _ _ _ _ Hmiss).
  destruct (fetch w1) as [[[v'|e] w2]|]; [|discriminate..].
  intros [= <- <-]. unfold GitHubService.cacheSet, Cache.set.
  cbn [cache clock with_cache]. apply lookup_insert_eq.
Qed.

Lemma cachedOr_served key fetch fetch' w w1 v w' :
  GitHubService.cacheGet key w = (None, w1) ->
  GitHubService.cachedOr key fetch w = Some (Ok v, w') ->
  servedFromCache v w' (GitHubService.cachedOr key fetch').
Proof.
  intros Hmiss Hrun w'' Hcache Hclock.
  pose proof (cachedOr_stores _ _ _ _ _ _ Hmiss Hrun) as Hentry.
  rewrite <- Hcache in Hentry.
  exact (cachedOr_live key fetch' w'' _ Hentry Hclock).
Qed.

Lemma cachedOr_goesUpstream key fetch url w :
  cache w = ∅ ->
  (forall r w2, fetch w = Some (r, w2) ->
                exists more, calls w2 = calls w ++ url :: more) ->
  goesUpstream url w (GitHubService.cachedOr key fetch w).
Proof.
  intros Hempty Hfetch r w' Hrun.
  assert (Hmiss : GitHubService.cacheGet key w = (None, w)).
  { unfold GitHubService.cacheGet, Cache.get. rewrite Hempty, lookup_empty.
    rewrite <- Hempty. by destruct w. }
  rewrite (cachedOr_miss _ _ _ _ Hmiss) in Hrun.
  destruct (fetch w) as [[[v|e] w2]|] eqn:F; [| |discriminate];
    injection Hrun as _ <-; destruct (Hfetch _ _ eq_refl) as [more H];
    exists more; exact H.
Qed.

Lemma andThen_first_call {A} (m : option (Result A * World))
      (k : A -> World -> option (Result Cached * World)) url w :
  (forall r1 w1, m = Some (r1, w1) ->
                 exists more, calls w1 = calls w ++ url :: more) ->
  (forall a w1 r2 w2, k a w1 = Some (r2, w2) ->
                      exists more, calls w2 = calls w1 ++ more) ->
  forall r w', GitHubService.andThen m k = Some (r, w') ->
               exists more, calls w' = calls w ++ url :: more.
Proof.
  intros Hm Hk r w'. destruct m as [[[a|e] w1]|]; cbn; [| |discriminate].
  - intros H. destruct (Hm _ _ eq_refl) as [m1 H1].
    destruct (Hk _ _ _ _ H) as [m2 H2]. exists (m1 ++ m2).
    rewrite H2, H1, <- app_assoc. reflexivity.
  - intros [= _ <-]. eauto.
Qed.

Lemma andThen_clock {A} (m : option (Result A * World))
      (k : A -> World -> option (Result Cached * World)) w r w' :
  (forall r1 w1, m = Some (r1, w1) -> clock w <= clock w1) ->
  (forall a w1 r2 w2, k a w1 = Some (r2, w2) -> clock w1 <= clock w2) ->
  GitHubService.andThen m k = Some (r, w') ->
  clock w <= clock w'.
Proof.
  intros Hm Hk. destruct m as [[[a|e] w1]|]; cbn; [| |discriminate].
  - intros H. specialize (Hm _ _ eq_refl). apply Hk in H. lia.
  - intros [= _ <-]. eauto.
Qed.

End Footprint.

(** ** The normalizers and the cache, continued *)

(** What the fetching half of each normalizer does to the cache, the clock
    and the calls. *)
Ltac fetch_keeps_cache upCommit owner repo :=
  let w1 := fresh "w" in let r := fresh "r" in let w2 := fresh "w" in
  intros w1 r w2; apply andThen_cache;
  [ intros ? ?; apply fetchAllPages_cache
  | first
      [ intros ? ? ? ? [= _ <-]; reflexivity
      | let branches := fresh "branches" in let w3 := fresh "w" in
        intros branches w3 ? ?;
        pose proof (commitLookups_cache upCommit owner repo branches w3);
        destruct (GitHubService.commitLookups upCommit owner repo branches w3);
        intros [= _ <-]; assumption ] ].

Ltac fetch_advances_clock upCommit owner repo :=
  let w1 := fresh "w" in let r := fresh "r" in let w2 := fresh "w" in
  intros w1 r w2; apply andThen_clock;
  [ intros ? ?; apply loop_clock
  | first
      [ intros ? ? ? ? [= _ <-]; reflexivity
      | let branches := fresh "branches" in let w3 := fresh "w" in
        intros branches w3 ? ?;
        pose proof (commitLookups_clock upCommit owner repo branches w3);
        destruct (GitHubService.commitLookups upCommit owner repo branches w3);
        intros [= _ <-]; assumption ] ].

(** X7. A call that had to fetch and succeeded is answered from the cache for
    the next five minutes: in any later world with that cache and a clock no
    more than [CACHE_TTL_MS] past the end of the call, the same method with
    the same arguments returns the same value and changes nothing; it makes
    no request, whatever the upstream or the rate-limit tracker have become.
    This holds for a branch listing whose commit lookups failed as well: the
    items without dates are what is served again. *)
Theorem repeated_call_served_from_cache :
  forall (fuel fuel' : nat) (org owner repo : string) (w w1 w' : World)
         (v : Cached),
    (forall up up',
        GitHubService.cacheGet (CacheKey.repos org) w = (None, w1) ->
        GitHubService.getOrganizationRepos fuel up org w = Some (Ok v, w') ->
        servedFromCache v w' (GitHubService.getOrganizationRepos fuel' up' org))
    /\ (forall up up',
          GitHubService.cacheGet (CacheKey.issues owner repo) w = (None, w1) ->
          GitHubService.getRepositoryIssues fuel up owner repo w = Some (Ok v, w') ->
          servedFromCache v w' (GitHubService.getRepositoryIssues fuel' up' owner repo))
    /\ (forall up up',
          GitHubService.cacheGet (CacheKey.pulls owner repo) w = (None, w1) ->
          GitHubService.getRepositoryPulls fuel up owner repo w = Some (Ok v, w') ->
          servedFromCache v w' (GitHubService.getRepositoryPulls fuel' up' owner repo))
    /\ (forall up upCommit up' upCommit',
          GitHubService.cacheGet (CacheKey.branches owner repo) w = (None, w1) ->
          GitHubService.getRepositoryBranches fuel up upCommit owner repo w
          = Some (Ok v, w') ->
          servedFromCache v w'
            (GitHubService.getRepositoryBranches fuel' up' upCommit' owner repo)).
Proof.
  intros fuel fuel' org owner repo w w1 w' v.
  repeat apply conj; intros; eapply cachedOr_served; eassumption.
Qed.

Lemma repeated_call_served_from_cache_witness :
  let up := Scenario.paged [Scenario.issuesListing] in
  let v := Items [GitHubService.normalizeIssue "acme" "site"
                    (Scenario.issueRecord 1001 None)] in
  let w' := mkWorld (initialRateLimitInfo 0)
                    {[ "issues:acme/site" := mkCacheEntry v 301005 ]} 1005
                    [GitHubService.resolve
                       (GitHubService.pageUrl Scenario.issuesEndpoint 1)] in
  let later := mkWorld (mkRateLimitInfo (JS.Int 0) (JS.Int 900000) (JS.Int 5000))
                       (cache w') 301005 (calls w') in
  GitHubService.getRepositoryIssues 1 up "acme" "site" Scenario.fresh
  = Some (Ok v, w')
  /\ GitHubService.getRepositoryIssues 0 Scenario.unreachable "acme" "site" later
     = Some (Ok v, later).
Proof.
  intros up v w' later.
  assert (Hrun : GitHubService.getRepositoryIssues 1 up "acme" "site" Scenario.fresh
                 = Some (Ok v, w')) by (vm_compute; reflexivity).
  split; [exact Hrun|].
  destruct (repeated_call_served_from_cache 1 0 "acme" "acme" "site"
              Scenario.fresh Scenario.fresh w' v) as (_ & Hissues & _).
  apply (Hissues up Scenario.unreachable); [vm_compute; reflexivity | exact Hrun
                                            | reflexivity | vm_compute; discriminate].
Defined.

(** The URLs of the first page of each collection, spelled out. *)

Lemma includes_append (a b : string) (c : ascii) :
  JS.includes (a +:+ b) c = JS.includes a c || JS.includes b c.
Proof.
  induction a as [|d a IH]; [reflexivity|].
  change (String d a +:+ b) with (String d (a +:+ b)).
  cbn [JS.includes]. by destruct (Ascii.eqb d c).
Qed.

Lemma append_assoc (a b c : string) : (a +:+ b) +:+ c = a +:+ b +:+ c.
Proof.
  induction a as [|d a IH]; [reflexivity|].
  change (String d a +:+ b) with (String d (a +:+ b)).
  change (String d (a +:+ b) +:+ c) with (String d ((a +:+ b) +:+ c)).
  by rewrite IH.
Qed.

Lemma first_page_repos (org : string) :
  GitHubService.resolve (GitHubService.pageUrl ("/orgs/" +:+ org +:+ "/repos") 1)
  = "https://api.github.com/orgs/" +:+ org +:+ "/repos"
      +:+ (if JS.includes org "?" then "&" else "?") +:+ "per_page=100&page=1".
Proof.
  assert (Hquery : JS.includes ("/orgs/" +:+ org +:+ "/repos") "?"
                   = JS.includes org "?")
    by (rewrite (includes_append "/orgs/"), includes_append; cbn; apply orb_false_r).
  rewrite pageUrl_text, Hquery, !append_assoc. reflexivity.
Qed.

Lemma first_page_issues (owner repo : string) :
  GitHubService.resolve
    (GitHubService.pageUrl
       ("/repos/" +:+ owner +:+ "/" +:+ repo +:+ "/issues?state=all") 1)
  = "https://api.github.com/repos/" +:+ owner +:+ "/" +:+ repo
      +:+ "/issues?state=all&per_page=100&page=1".
Proof.
  assert (Hquery : JS.includes
                     ("/repos/" +:+ owner +:+ "/" +:+ repo +:+ "/issues?state=all")
                     "?" = true)
    by (rewrite (includes_append "/repos/"), !includes_append; cbn;
        by rewrite !orb_true_r).
  rewrite pageUrl_text, Hquery, !append_assoc. reflexivity.
Qed.

Lemma first_page_pulls (owner repo : string) :
  GitHubService.resolve
    (GitHubService.pageUrl
       ("/repos/" +:+ owner +:+ "/" +:+ repo +:+ "/pulls?state=all") 1)
  = "https://api.github.com/repos/" +:+ owner +:+ "/" +:+ repo
      +:+ "/pulls?state=all&per_page=100&page=1".
Proof.
  assert (Hquery : JS.includes
                     ("/repos/" +:+ owner +:+ "/" +:+ repo +:+ "/pulls?state=all")
                     "?" = true)
    by (rewrite (includes_append "/repos/"), !includes_append; cbn;
        by rewrite !orb_true_r).
  rewrite pageUrl_text, Hquery, !append_assoc. reflexivity.
Qed.

Lemma first_page_branches (owner repo : string) :
  GitHubService.resolve
    (GitHubService.pageUrl
       ("/repos/" +:+ owner +:+ "/" +:+ repo +:+ "/branches") 1)
  = "https://api.github.com/repos/" +:+ owner +:+ "/" +:+ repo +:+ "/branches"
      +:+ (if JS.includes owner "?" || JS.includes repo "?" then "&" else "?")
      +:+ "per_page=100&page=1".
Proof.
  assert (Hquery : JS.includes
                     ("/repos/" +:+ owner +:+ "/" +:+ repo +:+ "/branches") "?"
                   = JS.includes owner "?" || JS.includes repo "?")
    by (rewrite (includes_append "/repos/"), !includes_append; cbn;
        by rewrite orb_false_r).
  rewrite pageUrl_text, Hquery, !append_assoc. reflexivity.
Qed.

(** A listing that comes to an end is returned from, given the fuel. *)

Lemma serves_snoc {T} (up : Upstream (list T)) endpoint full :
  forall page w w1 data w2,
    serves up endpoint page w full w1 ->
    GitHubService.request up (GitHubService.pageUrl endpoint (page + length full)) w1
    = (Ok data, w2) ->
    serves up endpoint page w (full ++ [data]) w2.
Proof.
  induction full as [|first rest IH]; intros page w w1 data w2; cbn [serves app length].
  - intros -> Hreq. rewrite Nat.add_0_r in Hreq. eauto.
  - intros (w' & Hfirst & Hrest) Hreq. exists w'. split; [exact Hfirst|].
    apply (IH (S page) w' w1 data w2 Hrest). by rewrite Nat.add_succ_comm.
Qed.

Lemma fetchAllPages_returns {T} (up : Upstream (list T)) endpoint w n fuel :
  endsAfter up endpoint w n ->
  (n < fuel)%nat ->
  exists r w', GitHubService.fetchAllPages fuel up endpoint w = Some (r, w').
Proof.
  intros (full & w1 & <- & Hserves & Hfull & Hlast) Hfuel.
  destruct (GitHubService.request up
              (GitHubService.pageUrl endpoint (S (length full))) w1)
    as [[data|e] w2] eqn:Hreq; cbn [fst] in Hlast.
  - pose proof (serves_snoc up endpoint full 1%nat w w1 data w2 Hserves Hreq) as Hall.
    unfold GitHubService.fetchAllPages.
    rewrite (loop_until_short up endpoint full fuel [] 1%nat w data w2 Hall Hfull
               Hlast Hfuel).
    eauto.
  - unfold GitHubService.fetchAllPages.
    rewrite (loop_until_failure up endpoint full fuel [] 1%nat w w1 e w2 Hserves Hfull
               Hreq Hfuel).
    eauto.
Qed.

Lemma cachedOr_requestsFirst {T} key (up : Upstream (list T)) endpoint fuel k url w n :
  cache w = ∅ ->
  goesUpstream url w
    (GitHubService.cachedOr key
       (fun w1 => GitHubService.andThen
                    (GitHubService.fetchAllPages fuel up endpoint w1) k) w) ->
  (forall a w1, exists r2 w2, k a w1 = Some (r2, w2)) ->
  endsAfter up endpoint w n ->
  (n < fuel)%nat ->
  requestsFirst url w
    (GitHubService.cachedOr key
       (fun w1 => GitHubService.andThen
                    (GitHubService.fetchAllPages fuel up endpoint w1) k) w).
Proof.
  intros Hempty Hfirst Hk Hends Hfuel.
  assert (Hmiss : GitHubService.cacheGet key w = (None, w)).
  { unfold GitHubService.cacheGet, Cache.get. rewrite Hempty, lookup_empty.
    rewrite <- Hempty. by destruct w. }
  assert (Hrun : exists r w',
             GitHubService.cachedOr key
               (fun w1 => GitHubService.andThen
                            (GitHubService.fetchAllPages fuel up endpoint w1) k) w
             = Some (r, w')).
  { rewrite (cachedOr_miss _ _ _ _ Hmiss).
    destruct (fetchAllPages_returns up endpoint w n fuel Hends Hfuel)
      as (r1 & w1 & ->).
    destruct r1 as [a|e]; cbn [GitHubService.andThen]; [|eauto].
    destruct (Hk a w1) as (r2 & w2 & ->). destruct r2; eauto. }
  destruct Hrun as (r & w' & Hrun).
  destruct (Hfirst r w' Hrun) as [more Hmore].
  exists r, w', more. split; assumption.
Qed.

(** With an empty cache and the gate open, a call that returns has asked for
    the first page of its collection before anything else. *)
Lemma cleared_goesUpstream :
  forall (fuel : nat) (org owner repo : string) (w : World)
         (upRepos : Upstream (list GitHubRepository.t))
         (upIssues : Upstream (list GitHubIssue.t))
         (upPulls : Upstream (list GitHubPullRequest.t))
         (upBranches : Upstream (list GitHubBranch.t))
         (upCommit : Upstream GitHubCommit.t),
    GitHubService.gate w = None ->
    cache w = ∅ ->
    let first (endpoint : string) :=
      GitHubService.resolve (GitHubService.pageUrl endpoint 1) in
    goesUpstream (first ("/orgs/" +:+ org +:+ "/repos")) w
      (GitHubService.getOrganizationRepos fuel upRepos org w)
    /\ goesUpstream
         (first ("/repos/" +:+ owner +:+ "/" +:+ repo +:+ "/issues?state=all")) w
         (GitHubService.getRepositoryIssues fuel upIssues owner repo w)
    /\ goesUpstream
         (first ("/repos/" +:+ owner +:+ "/" +:+ repo +:+ "/pulls?state=all")) w
         (GitHubService.getRepositoryPulls fuel upPulls owner repo w)
    /\ goesUpstream
         (first ("/repos/" +:+ owner +:+ "/" +:+ repo +:+ "/branches")) w
         (GitHubService.getRepositoryBranches fuel upBranches upCommit owner repo w).
Proof.
  intros fuel org owner repo w upRepos upIssues upPulls upBranches upCommit G Hempty
         first.
  repeat apply conj; apply cachedOr_goesUpstream; try exact Hempty;
    apply andThen_first_call;
    try (intros r1 w1; apply fetchAllPages_first_call; exact G).
  1-3: intros a w1 r2 w2 [= _ <-]; exists []; by rewrite app_nil_r.
  intros branches w1 r2 w2.
  destruct (GitHubService.gate w1) as [e|] eqn:G1.
  - rewrite (commitLookups_gated upCommit owner repo branches w1 e G1).
    intros [= _ <-]. exists []. by rewrite app_nil_r.
  - pose proof (commitLookups_open_calls upCommit owner repo branches w1 G1) as Hc.
    destruct (GitHubService.commitLookups upCommit owner repo branches w1).
    intros [= _ <-]. eauto.
Qed.

(** X8. After [clearCache] nothing is answered from the cache: with the gate
    open, the next call of any of the four methods goes upstream. Whenever
    the upstream brings the listing to an end ([n] full pages, then a short
    page or a failure) and the loop is given more than [n] iterations, the
    call returns, and the first request it has made is the one for page 1 of
    its collection, with [per_page=100]; the same holds of a call that
    returns for whatever reason. The query of that request is appended with
    [&] for issues and pull requests, and for the other two with [?], unless
    the organization, owner or repository name holds a [?] itself. *)
Theorem clearCache_forces_fetch :
  forall (fuel : nat) (org owner repo : string) (w : World)
         (upRepos : Upstream (list GitHubRepository.t))
         (upIssues : Upstream (list GitHubIssue.t))
         (upPulls : Upstream (list GitHubPullRequest.t))
         (upBranches : Upstream (list GitHubBranch.t))
         (upCommit : Upstream GitHubCommit.t),
    GitHubService.gate w = None ->
    let w0 := GitHubService.clearCache w in
    let reposUrl :=
      "https://api.github.com/orgs/" +:+ org +:+ "/repos"
        +:+ (if JS.includes org "?" then "&" else "?") +:+ "per_page=100&page=1" in
    let issuesUrl :=
      "https://api.github.com/repos/" +:+ owner +:+ "/" +:+ repo
        +:+ "/issues?state=all&per_page=100&page=1" in
    let pullsUrl :=
      "https://api.github.com/repos/" +:+ owner +:+ "/" +:+ repo
        +:+ "/pulls?state=all&per_page=100&page=1" in
    let branchesUrl :=
      "https://api.github.com/repos/" +:+ owner +:+ "/" +:+ repo +:+ "/branches"
        +:+ (if JS.includes owner "?" || JS.includes repo "?" then "&" else "?")
        +:+ "per_page=100&page=1" in
    cache w0 = ∅
    /\ (goesUpstream reposUrl w0
          (GitHubService.getOrganizationRepos fuel upRepos org w0)
        /\ forall n,
             endsAfter upRepos ("/orgs/" +:+ org +:+ "/repos") w0 n ->
             (n < fuel)%nat ->
             requestsFirst reposUrl w0
               (GitHubService.getOrganizationRepos fuel upRepos org w0))
    /\ (goesUpstream issuesUrl w0
          (GitHubService.getRepositoryIssues fuel upIssues owner repo w0)
        /\ forall n,
             endsAfter upIssues
               ("/repos/" +:+ owner +:+ "/" +:+ repo +:+ "/issues?state=all") w0 n ->
             (n < fuel)%nat ->
             requestsFirst issuesUrl w0
               (GitHubService.getRepositoryIssues fuel upIssues owner repo w0))
    /\ (goesUpstream pullsUrl w0
          (GitHubService.getRepositoryPulls fuel upPulls owner repo w0)
        /\ forall n,
             endsAfter upPulls
               ("/repos/" +:+ owner +:+ "/" +:+ repo +:+ "/pulls?state=all") w0 n ->
             (n < fuel)%nat ->
             requestsFirst pullsUrl w0
               (GitHubService.getRepositoryPulls fuel upPulls owner repo w0))
    /\ (goesUpstream branchesUrl w0
          (GitHubService.getRepositoryBranches fuel upBranches upCommit owner repo w0)
        /\ forall n,
             endsAfter upBranches
               ("/repos/" +:+ owner +:+ "/" +:+ repo +:+ "/branches") w0 n ->
             (n < fuel)%nat ->
             requestsFirst branchesUrl w0
               (GitHubService.getRepositoryBranches fuel upBranches upCommit
                  owner repo w0)).
Proof.
  intros fuel org owner repo w upRepos upIssues upPulls upBranches upCommit G w0
         reposUrl issuesUrl pullsUrl branchesUrl.
  assert (Hempty : cache w0 = ∅) by reflexivity.
  destruct (cleared_goesUpstream fuel org owner repo w0 upRepos upIssues upPulls
              upBranches upCommit G Hempty)
    as (Hrepos & Hissues & Hpulls & Hbranches).
  rewrite first_page_repos in Hrepos. rewrite first_page_issues in Hissues.
  rewrite first_page_pulls in Hpulls. rewrite first_page_branches in Hbranches.
  split; [exact Hempty|].
  split; [|split; [|split]]; (split; [assumption|]); intros n Hends Hfuel.
  - apply (cachedOr_requestsFirst _ upRepos _ fuel _ _ w0 n Hempty Hrepos);
      [eauto | exact Hends | exact Hfuel].
  - apply (cachedOr_requestsFirst _ upIssues _ fuel _ _ w0 n Hempty Hissues);
      [eauto | exact Hends | exact Hfuel].
  - apply (cachedOr_requestsFirst _ upPulls _ fuel _ _ w0 n Hempty Hpulls);
      [eauto | exact Hends | exact Hfuel].
  - apply (cachedOr_requestsFirst _ upBranches _ fuel _ _ w0 n Hempty Hbranches);
      [|exact Hends | exact Hfuel].
    intros branches w1.
    destruct (GitHubService.commitLookups upCommit owner repo branches w1); eauto.
Qed.

(** After a first listing is cached and the cache cleared, the same listing
    goes upstream again. *)
Lemma clearCache_forces_fetch_witness :
  let up := Scenario.paged [Scenario.issuesListing] in
  let w0 := GitHubService.clearCache Fixture2.cachedIssues in
  GitHubService.gate Fixture2.cachedIssues = None
  /\ endsAfter up "/repos/acme/site/issues?state=all" w0 0
  /\ exists r w' more,
      GitHubService.getRepositoryIssues 1 up "acme" "site" w0 = Some (r, w')
      /\ calls w'
         = calls w0
           ++ "https://api.github.com/repos/acme/site/issues?state=all&per_page=100&page=1"
           :: more.
Proof.
  intros up w0.
  assert (G : GitHubService.gate Fixture2.cachedIssues = None) by reflexivity.
  assert (Hends : endsAfter up "/repos/acme/site/issues?state=all" w0 0).
  { exists [], w0. split; [reflexivity|]. split; [reflexivity|].
    split; [constructor|]. vm_compute. lia. }
  split; [exact G|]. split; [exact Hends|].
  destruct (clearCache_forces_fetch 1 "acme" "acme" "site" Fixture2.cachedIssues
              (Scenario.always (Scenario.errorResponse ∅)) up
              (Scenario.always (Scenario.errorResponse ∅))
              (Scenario.always (Scenario.errorResponse ∅))
              Scenario.commits G) as (_ & _ & (_ & Hissues) & _).
  apply (Hissues 0%nat Hends). lia.
Defined.

(** X9. A call changes the cache under its own key only: whatever it returns,
    every entry stored under another key, by this or any other method, is
    still there, unchanged. *)
Theorem call_touches_own_key_only :
  forall (fuel : nat) (org owner repo : string) (w : World)
         (upRepos : Upstream (list GitHubRepository.t))
         (upIssues : Upstream (list GitHubIssue.t))
         (upPulls : Upstream (list GitHubPullRequest.t))
         (upBranches : Upstream (list GitHubBranch.t))
         (upCommit : Upstream GitHubCommit.t),
    touchesOnly (CacheKey.repos org) w
      (GitHubService.getOrganizationRepos fuel upRepos org w)
    /\ touchesOnly (CacheKey.issues owner repo) w
         (GitHubService.getRepositoryIssues fuel upIssues owner repo w)
    /\ touchesOnly (CacheKey.pulls owner repo) w
         (GitHubService.getRepositoryPulls fuel upPulls owner repo w)
    /\ touchesOnly (CacheKey.branches owner repo) w
         (GitHubService.getRepositoryBranches fuel upBranches upCommit owner repo w).
Proof.
  intros fuel org owner repo w upRepos upIssues upPulls upBranches upCommit.
  repeat apply conj; apply cachedOr_touchesOnly;
    fetch_keeps_cache upCommit owner repo.
Qed.

Lemma call_touches_own_key_only_witness :
  let up := Scenario.paged [Scenario.pullsListing] in
  exists r w',
    GitHubService.getRepositoryPulls 1 up "acme" "site" Fixture2.cachedIssues
    = Some (r, w')
    /\ cache w' !! "issues:acme/site"
       = cache Fixture2.cachedIssues !! "issues:acme/site".
Proof.
  intros up.
  destruct (call_touches_own_key_only 1 "acme" "acme" "site" Fixture2.cachedIssues
              (Scenario.always (Scenario.errorResponse ∅))
              (Scenario.always (Scenario.errorResponse ∅)) up
              (Scenario.always (Scenario.errorResponse ∅))
              Scenario.commits) as (_ & _ & Hpulls & _).
  destruct (GitHubService.getRepositoryPulls 1 up "acme" "site" Fixture2.cachedIssues)
    as [[r w']|] eqn:Hrun; [|vm_compute in Hrun; discriminate].
  exists r, w'. split; [reflexivity|].
  apply (Hpulls r w' "issues:acme/site" eq_refl). discriminate.
Defined.

(** ** Cache keys *)

Lemma slashless_split (o1 o2 r1 r2 : string) :
  JS.includes o1 "/" = false ->
  JS.includes o2 "/" = false ->
  o1 +:+ "/" +:+ r1 = o2 +:+ "/" +:+ r2 ->
  o1 = o2 /\ r1 = r2.
Proof.
  revert o2. induction o1 as [|c o1 IH]; intros [|d o2]; simpl.
  - intros _ _ H. injection H as H. simpl in H. auto.
  - intros _ Hd H. injection H as H1 H2. subst d.
    by rewrite Ascii.eqb_refl in Hd.
  - intros Hc _ H. injection H as H1 H2. subst c.
    by rewrite Ascii.eqb_refl in Hc.
  - destruct (Ascii.eqb c "/") eqn:Ec; [discriminate|].
    destruct (Ascii.eqb d "/") eqn:Ed; [discriminate|].
    intros Hc Hd H. injection H as H1 H2. subst d.
    destruct (IH o2 Hc Hd H2) as [-> ->]. auto.
Qed.

(** X10. Cache keys keep the calls apart. Keys built by different methods are
    never equal. Two calls of [getOrganizationRepos] share a key only for the
    same organization. For the other three methods, when neither owner
    contains a [/], two calls share a key only if owner and repository are
    the same. *)
Theorem cache_keys_distinct :
  forall (org org' owner repo owner' repo' : string),
    (CacheKey.repos org = CacheKey.repos org' -> org = org')
    /\ (JS.includes owner "/" = false -> JS.includes owner' "/" = false ->
        (CacheKey.issues owner repo = CacheKey.issues owner' repo' ->
         owner = owner' /\ repo = repo')
        /\ (CacheKey.pulls owner repo = CacheKey.pulls owner' repo' ->
            owner = owner' /\ repo = repo')
        /\ (CacheKey.branches owner repo = CacheKey.branches owner' repo' ->
            owner = owner' /\ repo = repo'))
    /\ CacheKey.repos org <> CacheKey.issues owner repo
    /\ CacheKey.repos org <> CacheKey.pulls owner repo
    /\ CacheKey.repos org <> CacheKey.branches owner repo
    /\ CacheKey.issues owner repo <> CacheKey.pulls owner' repo'
    /\ CacheKey.issues owner repo <> CacheKey.branches owner' repo'
    /\ CacheKey.pulls owner repo <> CacheKey.branches owner' repo'.
Proof.
  intros org org' owner repo owner' repo'.
  split; [intros H; exact (inj (String.append "repos:") _ _ H)|].
  split; [|repeat split; discriminate].
  intros Ho Ho'.
  repeat apply conj; intros Hkey;
    apply (inj (String.append _)) in Hkey;
    exact (slashless_split _ _ _ _ Ho Ho' Hkey).
Qed.

Lemma cache_keys_distinct_witness :
  JS.includes "acme" "/" = false
  /\ CacheKey.issues "acme" "site" = "issues:acme/site"
  /\ ("acme" = "acme" /\ "site" = "site").
Proof.
  split; [reflexivity|]. split; [reflexivity|].
  apply (cache_keys_distinct "acme" "acme" "acme" "site" "acme" "site");
    reflexivity.
Defined.

(** Without the condition on the owner, keys do collide: the owner [a/b] with
    the repository [c], and the owner [a] with the repository [b/c]. *)
Example cache_keys_collide_on_slash :
  CacheKey.issues "a/b" "c" = CacheKey.issues "a" "b/c".
Proof. reflexivity. Qed.

(** ** Invariants of the cache *)

Section Invariants.
Implicit Types (w : World) (key : string).

Lemma WellShaped_get (store : gmap string (CacheEntry Cached)) key t :
  WellShaped store -> WellShaped (Cache.get t key store).2.
Proof.
  intros H k entry Hk. rewrite get_store_lookup in Hk.
  case_decide; [subst k|by apply (H k)].
  destruct (store !! key) as [e|] eqn:E; [|discriminate].
  destruct (expiresAt e <? t); [discriminate|].
  injection Hk as <-. by apply (H key).
Qed.

Lemma cachedOr_WellShaped key fetch w :
  (forall w1 r w2, fetch w1 = Some (r, w2) -> cache w2 = cache w1) ->
  (forall w1 v w2, fetch w1 = Some (Ok v, w2) -> fits key v) ->
  preservedBy (fun w => WellShaped (cache w)) w (GitHubService.cachedOr key fetch w).
Proof.
  intros Hcache Hfits Hw r w'. unfold GitHubService.cachedOr.
  destruct (cacheGet_frame key w) as (_ & _ & _ & Hc).
  pose proof (WellShaped_get (cache w) key (clock w) Hw) as H1. rewrite <- Hc in H1.
  destruct (GitHubService.cacheGet key w) as [[cached|] w1]; cbn [snd] in *.
  - by intros [= _ <-].
  - destruct (fetch w1) as [[[v|e] w2]|] eqn:F; [| |discriminate].
    + intros [= _ <-]. pose proof (Hcache _ _ _ F) as Hsame.
      pose proof (Hfits _ _ _ F) as Hv.
      intros k entry. unfold GitHubService.cacheSet, Cache.set.
      cbn [cache with_cache]. rewrite lookup_insert, Hsame.
      case_decide; [subst k; intros [= <-]; exact Hv | apply H1].
    + intros [= _ <-]. by rewrite (Hcache _ _ _ F).
Qed.

Lemma cachedOr_hit_shape key fetch w v w' :
  (forall w1 v w2, fetch w1 = Some (Ok v, w2) -> fits key v) ->
  WellShaped (cache w) ->
  GitHubService.cachedOr key fetch w = Some (Ok v, w') ->
  fits key v.
Proof.
  intros Hfits Hw. unfold GitHubService.cachedOr, GitHubService.cacheGet, Cache.get.
  destruct (cache w !! key) as [entry|] eqn:E.
  - destruct (expiresAt entry <? clock w).
    + destruct (fetch _) as [[[v'|e] w2]|] eqn:F; [|discriminate..].
      intros [= <- _]. eauto.
    + intros [= <- _]. exact (Hw key entry E).
  - destruct (fetch _) as [[[v'|e] w2]|] eqn:F; [|discriminate..].
    intros [= <- _]. eauto.
Qed.

Lemma cachedOr_WithinTtl key fetch w :
  (forall w1 r w2, fetch w1 = Some (r, w2) -> cache w2 = cache w1) ->
  (forall w1 r w2, fetch w1 = Some (r, w2) -> clock w1 <= clock w2) ->
  preservedBy WithinTtl w (GitHubService.cachedOr key fetch w).
Proof.
  intros Hcache Hclock Hw r w'. unfold GitHubService.cachedOr.
  destruct (cacheGet_frame key w) as (Ht & _ & _ & Hc).
  assert (H1 : WithinTtl (GitHubService.cacheGet key w).2).
  { intros k entry Hk. rewrite Hc, get_store_lookup in Hk. rewrite Ht.
    case_decide; [subst k|by apply (Hw k)].
    destruct (cache w !! key) as [e|] eqn:E; [|discriminate].
    destruct (expiresAt e <? clock w); [discriminate|].
    injection Hk as <-. by apply (Hw key). }
  destruct (GitHubService.cacheGet key w) as [[cached|] w1]; cbn [snd] in *.
  - by intros [= _ <-].
  - destruct (fetch w1) as [[[v|e] w2]|] eqn:F; [| |discriminate].
    + intros [= _ <-]. pose proof (Hcache _ _ _ F) as Hsame.
      pose proof (Hclock _ _ _ F) as Hlater.
      intros k entry. unfold GitHubService.cacheSet, Cache.set.
      cbn [cache clock with_cache]. rewrite lookup_insert, Hsame.
      case_decide; [intros [= <-]; cbn; lia|].
      intros Hk. specialize (H1 k entry Hk). lia.
    + intros [= _ <-]. pose proof (Hclock _ _ _ F) as Hlater.
      intros k entry Hk. rewrite (Hcache _ _ _ F) in Hk.
      specialize (H1 k entry Hk). lia.
Qed.

End Invariants.

Lemma startsWith_repos (org : string) :
  JS.startsWith ("repos:" +:+ org) "repos:" = true.
Proof. by destruct org. Qed.

Ltac fetch_fits :=
  let w1 := fresh "w" in let v := fresh "v" in let w2 := fresh "w" in
  intros w1 v w2; unfold GitHubService.andThen;
  destruct (GitHubService.fetchAllPages _ _ _ _) as [[[? | ?] ?]|];
  [ | discriminate..];
  first [ intros [= <- _]; first [reflexivity | apply startsWith_repos]
        | destruct (GitHubService.commitLookups _ _ _ _ _);
          intros [= <- _]; reflexivity ].

(** X11. The cache keeps its shape. If every entry under a [repos:] key holds
    a list of repositories and every other entry a list of items, the same
    is true after any call of the four methods, whatever it returns, and
    after [clearCache]; an empty cache has the shape. *)
Theorem cache_shape_preserved :
  forall (fuel : nat) (org owner repo : string) (w : World)
         (upRepos : Upstream (list GitHubRepository.t))
         (upIssues : Upstream (list GitHubIssue.t))
         (upPulls : Upstream (list GitHubPullRequest.t))
         (upBranches : Upstream (list GitHubBranch.t))
         (upCommit : Upstream GitHubCommit.t),
    let shaped (w : World) := WellShaped (cache w) in
    WellShaped ∅
    /\ shaped (GitHubService.clearCache w)
    /\ preservedBy shaped w (GitHubService.getOrganizationRepos fuel upRepos org w)
    /\ preservedBy shaped w
         (GitHubService.getRepositoryIssues fuel upIssues owner repo w)
    /\ preservedBy shaped w
         (GitHubService.getRepositoryPulls fuel upPulls owner repo w)
    /\ preservedBy shaped w
         (GitHubService.getRepositoryBranches fuel upBranches upCommit owner repo w).
Proof.
  intros fuel org owner repo w upRepos upIssues upPulls upBranches upCommit shaped.
  split; [intros k entry Hk; by rewrite lookup_empty in Hk|].
  split; [intros k entry Hk; change ((∅ : gmap string (CacheEntry Cached)) !! k = Some entry) in Hk;
          by rewrite lookup_empty in Hk|].
  repeat apply conj; apply cachedOr_WellShaped;
    first [fetch_keeps_cache upCommit owner repo | fetch_fits].
Qed.

Lemma cache_shape_preserved_witness :
  let up := Scenario.paged [Scenario.pullsListing] in
  WellShaped (cache Fixture2.cachedIssues)
  /\ exists r w',
      GitHubService.getRepositoryPulls 1 up "acme" "site" Fixture2.cachedIssues
      = Some (r, w')
      /\ WellShaped (cache w').
Proof.
  intros up.
  assert (Hw : WellShaped (cache Fixture2.cachedIssues)).
  { intros k entry. cbn [cache Fixture2.cachedIssues].
    rewrite lookup_singleton. case_decide; [subst k|discriminate].
    intros [= <-]. reflexivity. }
  split; [exact Hw|].
  destruct (cache_shape_preserved 1 "acme" "acme" "site" Fixture2.cachedIssues
              (Scenario.always (Scenario.errorResponse ∅))
              (Scenario.always (Scenario.errorResponse ∅)) up
              (Scenario.always (Scenario.errorResponse ∅))
              Scenario.commits) as (_ & _ & _ & _ & Hpulls & _).
  destruct (GitHubService.getRepositoryPulls 1 up "acme" "site" Fixture2.cachedIssues)
    as [[r w']|] eqn:Hrun; [|vm_compute in Hrun; discriminate].
  exists r, w'. split; [reflexivity|]. exact (Hpulls Hw r w' eq_refl).
Defined.

(** X12. The unchecked casts of [cache.get] are sound on a cache of that
    shape: [getOrganizationRepos] then returns a list of repositories and the
    other three methods a list of items, whether the answer comes from the
    cache or from the upstream. *)
Theorem results_have_declared_shape :
  forall (fuel : nat) (org owner repo : string) (w w' : World) (v : Cached),
    WellShaped (cache w) ->
    (forall up,
        GitHubService.getOrganizationRepos fuel up org w = Some (Ok v, w') ->
        exists repos, v = Repositories repos)
    /\ (forall up,
          GitHubService.getRepositoryIssues fuel up owner repo w = Some (Ok v, w') ->
          exists items, v = Items items)
    /\ (forall up,
          GitHubService.getRepositoryPulls fuel up owner repo w = Some (Ok v, w') ->
          exists items, v = Items items)
    /\ (forall up upCommit,
          GitHubService.getRepositoryBranches fuel up upCommit owner repo w
          = Some (Ok v, w') ->
          exists items, v = Items items).
Proof.
  intros fuel org owner repo w w' v Hw.
  repeat apply conj; intros; destruct v as [repos|items]; eauto; exfalso;
    match goal with
    | H : _ = Some (Ok _, w') |- _ =>
        unfold GitHubService.getOrganizationRepos, GitHubService.getRepositoryIssues,
          GitHubService.getRepositoryPulls, GitHubService.getRepositoryBranches in H;
        apply cachedOr_hit_shape in H; [ | fetch_fits | exact Hw];
        unfold fits in H; first [rewrite startsWith_repos in H | cbn in H];
        discriminate H
    end.
Qed.

Lemma results_have_declared_shape_witness :
  WellShaped (cache Fixture2.cachedIssues)
  /\ exists items,
      Items [GitHubService.normalizeIssue "acme" "site" (Scenario.issueRecord 1001 None)]
      = Items items.
Proof.
  assert (Hw : WellShaped (cache Fixture2.cachedIssues)).
  { intros k entry. cbn [cache Fixture2.cachedIssues].
    rewrite lookup_singleton. case_decide; [subst k|discriminate].
    intros [= <-]. reflexivity. }
  split; [exact Hw|].
  destruct (results_have_declared_shape 0 "acme" "acme" "site" Fixture2.cachedIssues
              Fixture2.cachedIssues
              (Items [GitHubService.normalizeIssue "acme" "site"
                        (Scenario.issueRecord 1001 None)]) Hw)
    as (_ & Hissues & _).
  apply (Hissues Scenario.unreachable). vm_compute. reflexivity.
Defined.

(** X13. No entry outlives the TTL. If no entry of the cache expires later
    than [CACHE_TTL_MS] from now, the same is true after any call of the four
    methods, whatever it returns: a call stores with an expiry exactly
    [CACHE_TTL_MS] after the moment it finishes, and the clock never goes
    back. *)
Theorem entries_expire_within_ttl :
  forall (fuel : nat) (org owner repo : string) (w : World)
         (upRepos : Upstream (list GitHubRepository.t))
         (upIssues : Upstream (list GitHubIssue.t))
         (upPulls : Upstream (list GitHubPullRequest.t))
         (upBranches : Upstream (list GitHubBranch.t))
         (upCommit : Upstream GitHubCommit.t),
    preservedBy WithinTtl w (GitHubService.getOrganizationRepos fuel upRepos org w)
    /\ preservedBy WithinTtl w
         (GitHubService.getRepositoryIssues fuel upIssues owner repo w)
    /\ preservedBy WithinTtl w
         (GitHubService.getRepositoryPulls fuel upPulls owner repo w)
    /\ preservedBy WithinTtl w
         (GitHubService.getRepositoryBranches fuel upBranches upCommit owner repo w).
Proof.
  intros fuel org owner repo w upRepos upIssues upPulls upBranches upCommit.
  repeat apply conj; apply cachedOr_WithinTtl;
    first [fetch_keeps_cache upCommit owner repo
          | fetch_advances_clock upCommit owner repo].
Qed.

Lemma entries_expire_within_ttl_witness :
  let up := Scenario.paged [Scenario.pullsListing] in
  WithinTtl Fixture2.cachedIssues
  /\ exists r w',
      GitHubService.getRepositoryPulls 1 up "acme" "site" Fixture2.cachedIssues
      = Some (r, w')
      /\ WithinTtl w'.
Proof.
  intros up.
  assert (Hw : WithinTtl Fixture2.cachedIssues).
  { intros k entry. cbn [cache Fixture2.cachedIssues].
    rewrite lookup_singleton. case_decide; [subst k|discriminate].
    intros [= <-]. vm_compute. discriminate. }
  split; [exact Hw|].
  destruct (entries_expire_within_ttl 1 "acme" "acme" "site" Fixture2.cachedIssues
              (Scenario.always (Scenario.errorResponse ∅))
              (Scenario.always (Scenario.errorResponse ∅)) up
              (Scenario.always (Scenario.errorResponse ∅))
              Scenario.commits) as (_ & _ & Hpulls & _).
  destruct (GitHubService.getRepositoryPulls 1 up "acme" "site" Fixture2.cachedIssues)
    as [[r w']|] eqn:Hrun; [|vm_compute in Hrun; discriminate].
  exists r, w'. split; [reflexivity|]. exact (Hpulls Hw r w' eq_refl).
Defined.

(** ** Branch lookups, continued *)

Lemma dateless_items owner repo (e : Failure) (branches : list GitHubBranch.t) :
  Forall (fun item => NormalizedItem.createdAt item = ""
                      /\ NormalizedItem.updatedAt item = "")
         (map (GitHubService.normalizeBranch owner repo)
              (zip branches
                   (map GitHubService.caught
                        (map (fun _ => Err e) branches)))).
Proof. induction branches; cbn; constructor; auto. Qed.

(** X14. The gate is consulted once for all the commit lookups of a branch
    listing, when they start. If it is closed then, no lookup is sent and
    every branch comes back without dates, in a successful result. If it is
    open, one commit request goes out for every branch, in order, whatever
    the replies to the earlier ones report about the quota. *)
Theorem branch_lookups_all_or_none :
  forall (fuel : nat) (up : Upstream (list GitHubBranch.t))
         (upCommit : Upstream GitHubCommit.t) (owner repo : string)
         (w w1 w2 : World) (branches : list GitHubBranch.t),
    GitHubService.cacheGet (CacheKey.branches owner repo) w = (None, w1) ->
    GitHubService.fetchAllPages fuel up
      ("/repos/" +:+ owner +:+ "/" +:+ repo +:+ "/branches") w1
    = Some (Ok branches, w2) ->
    exists (items : list NormalizedItem.t) (w' : World),
      GitHubService.getRepositoryBranches fuel up upCommit owner repo w
      = Some (Ok (Items items), w')
      /\ (forall e,
            GitHubService.gate w2 = Some e ->
            calls w' = calls w2
            /\ length items = length branches
            /\ Forall (fun item => NormalizedItem.createdAt item = ""
                                   /\ NormalizedItem.updatedAt item = "") items)
      /\ (GitHubService.gate w2 = None ->
          calls w'
          = calls w2
            ++ map (fun b => GitHubService.resolve
                               (GitHubService.commitEndpoint owner repo
                                  (GitHubBranch.sha (GitHubBranch.commit b))))
                   branches).
Proof.
  intros fuel up upCommit owner repo w w1 w2 branches Hmiss Hfetch.
  pose proof (getRepositoryBranches_miss fuel up upCommit owner repo
                w w1 branches w2 Hmiss Hfetch) as Hrun.
  eexists. eexists. split; [exact Hrun|]. split.
  - intros e G.
    rewrite (commitLookups_gated upCommit owner repo branches w2 e G).
    cbn [fst snd]. split; [reflexivity|].
    split; [|apply dateless_items].
    apply branch_items_length. by rewrite length_map.
  - intros G. cbn [calls GitHubService.cacheSet with_cache].
    by apply commitLookups_open_calls.
Qed.

Lemma branch_lookups_all_or_none_witness :
  let up := Scenario.paged [Scenario.threeBranches] in
  let w2 := Scenario.after 5 [GitHubService.resolve
                                (GitHubService.pageUrl Scenario.branchesEndpoint 1)] in
  GitHubService.cacheGet "branches:acme/site" Scenario.fresh = (None, Scenario.fresh)
  /\ GitHubService.fetchAllPages 1 up Scenario.branchesEndpoint Scenario.fresh
     = Some (Ok Scenario.threeBranches, w2)
  /\ GitHubService.gate w2 = None
  /\ exists items w',
      GitHubService.getRepositoryBranches 1 up Scenario.commits "acme" "site"
                                          Scenario.fresh
      = Some (Ok (Items items), w')
      /\ length (calls w') = 4%nat.
Proof.
  intros up w2.
  assert (Hmiss : GitHubService.cacheGet "branches:acme/site" Scenario.fresh
                  = (None, Scenario.fresh)) by (vm_compute; reflexivity).
  assert (Hfetch : GitHubService.fetchAllPages 1 up Scenario.branchesEndpoint
                                               Scenario.fresh
                   = Some (Ok Scenario.threeBranches, w2))
    by (vm_compute; reflexivity).
  assert (G : GitHubService.gate w2 = None) by reflexivity.
  split; [exact Hmiss|]. split; [exact Hfetch|]. split; [exact G|].
  destruct (branch_lookups_all_or_none 1 up Scenario.commits "acme" "site"
              Scenario.fresh Scenario.fresh w2 Scenario.threeBranches Hmiss Hfetch)
    as (items & w' & Hrun & _ & Hopen).
  exists items, w'. split; [exact Hrun|].
  rewrite (Hopen G), length_app, length_map. reflexivity.
Defined.

(** ** Repositories *)

(** X15. On a cache miss, [getOrganizationRepos] returns one repository per
    fetched record, in the order fetched, none left out, each with the
    record's [id], [name], [description], and with [full_name], [html_url],
    [private] and [default_branch] under the names [fullName], [url],
    [isPrivate] and [defaultBranch]. *)
Theorem organization_repos_mapped :
  forall (fuel : nat) (up : Upstream (list GitHubRepository.t)) (org : string)
         (w w1 w2 : World) (repos : list GitHubRepository.t),
    GitHubService.cacheGet (CacheKey.repos org) w = (None, w1) ->
    GitHubService.fetchAllPages fuel up ("/orgs/" +:+ org +:+ "/repos") w1
    = Some (Ok repos, w2) ->
    exists (normalized : list Repository.t) (w' : World),
      GitHubService.getOrganizationRepos fuel up org w
      = Some (Ok (Repositories normalized), w')
      /\ Forall2
           (fun raw repo =>
              Repository.id repo = GitHubRepository.id raw
              /\ Repository.name repo = GitHubRepository.name raw
              /\ Repository.fullName repo = GitHubRepository.full_name raw
              /\ Repository.description repo = GitHubRepository.description raw
              /\ Repository.url repo = GitHubRepository.html_url raw
              /\ Repository.isPrivate repo = GitHubRepository.private raw
              /\ Repository.defaultBranch repo = GitHubRepository.default_branch raw)
           repos normalized.
Proof.
  intros fuel up org w w1 w2 repos Hmiss Hfetch.
  eexists. eexists.
  split; [exact (getOrganizationRepos_miss _ _ _ _ _ _ _ Hmiss Hfetch)|].
  apply Forall2_map_graph. intros raw. repeat split.
Qed.

Lemma organization_repos_mapped_witness :
  let up := Scenario.paged [[Fixture2.repoRecord]] in
  let w2 := Scenario.after 5 [GitHubService.resolve
                                (GitHubService.pageUrl "/orgs/acme/repos" 1)] in
  GitHubService.cacheGet "repos:acme" Scenario.fresh = (None, Scenario.fresh)
  /\ GitHubService.fetchAllPages 1 up "/orgs/acme/repos" Scenario.fresh
     = Some (Ok [Fixture2.repoRecord], w2)
  /\ exists normalized w',
      GitHubService.getOrganizationRepos 1 up "acme" Scenario.fresh
      = Some (Ok (Repositories normalized), w')
      /\ length normalized = 1%nat.
Proof.
  intros up w2.
  assert (Hmiss : GitHubService.cacheGet "repos:acme" Scenario.fresh
                  = (None, Scenario.fresh)) by (vm_compute; reflexivity).
  assert (Hfetch : GitHubService.fetchAllPages 1 up "/orgs/acme/repos" Scenario.fresh
                   = Some (Ok [Fixture2.repoRecord], w2))
    by (vm_compute; reflexivity).
  split; [exact Hmiss|]. split; [exact Hfetch|].
  destruct (organization_repos_mapped 1 up "acme" Scenario.fresh Scenario.fresh
              w2 [Fixture2.repoRecord] Hmiss Hfetch)
    as (normalized & w' & Hrun & Hall).
  exists normalized, w'. split; [exact Hrun|].
  symmetry. exact (Forall2_length _ _ _ Hall).
Defined.

(** ** The HTTP API *)

(** The text of the gate's refusal. *)
Lemma gate_message_text (w : World) (e : Failure) :
  GitHubService.gate w = Some e ->
  exists s : Z,
    1 <= s
    /\ e = RateLimitExceeded
             ("GitHub API rate limit exceeded. Resets in "
              +:+ pretty s +:+ " seconds.").
Proof.
  unfold GitHubService.gate.
  destruct (JS.le _ _); [|discriminate].
  destruct (reset (rateLimitInfo w)) as [|r]; cbn; [discriminate|].
  destruct (Z.ltb_spec 0 (r - clock w)) as [Hpos|]; [|discriminate].
  intros [= <-]. exists (- (- (r - clock w) / 1000)). split; [|reflexivity].
  pose proof (Z.div_mod (- (r - clock w)) 1000 ltac:(lia)) as Hdm.
  pose proof (Z.mod_pos_bound (- (r - clock w)) 1000 ltac:(lia)) as Hb.
  lia.
Qed.

Section ApiFacts.
Variable rt : Api.Runtime.



Lemma falsy_empty (s : string) :
  negb (JS.truthy_string (Some s)) = true <-> s = "".
Proof. destruct s; cbn; split; congruence. Qed.

(** What a lookup that finds nothing leaves: the world as it was, but for
    an expired entry under the key, which is deleted. *)
Lemma cacheGet_miss key w w1 :
  GitHubService.cacheGet key w = (None, w1) ->
  calls w1 = calls w
  /\ rateLimitInfo w1 = rateLimitInfo w
  /\ clock w1 = clock w
  /\ (forall k, k <> key -> cache w1 !! k = cache w !! k)
  /\ (cache w !! key = None -> w1 = w)
  /\ (forall entry, cache w !! key = Some entry ->
                    expiresAt entry < clock w /\ cache w1 = delete key (cache w)).
Proof.
  intros Hmiss.
  destruct (cacheGet_frame key w) as (Hclock & Hcalls & Hrl & Hcache).
  pose proof (fun k => get_store_lookup (cache w) key (clock w) k) as Hl.
  rewrite <- Hcache in Hl. clear Hcache.
  rewrite Hmiss in Hclock, Hcalls, Hrl, Hl. cbn [snd] in *.
  unfold GitHubService.cacheGet, Cache.get in Hmiss.
  split; [exact Hcalls|]. split; [exact Hrl|]. split; [exact Hclock|].
  split; [intros k Hk; rewrite Hl; by rewrite decide_False|].
  destruct (cache w !! key) as [entry|] eqn:E.
  - split; [discriminate|]. intros ? [= <-].
    destruct (Z.ltb_spec (expiresAt entry) (clock w)) as [Hlt|_];
      [|discriminate].
    injection Hmiss as <-. split; [exact Hlt | reflexivity].
  - split; [|discriminate]. intros _.
    injection Hmiss as <-. by destruct w.
Qed.

(** A first fetch with the gate closed fails on the gate, in the world the
    lookup in the cache left. *)
Lemma cachedOr_gated {T} key (up : Upstream (list T)) endpoint fuel k w w1 e :
  GitHubService.cacheGet key w = (None, w1) ->
  GitHubService.gate w = Some e ->
  GitHubService.cachedOr key
    (fun w1 => GitHubService.andThen
                 (GitHubService.fetchAllPages (S fuel) up endpoint w1) k) w
  = Some (Err e, w1).
Proof.
  intros Hmiss G.
  destruct (cacheGet_miss key w w1 Hmiss) as (_ & Hrl & Hclock & _).
  assert (G1 : GitHubService.gate w1 = Some e)
    by (unfold GitHubService.gate in *; by rewrite Hrl, Hclock).
  rewrite (cachedOr_miss _ _ _ _ Hmiss).
  unfold GitHubService.fetchAllPages. cbn [GitHubService.fetchAllPages_loop].
  by rewrite (request_gated up _ w1 e G1).
Qed.

End ApiFacts.



(** X17. While the quota is spent, a data route whose answer is not in the
    cache (there is no entry under its key, or the entry has expired)
    responds 500 with the gate's message, telling in how many seconds (at
    least one) the quota resets. It asks nothing of the upstream and leaves
    the tracker and the clock as they are; the cache is as it was too, but
    for the expired entry under the route's key, which the lookup has
    deleted. *)
Theorem data_routes_refuse_when_quota_spent :
  forall (rt : Api.Runtime) (fuel : nat) (org owner repo : string) (w : World)
         (upRepos : Upstream (list GitHubRepository.t))
         (upIssues : Upstream (list GitHubIssue.t))
         (upPulls : Upstream (list GitHubPullRequest.t))
         (upBranches : Upstream (list GitHubBranch.t))
         (upCommit : Upstream GitHubCommit.t),
    JS.le (remaining (rateLimitInfo w)) (JS.Int 0)
    && JS.gt (reset (rateLimitInfo w)) (JS.Int (clock w)) = true ->
    org <> "" -> owner <> "" -> repo <> "" ->
    exists s : Z,
      1 <= s
      /\ let refusal (w1 : World) :=
           Some (Api.mkHttpResponse 500
                   (Api.ErrorResponse
                      (Api.mkApiError "Internal Server Error"
                         ("GitHub API rate limit exceeded. Resets in "
                          +:+ pretty s +:+ " seconds.")
                         (Some 500))), w1) in
         let left (key : string) (w1 : World) :=
           calls w1 = calls w
           /\ rateLimitInfo w1 = rateLimitInfo w
           /\ clock w1 = clock w
           /\ (forall k, k <> key -> cache w1 !! k = cache w !! k)
           /\ (cache w !! key = None -> w1 = w)
           /\ (forall entry,
                  cache w !! key = Some entry ->
                  expiresAt entry < clock w /\ cache w1 = delete key (cache w)) in
         (forall w1,
             GitHubService.cacheGet (CacheKey.repos org) w = (None, w1) ->
             Api.orgRepos rt (S fuel) upRepos org w = refusal w1
             /\ left (CacheKey.repos org) w1)
         /\ (forall w1,
                GitHubService.cacheGet (CacheKey.issues owner repo) w = (None, w1) ->
                Api.repoIssues rt (S fuel) upIssues owner repo w = refusal w1
                /\ left (CacheKey.issues owner repo) w1)
         /\ (forall w1,
                GitHubService.cacheGet (CacheKey.pulls owner repo) w = (None, w1) ->
                Api.repoPulls rt (S fuel) upPulls owner repo w = refusal w1
                /\ left (CacheKey.pulls owner repo) w1)
         /\ (forall w1,
                GitHubService.cacheGet (CacheKey.branches owner repo) w = (None, w1) ->
                Api.repoBranches rt (S fuel) upBranches upCommit owner repo w
                = refusal w1
                /\ left (CacheKey.branches owner repo) w1).
Proof.
  intros rt fuel org owner repo w upRepos upIssues upPulls upBranches upCommit
         Hspent Horg Howner Hrepo.
  destruct (gate_closed w Hspent) as [message G].
  destruct (gate_message_text w _ G) as (s & Hs & [= ->]).
  exists s. split; [exact Hs|].
  unfold Api.orgRepos, Api.repoIssues, Api.repoPulls, Api.repoBranches.
  destruct org as [|c1 org]; [done|]. destruct owner as [|c2 owner]; [done|].
  destruct repo as [|c3 repo]; [done|].
  cbn [JS.truthy_string negb orb].
  unfold GitHubService.getOrganizationRepos, GitHubService.getRepositoryIssues,
    GitHubService.getRepositoryPulls, GitHubService.getRepositoryBranches.
  repeat apply conj; intros w1 Hmiss;
    (split; [|exact (cacheGet_miss _ w w1 Hmiss)]);
    rewrite (cachedOr_gated _ _ _ _ _ _ _ _ Hmiss G); reflexivity.
Qed.

(** The quota is spent and the issues of acme/site are in the cache, expired:
    the route answers 500, the expired entry is gone and the entry of the
    pull requests is still there. *)
Lemma data_routes_refuse_when_quota_spent_witness :
  GitHubService.cacheGet "issues:acme/site" Fixture3.spentWithStaleEntry
  = (None, Fixture3.spentWithoutStaleEntry)
  /\ exists s : Z,
      1 <= s
      /\ Api.repoIssues Fixture3.runtime 1 (Scenario.paged [Scenario.issuesListing])
                        "acme" "site" Fixture3.spentWithStaleEntry
         = Some (Api.mkHttpResponse 500
                   (Api.ErrorResponse
                      (Api.mkApiError "Internal Server Error"
                         ("GitHub API rate limit exceeded. Resets in "
                          +:+ pretty s +:+ " seconds.")
                         (Some 500))), Fixture3.spentWithoutStaleEntry)
      /\ calls Fixture3.spentWithoutStaleEntry = []
      /\ cache Fixture3.spentWithoutStaleEntry
         = delete "issues:acme/site" (cache Fixture3.spentWithStaleEntry).
Proof.
  assert (Hmiss : GitHubService.cacheGet "issues:acme/site"
                    Fixture3.spentWithStaleEntry
                  = (None, Fixture3.spentWithoutStaleEntry))
    by (vm_compute; reflexivity).
  split; [exact Hmiss|].
  destruct (data_routes_refuse_when_quota_spent Fixture3.runtime 0
              "acme" "acme" "site" Fixture3.spentWithStaleEntry
              (Scenario.always (Scenario.errorResponse ∅))
              (Scenario.paged [Scenario.issuesListing])
              (Scenario.always (Scenario.errorResponse ∅))
              (Scenario.always (Scenario.errorResponse ∅)) Scenario.commits)
    as (s & Hs & _ & Hissues & _);
    [vm_compute; reflexivity | discriminate | discriminate | discriminate |].
  destruct (Hissues Fixture3.spentWithoutStaleEntry Hmiss)
    as (Hrun & Hcalls & _ & _ & _ & _ & Hentry).
  exists s. split; [exact Hs|]. split; [exact Hrun|]. split; [exact Hcalls|].
  apply (Hentry (mkCacheEntry (Items []) 900)). vm_compute. reflexivity.
Defined.



(* ===================================================================== *)
(** * Properties of the frontend *)
(* ===================================================================== *)

(** ** The column: filters *)

Lemma includes_In (l : list string) (x : string) :
  Arr.includes l x = true <-> In x l.
Proof.
  unfold Arr.includes. rewrite existsb_exists. split.
  - intros (y & Hy & Heq). apply String.eqb_eq in Heq. by subst y.
  - intros H. exists x. split; [exact H | apply String.eqb_refl].
Qed.

Lemma some_includes (wanted have : list string) :
  existsb (fun x => Arr.includes have x) wanted = true
  <-> exists x, In x wanted /\ In x have.
Proof.
  rewrite existsb_exists. split; intros (x & Hx & H); exists x;
    (split; [exact Hx | by apply includes_In]).
Qed.

Lemma nonempty_length {A} (l : list A) :
  (0 <? length l)%nat = false <-> l = [].
Proof. destruct l; cbn; split; congruence. Qed.

Lemma passes_iff (config : ColumnConfig.t) (item : NormalizedItem.t) :
  Column.passes config item = true
  <-> (ColumnConfig.filterRepos config = []
       \/ In (NormalizedItem.repository item) (ColumnConfig.filterRepos config))
      /\ (ColumnConfig.filterLabels config = []
          \/ exists l, In l (ColumnConfig.filterLabels config)
                       /\ In l (map Label.name (NormalizedItem.labels item)))
      /\ (ColumnConfig.filterAssignees config = []
          \/ exists a, In a (ColumnConfig.filterAssignees config)
                       /\ In a (map Assignee.login (NormalizedItem.assignees item))).
Proof.
  unfold Column.passes.
  rewrite <- !nonempty_length, <- includes_In, <- !some_includes.
  destruct (0 <? length (ColumnConfig.filterRepos config))%nat,
           (0 <? length (ColumnConfig.filterLabels config))%nat,
           (0 <? length (ColumnConfig.filterAssignees config))%nat;
    cbn [andb negb];
    repeat match goal with
           | |- context [Arr.includes ?l ?x] => destruct (Arr.includes l x)
           | |- context [existsb ?f ?l] => destruct (existsb f l)
           end; cbn; intuition congruence.
Qed.

(** X19. A column shows an item exactly when it passes every active filter:
    its repository is one of the selected repositories, one of its labels is
    one of the selected labels, and one of its assignees is one of the
    selected assignees, a category with nothing selected letting every item
    through. With no filter active, and hence after [clearFilters], the list
    is shown whole. *)
Theorem column_filter_characterised :
  forall (config : ColumnConfig.t) (items : list NormalizedItem.t),
    (forall item,
        In item (Column.filteredItems config items)
        <-> In item items
            /\ (ColumnConfig.filterRepos config = []
                \/ In (NormalizedItem.repository item)
                      (ColumnConfig.filterRepos config))
            /\ (ColumnConfig.filterLabels config = []
                \/ exists l, In l (ColumnConfig.filterLabels config)
                             /\ In l (map Label.name (NormalizedItem.labels item)))
            /\ (ColumnConfig.filterAssignees config = []
                \/ exists a, In a (ColumnConfig.filterAssignees config)
                             /\ In a (map Assignee.login
                                          (NormalizedItem.assignees item))))
    /\ (Column.hasActiveFilters config = false ->
        Column.filteredItems config items = items)
    /\ Column.hasActiveFilters (Column.clearFilters config) = false
    /\ Column.filteredItems (Column.clearFilters config) items = items.
Proof.
  intros config items.
  assert (Hnone : forall c, Column.hasActiveFilters c = false ->
                            Column.filteredItems c items = items).
  { intros c Hc. unfold Column.hasActiveFilters in Hc.
    apply orb_false_iff in Hc as [Hc H3]. apply orb_false_iff in Hc as [H1 H2].
    apply nonempty_length in H1, H2, H3.
    unfold Column.filteredItems. apply forallb_filter_id, forallb_forall.
    intros item _. apply passes_iff. auto. }
  split; [|split; [apply Hnone | split; [reflexivity | by apply Hnone]]].
  intros item. unfold Column.filteredItems. rewrite filter_In, passes_iff. tauto.
Qed.

Lemma column_filter_characterised_witness :
  Column.hasActiveFilters Fixture4.byCreated = false
  /\ Column.filteredItems Fixture4.byCreated
       [Fixture4.branchItem "main" None; Fixture4.branchItem "dev" None]
     = [Fixture4.branchItem "main" None; Fixture4.branchItem "dev" None].
Proof.
  split; [reflexivity|].
  destruct (column_filter_characterised Fixture4.byCreated
              [Fixture4.branchItem "main" None; Fixture4.branchItem "dev" None])
    as (_ & Hnone & _).
  apply Hnone. reflexivity.
Defined.

(** X20. Branches carry no labels and no assignees, so a Branches column with
    any label or any assignee selected as a filter is empty, whatever the
    branches are. *)
Theorem branches_hidden_by_label_or_assignee_filter :
  forall (config : ColumnConfig.t) (owner repo : string)
         (branches : list (GitHubBranch.t * option GitHubCommit.t)),
    ColumnConfig.filterLabels config <> []
    \/ ColumnConfig.filterAssignees config <> [] ->
    Column.filteredItems config
      (map (GitHubService.normalizeBranch owner repo) branches) = [].
Proof.
  intros config owner repo branches Hactive.
  unfold Column.filteredItems.
  induction branches as [|[branch commit] rest IH]; [reflexivity|].
  cbn [map List.filter]. rewrite IH.
  destruct (Column.passes config _) eqn:Hp; [|reflexivity].
  apply passes_iff in Hp as (_ & Hl & Ha). cbn in Hl, Ha.
  destruct Hactive as [Hne|Hne].
  - destruct Hl as [Hl|(l & _ & [])]. contradiction.
  - destruct Ha as [Ha|(a & _ & [])]. contradiction.
Qed.

Lemma branches_hidden_by_label_or_assignee_filter_witness :
  Column.filteredItems Fixture4.labelFilter
    (map (GitHubService.normalizeBranch "acme" "site")
         [(Scenario.branchRecord "main" "aaa", Some Scenario.commitRecord)])
  = [].
Proof.
  apply (branches_hidden_by_label_or_assignee_filter Fixture4.labelFilter).
  left. discriminate.
Defined.

(** ** The column: handlers *)

Lemma includes_app (l : list string) (x y : string) :
  Arr.includes (l ++ [y]) x = Arr.includes l x || String.eqb x y.
Proof. unfold Arr.includes. rewrite existsb_app. cbn. by rewrite orb_false_r. Qed.

Lemma includes_filter_ne (l : list string) (x y : string) :
  Arr.includes (List.filter (fun v => negb (String.eqb v y)) l) x
  = Arr.includes l x && negb (String.eqb x y).
Proof.
  unfold Arr.includes. induction l as [|v l IH]; [reflexivity|].
  cbn [List.filter existsb].
  destruct (String.eqb_spec v y) as [->|Hvy]; cbn [negb existsb].
  - rewrite IH. destruct (String.eqb_spec x y); cbn;
      [by rewrite andb_false_r | by rewrite andb_true_r].
  - rewrite IH. destruct (String.eqb_spec x v) as [->|]; cbn; [|reflexivity].
    destruct (String.eqb_spec v y); [contradiction | reflexivity].
Qed.

(** X21. Clicking a filter chip toggles that value and nothing else: after
    [handleFilterChange] the value is selected exactly if it was not before
    (every occurrence is removed, or one is appended), every other value of
    the category is selected as before, and the other two categories and the
    sort settings are unchanged. *)
Theorem handleFilterChange_toggles :
  forall (config : ColumnConfig.t) (type : Column.FilterType) (value : string),
    let config' := Column.handleFilterChange config type value in
    Arr.includes (Column.current config' type) value
    = negb (Arr.includes (Column.current config type) value)
    /\ (forall other, other <> value ->
                      Arr.includes (Column.current config' type) other
                      = Arr.includes (Column.current config type) other)
    /\ (forall type', type' <> type ->
                      Column.current config' type' = Column.current config type')
    /\ ColumnConfig.sortField config' = ColumnConfig.sortField config
    /\ ColumnConfig.sortDirection config' = ColumnConfig.sortDirection config.
Proof.
  intros config type value config'.
  assert (Hupdated :
            Column.current config' type
            = if Arr.includes (Column.current config type) value
              then List.filter (fun v => negb (String.eqb v value))
                               (Column.current config type)
              else Column.current config type ++ [value]).
  { subst config'. by destruct type. }
  split; [|split; [|split; [|split]]].
  - rewrite Hupdated.
    destruct (Arr.includes (Column.current config type) value) eqn:Hin.
    + by rewrite includes_filter_ne, String.eqb_refl, andb_false_r.
    + by rewrite includes_app, Hin, String.eqb_refl.
  - intros other Hne. rewrite Hupdated.
    assert (Hneq : String.eqb other value = false) by by apply String.eqb_neq.
    destruct (Arr.includes (Column.current config type) value).
    + by rewrite includes_filter_ne, Hneq, andb_true_r.
    + by rewrite includes_app, Hneq, orb_false_r.
  - intros type' Hne. subst config'. by destruct type, type'.
  - subst config'. by destruct type.
  - subst config'. by destruct type.
Qed.

(** X22. Clicking a sort button always makes its field the sort field.
    Clicking the active field reverses the direction, so that two clicks
    restore the configuration; clicking another field selects it in
    descending order, whatever the direction was. The filters are never
    touched. *)
Theorem handleSortChange_cycles :
  forall (config : ColumnConfig.t) (field : SortField.t),
    let config' := Column.handleSortChange config field in
    ColumnConfig.sortField config' = field
    /\ (ColumnConfig.sortField config = field ->
        ColumnConfig.sortDirection config' <> ColumnConfig.sortDirection config
        /\ Column.handleSortChange config' field = config)
    /\ (ColumnConfig.sortField config <> field ->
        ColumnConfig.sortDirection config' = SortDirection.desc)
    /\ ColumnConfig.filterRepos config' = ColumnConfig.filterRepos config
    /\ ColumnConfig.filterLabels config' = ColumnConfig.filterLabels config
    /\ ColumnConfig.filterAssignees config' = ColumnConfig.filterAssignees config.
Proof.
  intros [f d r l a] field. cbn.
  unfold Column.handleSortChange. cbn.
  destruct f, field, d; cbn; repeat split; congruence.
Qed.

Lemma handleSortChange_cycles_witness :
  Column.handleSortChange
    (Column.handleSortChange Fixture4.byCreated SortField.createdAt)
    SortField.createdAt
  = Fixture4.byCreated
  /\ ColumnConfig.sortDirection
       (Column.handleSortChange Fixture4.byCreated SortField.labels)
     = SortDirection.desc.
Proof.
  destruct (handleSortChange_cycles Fixture4.byCreated SortField.createdAt)
    as (_ & Hsame & _).
  destruct (handleSortChange_cycles Fixture4.byCreated SortField.labels)
    as (_ & _ & Hother & _).
  split; [apply Hsame; reflexivity | apply Hother; discriminate].
Defined.

Lemma handleFilterChange_toggles_witness :
  let config' := Column.handleFilterChange Fixture4.labelFilter Column.labels "bug" in
  Arr.includes (Column.current config' Column.labels) "bug" = false
  /\ Arr.includes (Column.current config' Column.labels) "docs"
     = Arr.includes (Column.current Fixture4.labelFilter Column.labels) "docs"
  /\ Column.current config' Column.repos
     = Column.current Fixture4.labelFilter Column.repos.
Proof.
  intros config'.
  destruct (handleFilterChange_toggles Fixture4.labelFilter Column.labels "bug")
    as (Hflip & Hother & Htypes & _).
  split; [exact Hflip|]. split.
  - apply Hother. discriminate.
  - apply Htypes. discriminate.
Defined.

(** ** The column: sorting *)

Section SortFacts.
Context {A : Type} (compare : A -> A -> Z).

Hypothesis total : forall a b, compare a b <= 0 \/ compare b a <= 0.
Hypothesis transitive :
  forall a b c, compare a b <= 0 -> compare b c <= 0 -> compare a c <= 0.

Lemma insert_perm (x : A) (l : list A) : Arr.insert compare x l ≡ₚ x :: l.
Proof.
  induction l as [|y rest IH]; cbn; [reflexivity|].
  destruct (compare x y <=? 0); [reflexivity|].
  rewrite IH. apply Permutation_swap.
Qed.

Lemma sort_perm (l : list A) : Arr.sort compare l ≡ₚ l.
Proof.
  induction l as [|x rest IH]; cbn; [reflexivity|].
  by rewrite insert_perm, IH.
Qed.

Lemma Forall_insert (P : A -> Prop) (x : A) (l : list A) :
  P x -> Forall P l -> Forall P (Arr.insert compare x l).
Proof. intros Hx Hl. rewrite insert_perm. by constructor. Qed.

Lemma insert_ordered (x : A) (l : list A) :
  Ordered (fun a b => compare a b <= 0) l ->
  Ordered (fun a b => compare a b <= 0) (Arr.insert compare x l).
Proof.
  induction l as [|y rest IH]; cbn; [auto|].
  intros [Hy Hrest].
  destruct (Z.leb_spec (compare x y) 0) as [Hxy|Hyx]; cbn.
  - repeat split; try assumption. constructor; [exact Hxy|].
    eapply Forall_impl; [exact Hy|]. intros z Hz. by apply (transitive x y z).
  - split; [|by apply IH].
    apply Forall_insert; [|exact Hy].
    destruct (total x y); [lia | assumption].
Qed.

Lemma sort_ordered (l : list A) :
  Ordered (fun a b => compare a b <= 0) (Arr.sort compare l).
Proof.
  induction l as [|x rest IH]; cbn; [exact I|]. by apply insert_ordered.
Qed.

End SortFacts.

Lemma Ordered_lookup {A} (R : A -> A -> Prop) (l : list A) :
  Ordered R l ->
  forall i j a b, (i < j)%nat -> l !! i = Some a -> l !! j = Some b -> R a b.
Proof.
  induction l as [|x rest IH]; intros Hl i j a b Hij Hi Hj;
    [destruct i; discriminate|].
  destruct Hl as [Hx Hrest]. destruct j as [|j]; [lia|].
  destruct i as [|i]; cbn in Hi, Hj.
  - injection Hi as <-. rewrite Forall_lookup in Hx. eauto.
  - apply (IH Hrest i j); [lia | assumption..].
Qed.

Lemma Ordered_impl {A} (R S : A -> A -> Prop) (l : list A) :
  (forall a b, R a b -> S a b) -> Ordered R l -> Ordered S l.
Proof.
  intros H. induction l as [|x rest IH]; cbn; [auto|].
  intros [Hx Hrest]. split; [|auto]. eapply Forall_impl; eauto.
Qed.

Lemma compareTimes_order (direction : SortDirection.t) (a b : Z) :
  Column.compareTimes
    (match direction with SortDirection.asc => 1 | SortDirection.desc => -1 end)
    a b <= 0
  <-> dateOrder direction a b.
Proof.
  unfold Column.compareTimes, dateOrder.
  destruct (Z.eqb_spec a 0), (Z.eqb_spec b 0), direction; cbn; lia.
Qed.

Lemma compareItems_dates browser config (a b : NormalizedItem.t) :
  ColumnConfig.sortField config = SortField.createdAt
  \/ ColumnConfig.sortField config = SortField.updatedAt ->
  Column.compareItems browser config a b <= 0
  <-> dateOrder (ColumnConfig.sortDirection config)
                (sortDate browser config a) (sortDate browser config b).
Proof.
  unfold Column.compareItems, sortDate.
  intros [-> | ->]; apply compareTimes_order.
Qed.

(** X23. A column sorted by a date shows its filtered items, each once,
    arranged so that the items without a usable date (an empty or unparsable
    string; the value 0) come after all the others in both directions, and
    the dated ones are in ascending or descending order of their time as
    the direction says. *)
Theorem date_sort_puts_dateless_last :
  forall (browser : Browser) (config : ColumnConfig.t)
         (items : list NormalizedItem.t),
    ColumnConfig.sortField config = SortField.createdAt
    \/ ColumnConfig.sortField config = SortField.updatedAt ->
    let shown := Column.sortedItems browser config items in
    shown ≡ₚ Column.filteredItems config items
    /\ forall i j a b,
         (i < j)%nat -> shown !! i = Some a -> shown !! j = Some b ->
         let ta := sortDate browser config a in
         let tb := sortDate browser config b in
         (ta = 0 -> tb = 0)
         /\ (ta <> 0 -> tb <> 0 ->
             match ColumnConfig.sortDirection config with
             | SortDirection.asc => ta <= tb
             | SortDirection.desc => tb <= ta
             end).
Proof.
  intros browser config items Hfield shown. subst shown.
  unfold Column.sortedItems. split; [apply sort_perm|].
  intros i j a b Hij Hi Hj.
  assert (Hord : Ordered (fun a b =>
                            dateOrder (ColumnConfig.sortDirection config)
                                      (sortDate browser config a)
                                      (sortDate browser config b))
                         (Arr.sort (Column.compareItems browser config)
                                   (Column.filteredItems config items))).
  { eapply Ordered_impl; [|apply sort_ordered].
    - intros x y. by apply compareItems_dates.
    - intros x y. rewrite !compareItems_dates by exact Hfield.
      unfold dateOrder. destruct (ColumnConfig.sortDirection config); lia.
    - intros x y z. rewrite !compareItems_dates by exact Hfield.
      unfold dateOrder. destruct (ColumnConfig.sortDirection config); lia. }
  exact (Ordered_lookup _ _ Hord i j a b Hij Hi Hj).
Qed.

(** Three branches, the middle one without a date, newest first: the dated
    ones come first, the newer before the older; the dateless one is last. *)
Lemma date_sort_puts_dateless_last_witness :
  let newer := NormalizedItem.mk "pr-acme-site-2" ItemType.pr "site" "acme/site"
                 "Fix crash" "unknown" None [] [] "2024-03-05T12:00:00Z"
                 "2024-03-05T12:00:00Z" "" (Some "open") (Some 2) (Some false) in
  let older := NormalizedItem.mk "pr-acme-site-1" ItemType.pr "site" "acme/site"
                 "Add docs" "unknown" None [] [] "2024-03-01T10:00:00Z"
                 "2024-03-01T10:00:00Z" "" (Some "open") (Some 1) (Some false) in
  let dateless := Fixture4.branchItem "dev" None in
  let shown := Column.sortedItems Fixture4.browser Fixture4.byCreated
                                  [older; dateless; newer] in
  shown = [newer; older; dateless]
  /\ shown ≡ₚ Column.filteredItems Fixture4.byCreated [older; dateless; newer].
Proof.
  intros newer older dateless shown.
  split; [vm_compute; reflexivity|].
  apply (date_sort_puts_dateless_last Fixture4.browser Fixture4.byCreated
           [older; dateless; newer]).
  left. reflexivity.
Defined.

(** ** The repository selector *)

#[local] Set Warnings "-clear-no-such-hyp".

(** X24. Ticking a repository twice changes nothing, and one tick changes the
    selection of that repository alone: afterwards it is selected exactly if
    it was not before, and every other repository is selected as before. *)
Theorem handleToggle_flips_one :
  forall (id : Z) (selected : gset Z),
    RepoSelector.handleToggle id (RepoSelector.handleToggle id selected) = selected
    /\ (id ∈ RepoSelector.handleToggle id selected <-> id ∉ selected)
    /\ (forall other, other <> id ->
          (other ∈ RepoSelector.handleToggle id selected <-> other ∈ selected)).
Proof.
  intros id selected. unfold RepoSelector.handleToggle.
  destruct (decide (id ∈ selected)) as [Hin|Hout].
  - rewrite (bool_decide_eq_true_2 _ Hin).
    rewrite bool_decide_eq_false_2 by set_solver.
    split; [|set_solver].
    apply set_eq. intros x. destruct (decide (x = id)); set_solver.
  - rewrite (bool_decide_eq_false_2 _ Hout).
    rewrite bool_decide_eq_true_2 by set_solver.
    split; set_solver.
Qed.

Lemma handleToggle_flips_one_witness :
  RepoSelector.handleToggle 2 (RepoSelector.handleToggle 2 {[ 1 ]}) = {[ 1 ]}
  /\ (1 ∈ RepoSelector.handleToggle 2 {[ 1 ]} <-> 1 ∈ ({[ 1 ]} : gset Z)).
Proof.
  destruct (handleToggle_flips_one 2 {[ 1 ]}) as (Htwice & _ & Hother).
  split; [exact Htwice|]. apply Hother. discriminate.
Defined.

Lemma confirm_select_filter (p : Repository.t -> bool)
      (repositories : list Repository.t) :
  NoDup (map Repository.id repositories) ->
  RepoSelector.handleConfirm repositories
    (RepoSelector.handleSelectAll (List.filter p repositories))
  = List.filter p repositories.
Proof.
  intros Hnd. unfold RepoSelector.handleConfirm, RepoSelector.handleSelectAll.
  apply filter_ext_in. intros r Hr.
  destruct (p r) eqn:Hp.
  - apply bool_decide_eq_true_2, elem_of_list_to_set, list_elem_of_In, in_map.
    apply filter_In. auto.
  - apply bool_decide_eq_false_2. intros Hin.
    apply elem_of_list_to_set, list_elem_of_In, in_map_iff in Hin
      as (r' & Hid & Hr').
    apply filter_In in Hr' as [Hr' Hp'].
    assert (r' = r); [|congruence].
    clear Hp Hp'. induction repositories as [|x rest IH]; [destruct Hr|].
    cbn in Hnd. apply NoDup_cons in Hnd as [Hx Hnd].
    assert (Hnot : forall y, In y rest -> Repository.id y <> Repository.id x).
    { intros y Hy Heq. apply Hx. rewrite <- Heq.
      apply list_elem_of_In, in_map, Hy. }
    destruct Hr as [<- | Hr], Hr' as [<- | Hr']; auto.
    + exfalso. by apply (Hnot r').
    + exfalso. apply (Hnot r Hr). by symmetry.
Qed.

(** X25. "Select All" followed by "View Dashboard" passes on exactly the
    repositories listed under the current search, in their order, provided
    the repository ids are pairwise distinct. *)
Theorem select_all_then_confirm :
  forall (browser : Browser) (repositories : list Repository.t)
         (searchTerm : string),
    NoDup (map Repository.id repositories) ->
    RepoSelector.handleConfirm repositories
      (RepoSelector.handleSelectAll
         (RepoSelector.filteredRepos browser repositories searchTerm))
    = RepoSelector.filteredRepos browser repositories searchTerm.
Proof.
  intros browser repositories searchTerm Hnd.
  unfold RepoSelector.filteredRepos.
  destruct (negb (JS.truthy_string (Some (trim browser searchTerm)))).
  - rewrite <- (filter_true repositories) at 2 3.
    by apply confirm_select_filter.
  - by apply confirm_select_filter.
Qed.

Lemma select_all_then_confirm_witness :
  NoDup (map Repository.id [Fixture4.repoA; Fixture4.repoB])
  /\ RepoSelector.handleConfirm [Fixture4.repoA; Fixture4.repoB]
       (RepoSelector.handleSelectAll
          (RepoSelector.filteredRepos Fixture4.browser
             [Fixture4.repoA; Fixture4.repoB] "doc"))
     = [Fixture4.repoB].
Proof.
  assert (Hnd : NoDup (map Repository.id [Fixture4.repoA; Fixture4.repoB])).
  { apply (bool_decide_unpack _). vm_compute. exact I. }
  split; [exact Hnd|].
  rewrite (select_all_then_confirm Fixture4.browser
             [Fixture4.repoA; Fixture4.repoB] "doc" Hnd).
  vm_compute. reflexivity.
Defined.

(** With two repositories of the same id, selecting one under a search that
    hides the other passes on both. *)
Example select_all_with_duplicate_ids :
  let twin := Repository.mk 2 "site-mirror" "acme/site-mirror" None "" false "main" in
  RepoSelector.handleConfirm [twin; Fixture4.repoB]
    (RepoSelector.handleSelectAll
       (RepoSelector.filteredRepos Fixture4.browser [twin; Fixture4.repoB] "doc"))
  = [twin; Fixture4.repoB].
Proof. vm_compute. reflexivity. Qed.

(** ** The dashboard *)




Lemma unique_In (l : list string) (x : string) : In x (Arr.unique l) <-> In x l.
Proof.
  induction l as [|y l IH]; cbn; [reflexivity|].
  rewrite filter_In, negb_true_iff, IH.
  destruct (String.eqb_spec x y) as [->|Hne]; [tauto|].
  split; [tauto|]. intros [->|H]; [contradiction | auto].
Qed.

Lemma unique_NoDup (l : list string) : NoDup (Arr.unique l).
Proof.
  induction l as [|y l IH]; cbn; [constructor|].
  apply NoDup_cons. split.
  - rewrite list_elem_of_In, filter_In, String.eqb_refl. intros [_ [=]].
  - apply NoDup_ListNoDup, List.NoDup_filter, NoDup_ListNoDup, IH.
Qed.

Lemma options_complete (l : list string) :
  NoDup (Arr.sort Arr.byCodeUnits (Arr.unique l))
  /\ forall x, In x (Arr.sort Arr.byCodeUnits (Arr.unique l)) <-> In x l.
Proof.
  pose proof (sort_perm Arr.byCodeUnits (Arr.unique l)) as Hp.
  split.
  - rewrite Hp. apply unique_NoDup.
  - intros x. split; intros H.
    + apply unique_In. exact (Permutation_in _ Hp H).
    + apply unique_In in H. symmetry in Hp. exact (Permutation_in _ Hp H).
Qed.

(** X27. The filter chips a dashboard offers: each repository name, each
    label name and each assignee login that occurs on some issue, pull
    request or branch handed to the dashboard is offered, exactly once, and
    nothing else is. *)
Theorem filter_options_complete :
  forall (issues pulls branches : list NormalizedItem.t),
    let allItems := issues ++ pulls ++ branches in
    let options := Dashboard.filterOptions issues pulls branches in
    (NoDup (Dashboard.repos options)
     /\ forall x, In x (Dashboard.repos options)
                  <-> exists item, In item allItems
                                   /\ NormalizedItem.repository item = x)
    /\ (NoDup (Dashboard.labels options)
        /\ forall x, In x (Dashboard.labels options)
                     <-> exists item label,
                           In item allItems
                           /\ In label (NormalizedItem.labels item)
                           /\ Label.name label = x)
    /\ (NoDup (Dashboard.assignees options)
        /\ forall x, In x (Dashboard.assignees options)
                     <-> exists item assignee,
                           In item allItems
                           /\ In assignee (NormalizedItem.assignees item)
                           /\ Assignee.login assignee = x).
Proof.
  intros issues pulls branches allItems options. subst options.
  unfold Dashboard.filterOptions. fold allItems. cbn.
  repeat split; try apply options_complete.
  - intros H. apply options_complete, in_map_iff in H as (item & <- & H). eauto.
  - intros (item & H & <-). apply options_complete, in_map. exact H.
  - intros H. apply options_complete, in_flat_map in H as (item & Hitem & H).
    apply in_map_iff in H as (label & <- & H). eauto.
  - intros (item & label & Hitem & H & <-).
    apply options_complete, in_flat_map. exists item. split; [exact Hitem|].
    by apply in_map.
  - intros H. apply options_complete, in_flat_map in H as (item & Hitem & H).
    apply in_map_iff in H as (assignee & <- & H). eauto.
  - intros (item & assignee & Hitem & H & <-).
    apply options_complete, in_flat_map. exists item. split; [exact Hitem|].
    by apply in_map.
Qed.

(** ** The item card *)

Lemma quotient_positive (d c : Z) :
  0 < c -> (0 <? d / c) = (c <=? d).
Proof.
  intros Hc.
  destruct (Z.leb_spec c d) as [Hle|Hlt].
  - apply Z.ltb_lt. apply Z.lt_le_trans with 1; [lia|].
    apply Z.div_le_lower_bound; lia.
  - apply Z.ltb_ge.
    assert (d / c < 1); [apply Z.div_lt_upper_bound; lia | lia].
Qed.

(** X28. The age printed on a card. For a non-empty date string, with [d]
    the milliseconds from its time to now: ["just now"] when the string is
    not a date, when the date is in the future, or when [d] is under a
    minute; whole minutes under an hour; whole hours under a day; whole days
    under a week; whole weeks under 30 days; whole 30-day months under 365
    days (so up to ["12mo ago"]); whole 365-day years from there. An empty
    string prints nothing. *)
Theorem formatRelativeTime_by_age :
  forall (browser : Browser) (now : Z) (dateString : string),
    let shown := ItemCard.formatRelativeTime browser now dateString in
    ItemCard.formatRelativeTime browser now "" = ""
    /\ (dateString <> "" ->
        (getTime browser dateString = JS.NaN -> shown = "just now")
        /\ forall t,
            getTime browser dateString = JS.Int t ->
            let d := now - t in
            let day := 86400000 in
            (d < 60000 -> shown = "just now")
            /\ (60000 <= d < 3600000 -> shown = pretty (d / 60000) +:+ "m ago")
            /\ (3600000 <= d < day -> shown = pretty (d / 3600000) +:+ "h ago")
            /\ (day <= d < 7 * day -> shown = pretty (d / day) +:+ "d ago")
            /\ (7 * day <= d < 30 * day ->
                shown = pretty (d / (7 * day)) +:+ "w ago")
            /\ (30 * day <= d < 365 * day ->
                shown = pretty (d / (30 * day)) +:+ "mo ago")
            /\ (365 * day <= d -> shown = pretty (d / (365 * day)) +:+ "y ago")).
Proof.
  intros browser now dateString shown. split; [reflexivity|].
  intros Hne. subst shown. unfold ItemCard.formatRelativeTime.
  destruct dateString as [|c rest]; [contradiction|]. cbn [JS.truthy_string negb].
  split; [by intros ->|].
  intros t ->. cbn [JS.sub ItemCard.floorDiv JS.gt JS.show].
  set (d := now - t).
  rewrite !Z.div_div by lia.
  change (1000 * 60) with 60000. change (60000 * 60) with 3600000.
  change (3600000 * 24) with 86400000. change (86400000 * 7) with 604800000.
  change (86400000 * 30) with 2592000000.
  change (86400000 * 365) with 31536000000.
  rewrite !quotient_positive by lia.
  change (7 * 86400000) with 604800000. change (30 * 86400000) with 2592000000.
  change (365 * 86400000) with 31536000000.
  repeat split; intros;
    repeat match goal with
           | |- context [(?c <=? d)] =>
               destruct (Z.leb_spec c d); try lia
           end; reflexivity.
Qed.

Lemma formatRelativeTime_by_age_witness :
  ItemCard.formatRelativeTime Fixture4.browser 1709640000000 "2024-03-01T10:00:00Z"
  = "4d ago".
Proof.
  destruct (formatRelativeTime_by_age Fixture4.browser 1709640000000
              "2024-03-01T10:00:00Z") as (_ & H).
  destruct (H ltac:(discriminate)) as (_ & Hdated).
  destruct (Hdated 1709287200000 eq_refl) as (_ & _ & _ & Hdays & _).
  rewrite Hdays by (cbv zeta; lia).
  vm_compute. reflexivity.
Defined.

(** ** Local storage *)

Lemma clearStorage_lookup (storage : gmap string string) (key : string) :
  App.clearStorage storage !! key
  = if bool_decide (In key App.STORAGE_KEYS) then None else storage !! key.
Proof.
  unfold App.clearStorage, App.STORAGE_KEYS. cbn [foldl].
  rewrite !lookup_delete.
  repeat case_decide; subst;
    first [ rewrite bool_decide_eq_true_2 by (cbn; tauto); reflexivity
          | rewrite bool_decide_eq_false_2 by (cbn; intuition congruence);
            reflexivity ].
Qed.

(** X29. "Change Organization" forgets the application's state and nothing
    else. After [clearStorage] each of the five application keys loads its
    default value, whatever was stored; every other key of the storage is
    untouched, so the three column configurations of the dashboard load as
    before. *)
Theorem clearStorage_forgets_app_state_only :
  forall (storage : gmap string string),
    (forall (T : Type) (json : App.Json T) (key : string) (defaultValue : T),
        In key App.STORAGE_KEYS ->
        App.loadFromStorage json key defaultValue (App.clearStorage storage)
        = defaultValue)
    /\ (forall key, ~ In key App.STORAGE_KEYS ->
                    App.clearStorage storage !! key = storage !! key)
    /\ (forall (json : App.Json ColumnConfig.t) (key : string)
               (defaultValue : ColumnConfig.t),
           In key [Dashboard.ISSUES_CONFIG; Dashboard.PULLS_CONFIG;
                   Dashboard.BRANCHES_CONFIG] ->
           DashboardStorage.loadConfig json key defaultValue
                                       (App.clearStorage storage)
           = DashboardStorage.loadConfig json key defaultValue storage).
Proof.
  intros storage. split; [|split].
  - intros T json key d Hkey. unfold App.loadFromStorage.
    by rewrite clearStorage_lookup, bool_decide_eq_true_2.
  - intros key Hkey. by rewrite clearStorage_lookup, bool_decide_eq_false_2.
  - intros json key d Hkey. unfold DashboardStorage.loadConfig.
    rewrite clearStorage_lookup, bool_decide_eq_false_2; [reflexivity|].
    cbn in *. intuition (subst; discriminate).
Qed.

Lemma clearStorage_forgets_app_state_only_witness :
  let storage : gmap string string :=
    {[ App.APP_STATE := "true"; Dashboard.ISSUES_CONFIG := "kept" ]} in
  App.loadFromStorage Fixture4.boolJson App.APP_STATE false (App.clearStorage storage)
  = false
  /\ App.clearStorage storage !! Dashboard.ISSUES_CONFIG
     = storage !! Dashboard.ISSUES_CONFIG.
Proof.
  intros storage.
  destruct (clearStorage_forgets_app_state_only storage) as (Happ & Hother & _).
  split.
  - apply Happ. cbn. tauto.
  - apply Hother. cbn. intuition discriminate.
Defined.

(** X30. What is saved is what is loaded. If the browser accepts the write,
    [JSON.parse] undoes [JSON.stringify] on the value and the text is not
    empty, then [loadFromStorage] after [saveToStorage] under the same key
    returns the value saved, and every other key loads as before. If the
    browser refuses the write (the quota is exceeded), the storage is left as
    it was. *)
Theorem storage_round_trip :
  forall (T : Type) (json : App.Json T) (fits : gmap string string -> bool)
         (key : string) (value defaultValue : T) (storage : gmap string string),
    let saved := App.saveToStorage json fits key value storage in
    (fits (<[key := App.stringify json value]> storage) = true ->
     App.parse json (App.stringify json value) = Some value ->
     App.stringify json value <> "" ->
     App.loadFromStorage json key defaultValue saved = value
     /\ forall (U : Type) (json' : App.Json U) (other : string) (d : U),
          other <> key ->
          App.loadFromStorage json' other d saved
          = App.loadFromStorage json' other d storage)
    /\ (fits (<[key := App.stringify json value]> storage) = false ->
        saved = storage).
Proof.
  intros T json fits key value d storage saved. subst saved.
  unfold App.saveToStorage. split.
  - intros -> Hparse Hne. unfold App.loadFromStorage. split.
    + rewrite lookup_insert_eq.
      destruct (App.stringify json value) as [|c s] eqn:E; [contradiction|].
      cbn [JS.truthy_string]. by rewrite Hparse.
    + intros U json' other d' Hother. by rewrite lookup_insert_ne.
  - by intros ->.
Qed.

Lemma storage_round_trip_witness :
  App.loadFromStorage Fixture4.boolJson App.APP_STATE false
    (App.saveToStorage Fixture4.boolJson (fun _ => true) App.APP_STATE true ∅)
  = true.
Proof.
  apply (storage_round_trip bool Fixture4.boolJson (fun _ => true) App.APP_STATE
           true false ∅); [reflexivity | reflexivity | discriminate].
Defined.
